(** * prometheus-mcp: the backend client, the tool handlers and the dispatcher

    A shallow embedding of the TypeScript sources
    - [src/prometheusClient.ts]: the class [PrometheusClient], and the type
      [Config] of the configuration module next to it;
    - [src/tools/queries.ts]: [queryTools], of which [query_range] and
      [query_node_exporter] are embedded;
    - the modules that export [healthTools] ([list_targets],
      [get_target_health]), [alertsTools] ([get_alert_history]) and
      [statusTools] ([formatBytes]);
    - the entry point of the server: the merged catalog [allTools] and the
      handler registered for [CallToolRequestSchema];
    followed by the properties the specification states about them.

    Beyond these the embedding covers [loadConfig], the other handlers of
    [queryTools] ([query_instant], [query_windows_exporter],
    [query_blackbox_exporter]), of [alertsTools] ([list_alerts],
    [get_alert_rules], [get_recording_rules]) and of [statusTools]
    ([get_prometheus_status], [get_tsdb_status]), and [metricsTools]
    ([list_metrics], [get_label_values], [find_series]), with further
    properties read off the code.  Left out are [get_metric_metadata],
    which looks names of the backend up in a plain object and so through
    its prototype chain, the [test_connection] handler, which reads the
    process environment, and the handler of [ListToolsRequestSchema],
    which is the schema converter's work.

    Conventions of the embedding.
    - A JavaScript string is a [string]; an optional property ([x?: string],
      or a property that may be [undefined]) is an [option].  Text outside
      ASCII is held in UTF-8, and where the code measures or cuts a text
      ([length], [substring]) the model counts UTF-16 code units, in
      [Text].
    - A JavaScript number is a [Z].  Every number the embedded code computes
      with is an integer.  A look-back is a multiple of 1000; whenever the
      instant [now - ms] it leads to is a valid date (at most 8.64e15 away
      from the epoch) it lies below 2^54, where it and every intermediate
      value are exactly representable as doubles, and whenever it is not,
      [toISOString] raises in JavaScript as in the model.  Numeric fields
      that are only passed through are carried as they are.  A limit
      given to a handler is an integer.
    - [toLowerCase], which follows the Unicode character database, is a
      parameter of the handler that calls it.
    - The logarithms of [formatBytes] are taken in doubles, by the
      algorithm of the engine, in [Math].
    - An [async] function is a computation in the monad [M]: it reads the
      world (the backend's replies, the clock), extends the trace of HTTP
      requests, and either returns a value or throws.
    - [axios] and the clock are the environment: [World] fixes what the
      backend answers to the n-th request and what [Date.now()] reads. *)

From Stdlib Require Import String Ascii List ZArith NArith Bool Lia.
From Stdlib Require Import Decimal DecimalString DecimalN DecimalZ.
From Stdlib Require Floats.
Import ListNotations.
Local Open Scope string_scope.
Local Open Scope Z_scope.

Set Implicit Arguments.

(** ** JavaScript values and built-ins used by the sources *)

Module JS.

Definition number : Type := Z.

(** The double quote, which the sources write inside template literals. *)
Definition dq : string := String "034"%char EmptyString.

Definition quoted (s : string) : string := dq ++ s ++ dq.

(** [Boolean(s)] for an optional string: [undefined] and [''] are falsy. *)
Definition truthy (o : option string) : bool :=
  match o with
  | Some s => negb (String.eqb s "")
  | None => false
  end.

(** [o || d] where [o] is an optional string and [d] a string. *)
Definition or_else (o : option string) (d : string) : string :=
  match o with
  | Some s => if String.eqb s "" then d else s
  | None => d
  end.

(** [`${o}`]: an absent value is rendered as the text [undefined]. *)
Definition template (o : option string) : string :=
  match o with
  | Some s => s
  | None => "undefined"
  end.

(** [String(n)] for an integer-valued number. *)
Definition String_of_number (n : number) : string :=
  NilZero.string_of_int (Z.to_int n).

(** [s.startsWith(p)] and [s.includes(sub)]. *)
Fixpoint startsWith (p s : string) : bool :=
  match p, s with
  | EmptyString, _ => true
  | String a p', String b s' => Ascii.eqb a b && startsWith p' s'
  | String _ _, EmptyString => false
  end.

Fixpoint includes (sub s : string) : bool :=
  startsWith sub s ||
  match s with
  | EmptyString => false
  | String _ s' => includes sub s'
  end.

(** The character class [\d]: the ten ASCII digits. *)
Definition isDigit (c : ascii) : bool :=
  let n := nat_of_ascii c in (48 <=? n)%nat && (n <=? 57)%nat.

Fixpoint allDigits (s : string) : bool :=
  match s with
  | EmptyString => true
  | String c r => isDigit c && allDigits r
  end.

Fixpoint digitPrefix (s : string) : string :=
  match s with
  | EmptyString => EmptyString
  | String c r => if isDigit c then String c (digitPrefix r) else EmptyString
  end.

(** [parseInt(s)] on a string that starts with its digits: the value of
    the leading run of decimal digits, [None] (NaN) when there is none.
    The call sites pass the first group of the pattern below, so leading
    white space, a sign or a radix prefix never reach it. *)
Definition parseInt (s : string) : option number :=
  match digitPrefix s with
  | EmptyString => None
  | ds => option_map (fun d => Z.of_N (N.of_uint d)) (NilEmpty.uint_of_string ds)
  end.

(** The character class [[smhdw]]. *)
Definition isUnit (c : ascii) : bool :=
  existsb (Ascii.eqb c) ["s"; "m"; "h"; "d"; "w"]%char.

Fixpoint splitLast (s : string) : option (string * ascii) :=
  match s with
  | EmptyString => None
  | String c EmptyString => Some (EmptyString, c)
  | String c r =>
      match splitLast r with
      | Some (i, l) => Some (String c i, l)
      | None => None
      end
  end.

(** [s.match(/^(\d+)([smhdw])$/)]: the two groups, or [None] for [null].
    A unit letter is no digit, so the only way to match is: the last
    character is the unit and everything before it, at least one
    character, is a digit. *)
Definition match_relative (s : string) : option (string * string) :=
  match splitLast s with
  | Some (ds, u) =>
      if negb (String.eqb ds "") && allDigits ds && isUnit u
      then Some (ds, String u EmptyString)
      else None
  | None => None
  end.

(** [/^\d+[smhdw]$/.test(s)]. *)
Definition test_relative (s : string) : bool :=
  match match_relative s with Some _ => true | None => false end.

(** A [Record<string, V>] whose keys are no array indices keeps them in
    insertion order; assigning an existing key replaces the value in
    place. *)
Definition Record (V : Type) : Type := list (string * V).

Fixpoint get {V} (o : Record V) (k : string) : option V :=
  match o with
  | [] => None
  | (k', v) :: r => if String.eqb k' k then Some v else get r k
  end.

Fixpoint set {V} (o : Record V) (k : string) (v : V) : Record V :=
  match o with
  | [] => [(k, v)]
  | (k', v') :: r => if String.eqb k' k then (k', v) :: r else (k', v') :: set r k v
  end.

Definition keys {V} (o : Record V) : list string := map fst o.

(** A run of assignments [o.k1 = v1; o.k2 = v2; ...]. *)
Definition assign {V} (o : Record V) (kvs : list (string * V)) : Record V :=
  fold_left (fun acc kv => set acc (fst kv) (snd kv)) kvs o.

(** NaN-propagating arithmetic on numbers that may be NaN ([None]). *)
Definition times (a b : option Z) : option Z :=
  match a, b with
  | Some x, Some y => Some (x * y)
  | _, _ => None
  end.

(** [a > b] where [a] may be NaN: every comparison with NaN is false. *)
Definition gt (a : option Z) (b : Z) : bool :=
  match a with
  | Some x => b <? x
  | None => false
  end.

(** Time values.  [new Date(t)] holds [t] when [|t| <= 8.64e15] and is an
    invalid date otherwise. *)
Definition maxTimeValue : Z := 8640000000000000.

Definition validTime (t : Z) : bool := Z.abs t <=? maxTimeValue.

(** A time argument sent to the backend: either a string of the caller,
    or the text [new Date(t).toISOString()] of a valid time value [t],
    which is kept symbolic. *)
Inductive TimeString : Type :=
| Verbatim (s : string)
| ISOString (t : Z).

(** *** Further built-ins, used by the handlers below *)

(** The line feed of ['\n']. *)
Definition nl : string := String "010"%char EmptyString.

(** [xs.slice(0, n)] for an integer [n]: a negative [n] counts from the
    end, and the bounds are clamped to the array. *)
Definition slice_to {A} (xs : list A) (n : Z) : list A :=
  let len := Z.of_nat (List.length xs) in
  let final := if n <? 0 then Z.max (len + n) 0 else Z.min n len in
  firstn (Z.to_nat final) xs.

(** [n || d] for an optional number: [undefined] and [0] are falsy. *)
Definition number_or (o : option Z) (d : Z) : Z :=
  match o with
  | Some n => if n =? 0 then d else n
  | None => d
  end.

(** [s.endsWith(suffix)]. *)
Definition endsWith (suffix s : string) : bool :=
  let n := String.length s in
  let m := String.length suffix in
  (m <=? n)%nat && String.eqb (substring (n - m) m s) suffix.

(** [s.slice(0, -1)]: the string without its last character. *)
Definition drop_last (s : string) : string :=
  match splitLast s with
  | Some (init, _) => init
  | None => EmptyString
  end.

(** [xs.join(sep)]. *)
Fixpoint join (sep : string) (xs : list string) : string :=
  match xs with
  | [] => EmptyString
  | [x] => x
  | x :: r => x ++ sep ++ join sep r
  end.

(** [xs.find(p)]. *)
Fixpoint find {A} (p : A -> bool) (xs : list A) : option A :=
  match xs with
  | [] => None
  | x :: r => if p x then Some x else find p r
  end.

(** [a === b] between two values that are a string or [undefined]. *)
Definition same (a b : option string) : bool :=
  match a, b with
  | Some x, Some y => String.eqb x y
  | None, None => true
  | _, _ => false
  end.

(** The number [parseFloat(text)], kept symbolic. *)
Inductive Float : Type :=
| parseFloat (text : string).

(** [key in o] and [o[key]++] for an object literal [o] of counters, with
    what every object inherits from [Object.prototype]: an inherited
    member is found by [in], and incrementing it stores NaN ([None]) under
    the key, except for [__proto__], whose setter ignores a number. *)
Definition prototype_keys : list string :=
  [ "constructor"; "__defineGetter__"; "__defineSetter__"; "hasOwnProperty";
    "__lookupGetter__"; "__lookupSetter__"; "isPrototypeOf";
    "propertyIsEnumerable"; "toString"; "valueOf"; "__proto__";
    "toLocaleString" ].

Definition key_in {V} (key : string) (o : Record V) : bool :=
  match get o key with
  | Some _ => true
  | None => existsb (String.eqb key) prototype_keys
  end.

Definition increment (o : Record (option Z)) (key : string) : Record (option Z) :=
  match get o key with
  | Some (Some n) => set o key (Some (n + 1))
  | Some None => o
  | None => if String.eqb key "__proto__" then o else set o key None
  end.

(** [a + b] on numbers that may be NaN. *)
Definition plus (a b : option Z) : option Z :=
  match a, b with
  | Some x, Some y => Some (x + y)
  | _, _ => None
  end.

End JS.

(** ** Text outside ASCII

    A [string] holds a text in UTF-8.  [s.length] and [s.substring]
    measure a text in UTF-16 code units: a character of one, two or three
    bytes is one unit, a character of four bytes is two units (a surrogate
    pair), and a continuation byte belongs to the character before it. *)

Module Text.

(** The code units of the character that starts with the byte [c]; none
    for a continuation byte. *)
Definition units (c : ascii) : nat :=
  let n := nat_of_ascii c in
  if (n <? 128)%nat then 1%nat
  else if (n <? 192)%nat then 0%nat
  else if (n <? 240)%nat then 1%nat
  else 2%nat.

(** [s.length]. *)
Fixpoint length (s : string) : nat :=
  match s with
  | EmptyString => 0%nat
  | String c r => (units c + length r)%nat
  end.

(** The first half of the surrogate pair of a character of four bytes,
    of which [c] is the first and [r] holds the others: the bits above
    the low ten of the code point less 0x10000, on 0xD800.  The half is
    kept as the three bytes that spell its code. *)
Definition high_surrogate (c : ascii) (r : string) : string :=
  let byte (k : nat) :=
    match String.get k r with
    | Some b => (nat_of_ascii b mod 64)%nat
    | None => 0%nat
    end in
  let top := ((nat_of_ascii c mod 8) * 256 + byte 0%nat * 4 + byte 1%nat / 16 - 64)%nat in
  String (ascii_of_nat 237)
    (String (ascii_of_nat (160 + (top / 64) mod 16))
       (String (ascii_of_nat (128 + top mod 64)) EmptyString)).

(** [s.substring(0, n)]: the characters that lie within the first [n]
    code units, and the first half of a surrogate pair that straddles the
    end. *)
Fixpoint substring_to (n : nat) (s : string) : string :=
  match s with
  | EmptyString => EmptyString
  | String c r =>
      match units c with
      | O => String c (substring_to n r)
      | u =>
          if (u <=? n)%nat then String c (substring_to (n - u) r)
          else match n with
               | O => EmptyString
               | _ => high_surrogate c r
               end
      end
  end.

End Text.

(** ** [Math.log] and [Math.floor] on doubles

    A double is a [float] of the kernel, whose arithmetic is that of
    IEEE 754 binary64.  [Math.log] is the algorithm of the engine the
    program runs on: V8 computes it with the [log] of fdlibm, followed
    here step by step, with [hx] the high word of the argument less its
    exponent. *)

Module Math.

Import Floats.
Local Open Scope float_scope.

Definition ln2_hi : float := 0x1.62e42fee00000p-1.
Definition ln2_lo : float := 0x1.a39ef35793c76p-33.
Definition two54 : float := 0x1p54.
Definition Lg1 : float := 0x1.5555555555593p-1.
Definition Lg2 : float := 0x1.999999997fa04p-2.
Definition Lg3 : float := 0x1.2492494229359p-2.
Definition Lg4 : float := 0x1.c71c51d8e78afp-3.
Definition Lg5 : float := 0x1.7466496cb03dep-3.
Definition Lg6 : float := 0x1.39a09d078c69fp-3.
Definition Lg7 : float := 0x1.2f112df3e5244p-3.

(** The double that holds the integer [n], for [|n| < 2^53]. *)
Definition double (n : Z) : float :=
  if (n <? 0)%Z then - of_uint63 (Uint63.of_Z (- n)) else of_uint63 (Uint63.of_Z n).

(** The logarithm of the normal double [m * 2^(k - 52)], where [m] is
    the significand of 53 bits. *)
Definition log_normal (k : Z) (m : positive) : float :=
  let hx := Z.shiftr (Z.pos m - 2 ^ 52) 32 in
  let i := Z.land (hx + 0x95f64) 0x100000 in
  (* normalize x or x/2 *)
  let x := SF2Prim (S754_finite false m (-52 - Z.shiftr i 20)) in
  let k := (k + Z.shiftr i 20)%Z in
  let f := x - 1 in
  let dk := double k in
  if (Z.land 0xfffff (2 + hx) <? 3)%Z
  then
    (* -2**-20 <= f < 2**-20 *)
    if f =? 0
    then if (k =? 0)%Z then 0 else dk * ln2_hi + dk * ln2_lo
    else
      let R := f * f * (0.5 - 0x1.5555555555555p-2 * f) in
      if (k =? 0)%Z then f - R else dk * ln2_hi - ((R - dk * ln2_lo) - f)
  else
    let s := f / (2 + f) in
    let z := s * s in
    let i := (hx - 0x6147a)%Z in
    let w := z * z in
    let j := (0x6b851 - hx)%Z in
    let t1 := w * (Lg2 + w * (Lg4 + w * Lg6)) in
    let t2 := z * (Lg1 + w * (Lg3 + w * (Lg5 + w * Lg7))) in
    let i := Z.lor i j in
    let R := t2 + t1 in
    if (0 <? i)%Z
    then
      let hfsq := 0.5 * f * f in
      if (k =? 0)%Z then f - (hfsq - s * (hfsq + R))
      else dk * ln2_hi - ((hfsq - (s * (hfsq + R) + dk * ln2_lo)) - f)
    else
      if (k =? 0)%Z then f - s * (f - R)
      else dk * ln2_hi - ((s * (f - R) - dk * ln2_lo) - f).

(** [Math.log(x)]: NaN below zero, minus infinity at zero; a subnormal
    argument is scaled by [2^54] first. *)
Definition log (x : float) : float :=
  match Prim2SF x with
  | S754_nan => nan
  | S754_infinity false => infinity
  | S754_infinity true => nan
  | S754_zero _ => neg_infinity
  | S754_finite true _ _ => nan
  | S754_finite false _ _ =>
      let subnormal := x <? 0x1p-1022 in
      match Prim2SF (if subnormal then x * two54 else x) with
      | S754_finite _ m e => log_normal ((if subnormal then -54 else 0) + (e + 52)) m
      | _ => nan
      end
  end.

(** [Math.floor(x)] as an integer; [None] when [x] is NaN or infinite. *)
Definition floor (x : float) : option Z :=
  match Prim2SF x with
  | S754_zero _ => Some 0%Z
  | S754_finite s m e =>
      let below := if (0 <=? e)%Z then (Z.pos m * 2 ^ e)%Z else (Z.pos m / 2 ^ (- e))%Z in
      let whole := if (0 <=? e)%Z then true else (Z.pos m mod 2 ^ (- e) =? 0)%Z in
      Some (if s then if whole then (- below)%Z else (- below - 1)%Z else below)
  | _ => None
  end.

End Math.

Import JS.

(** ** Data model: the interfaces of [prometheusClient.ts] and [config.ts] *)

(** [Record<string, string>]: label sets and annotations. *)
Definition Labels : Type := JS.Record string.

(** [PrometheusResponse<T>], the envelope of every backend answer. *)
Record PrometheusResponse (T : Type) : Type := {
  status : string;
  data : T;
  errorType : option string;
  error : option string
}.

Record InstantSample : Type := {
  metric : Labels;
  value : number * string
}.

Record InstantQueryResult : Type := {
  resultType : string;
  result : list InstantSample
}.

Record RangeSeries : Type := {
  series_metric : Labels;
  values : list (number * string)
}.

Record RangeQueryResult : Type := {
  range_resultType : string;
  range_result : list RangeSeries
}.

Record Target : Type := {
  discoveredLabels : Labels;
  labels : Labels;
  scrapePool : string;
  scrapeUrl : string;
  globalUrl : string;
  lastError : string;
  lastScrape : string;
  lastScrapeDuration : number;
  health : string;
  scrapeInterval : string;
  scrapeTimeout : string
}.

Record TargetsResponse : Type := {
  activeTargets : list Target;
  droppedTargets : list Labels
}.

Record RuleAlert : Type := {
  rule_alert_labels : Labels;
  rule_alert_annotations : Labels;
  rule_alert_state : string;
  rule_alert_activeAt : string;
  rule_alert_value : string
}.

Record AlertRule : Type := {
  rule_name : string;
  rule_query : string;
  rule_duration : number;
  rule_labels : Labels;
  rule_annotations : Labels;
  rule_alerts : list RuleAlert;
  rule_health : string;
  rule_lastError : string;
  rule_evaluationTime : number;
  rule_lastEvaluation : string;
  rule_state : string;
  rule_type : string
}.

Record RuleGroup : Type := {
  group_name : string;
  group_file : string;
  group_rules : list AlertRule;
  group_interval : number;
  group_evaluationTime : number;
  group_lastEvaluation : string
}.

Record RulesResponse : Type := {
  groups : list RuleGroup
}.

Record Alert : Type := {
  alert_labels : Labels;
  alert_annotations : Labels;
  alert_state : string;
  alert_activeAt : string;
  alert_value : string
}.

Record AlertsData : Type := {
  alerts : list Alert
}.

Record MetricMetadata : Type := {
  metadata_type : string;
  metadata_help : string;
  metadata_unit : string
}.

Record BuildInfo : Type := {
  version : string;
  revision : string;
  branch : string;
  buildUser : string;
  buildDate : string;
  goVersion : string
}.

Record RuntimeInfo : Type := {
  startTime : string;
  CWD : string;
  reloadConfigSuccess : bool;
  lastConfigTime : string;
  corruptionCount : number;
  goroutineCount : number;
  GOMAXPROCS : number;
  GOMEMLIMIT : number;
  GOGC : string;
  GODEBUG : string;
  storageRetention : string
}.

Record ConfigData : Type := {
  yaml : string
}.

Record NameValue : Type := {
  nv_name : string;
  nv_value : number
}.

Record HeadStats : Type := {
  numSeries : number;
  numLabelPairs : number;
  chunkCount : number;
  minTime : number;
  maxTime : number
}.

Record TsdbStatus : Type := {
  headStats : HeadStats;
  seriesCountByMetricName : list NameValue;
  labelValueCountByLabelName : list NameValue;
  memoryInBytesByLabelName : list NameValue;
  seriesCountByLabelValuePair : list NameValue
}.

(** [Config] of [config.ts]. *)
Record Config : Type := {
  prometheusUrl : string;
  username : option string;
  password : option string
}.

(** ** The HTTP layer: axios, the backend and the clock *)

(** The configuration handed to [axios.create]. *)
Record AxiosConfig : Type := {
  baseURL : string;
  timeout : number;
  auth : option (string * string)
}.

(** One [GET] of the client: the fixed path with its query parameters. *)
Inductive Request : Type :=
| GetQuery (query : string) (time : option string)
    (* /api/v1/query *)
| GetQueryRange (query : string) (start end_ : TimeString) (step : string)
    (* /api/v1/query_range *)
| GetTargets
    (* /api/v1/targets *)
| GetMetricNames
    (* /api/v1/label/__name__/values *)
| GetMetadata (metric : option string)
    (* /api/v1/metadata *)
| GetAlerts
    (* /api/v1/alerts *)
| GetRules
    (* /api/v1/rules *)
| GetLabelValues (label : string)
    (* /api/v1/label/<label>/values *)
| GetSeries (matchers : list string) (start end_ : option string)
    (* /api/v1/series *)
| GetBuildInfo
    (* /api/v1/status/buildinfo *)
| GetRuntimeInfo
    (* /api/v1/status/runtimeinfo *)
| GetConfig
    (* /api/v1/status/config *)
| GetFlags
    (* /api/v1/status/flags *)
| GetTsdbStatus.
    (* /api/v1/status/tsdb *)

(** The type parameter of [client.get<PrometheusResponse<T>>] per path. *)
Definition payload (r : Request) : Type :=
  match r with
  | GetQuery _ _ => InstantQueryResult
  | GetQueryRange _ _ _ _ => RangeQueryResult
  | GetTargets => TargetsResponse
  | GetMetricNames => list string
  | GetMetadata _ => JS.Record (list MetricMetadata)
  | GetAlerts => AlertsData
  | GetRules => RulesResponse
  | GetLabelValues _ => list string
  | GetSeries _ _ _ => list Labels
  | GetBuildInfo => BuildInfo
  | GetRuntimeInfo => RuntimeInfo
  | GetConfig => ConfigData
  | GetFlags => Labels
  | GetTsdbStatus => TsdbStatus
  end.

(** What the code can read of the response an [AxiosError] carries:
    its status and, through [PrometheusResponse<unknown>], the envelope's
    [error] and [errorType]. *)
Record ErrorResponse : Type := {
  error_response_status : number;
  error_response_error : option string;
  error_response_errorType : option string
}.

(** Thrown values.  [Error] stands for every instance of [Error] that is
    no [AxiosError] (also [TypeError] and [RangeError]); [NonError] is any
    other thrown value, given with its [String(...)] rendering. *)
Inductive Exn : Type :=
| Error (message : string)
| AxiosError (message : string) (response : option ErrorResponse) (request : bool)
| NonError (rendering : string).

(** [error instanceof Error ? error.message : fallback]. *)
Definition message_or (fallback : Exn -> string) (e : Exn) : string :=
  match e with
  | Error m => m
  | AxiosError m _ _ => m
  | NonError _ => fallback e
  end.

(** [String(error)] for a value that is no [Error]. *)
Definition String_of_thrown (e : Exn) : string :=
  match e with
  | Error m => "Error: " ++ m
  | AxiosError m _ _ => "AxiosError: " ++ m
  | NonError r => r
  end.

(** What the backend does with one request. *)
Inductive HttpReply (T : Type) : Type :=
| Reply (http_status : number) (body : PrometheusResponse T)
    (* a response arrived *)
| NoReply (message : string)
    (* the request was made, no response arrived: refused, DNS, timeout *)
| Fault (e : Exn).
    (* any other rejection of the call *)

Arguments NoReply {T} message.
Arguments Fault {T} e.

(** The response [axios] resolves with. *)
Record AxiosResponse (T : Type) : Type := {
  response_status : number;
  response_data : PrometheusResponse T
}.

(** One request as it left the client. *)
Record Sent : Type := {
  via : AxiosConfig;
  request : Request
}.

(** The world of one tool call: the reply to the [n]-th request and the
    [n]-th reading of [Date.now()]. *)
Record World : Type := {
  respond : nat -> AxiosConfig -> forall r : Request, HttpReply (payload r);
  clock : nat -> Z
}.

Record State : Type := {
  trace : list Sent;
  ticks : nat
}.

Inductive Outcome (A : Type) : Type :=
| Return (a : A)
| Throw (e : Exn).

Arguments Throw {A} e.

(** An [async] computation. *)
Definition M (A : Type) : Type := World -> State -> Outcome A * State.

Definition ret {A} (a : A) : M A := fun _ s => (Return a, s).

Definition throw {A} (e : Exn) : M A := fun _ s => (Throw e, s).

Definition bind {A B} (m : M A) (k : A -> M B) : M B :=
  fun w s =>
    match m w s with
    | (Return a, s') => k a w s'
    | (Throw e, s') => (Throw e, s')
    end.

(** [try { body } catch (error) { handler }]. *)
Definition try_catch {A} (body : M A) (handler : Exn -> M A) : M A :=
  fun w s =>
    match body w s with
    | (Return a, s') => (Return a, s')
    | (Throw e, s') => handler e w s'
    end.

(** A synchronous sub-expression that may throw. *)
Definition lift {A} (o : Outcome A) : M A :=
  fun _ s => (o, s).

Declare Scope js_scope.
Delimit Scope js_scope with js.
Notation "x <- m ;; k" := (bind m (fun x => k))
  (at level 61, m at next level, right associativity) : js_scope.
Notation "'await' m" := m (at level 60, only parsing) : js_scope.
Local Open Scope js_scope.

(** [for (const x of xs) { body }] with an accumulator. *)
Fixpoint for_of {A B} (xs : list A) (acc : B) (body : B -> A -> M B) : M B :=
  match xs with
  | [] => ret acc
  | x :: r => acc' <- body acc x ;; for_of r acc' body
  end.

(** [xs.map(f)] where [f] may throw. *)
Fixpoint map_throwing {A B} (f : A -> Outcome B) (xs : list A) : Outcome (list B) :=
  match xs with
  | [] => Return []
  | x :: r =>
      match f x with
      | Return y =>
          match map_throwing f r with
          | Return ys => Return (y :: ys)
          | Throw e => Throw e
          end
      | Throw e => Throw e
      end
  end.

(** [Date.now()]. *)
Definition Date_now : M Z :=
  fun w s => (Return (clock w (ticks s)), {| trace := trace s; ticks := S (ticks s) |}).

(** [new Date(t).toISOString()]: a [RangeError] on an invalid date. *)
Definition toISOString (t : Z) : Outcome TimeString :=
  if validTime t then Return (ISOString t) else Throw (Error "Invalid time value").

(** [new Date().toISOString()]: the current date is always valid. *)
Definition now_ISOString : M TimeString :=
  t <- Date_now ;; ret (ISOString t).

(** [instance.get(path, { params })] of axios with its default
    [validateStatus]: a response resolves the promise when its status is
    2xx and rejects it with an [AxiosError] carrying the response
    otherwise. *)
Definition axios_get (cfg : AxiosConfig) (r : Request) : M (AxiosResponse (payload r)) :=
  fun w s =>
    let s' := {| trace := trace s ++ [ {| via := cfg; request := r |} ];
                 ticks := ticks s |} in
    match respond w (length (trace s)) cfg r with
    | Reply st body =>
        if (200 <=? st) && (st <? 300)
        then (Return {| response_status := st; response_data := body |}, s')
        else (Throw (AxiosError
                       ("Request failed with status code " ++ String_of_number st)
                       (Some {| error_response_status := st;
                                error_response_error := error body;
                                error_response_errorType := errorType body |})
                       true), s')
    | NoReply msg => (Throw (AxiosError msg None true), s')
    | Fault e => (Throw e, s')
    end.

(** ** [class PrometheusClient] *)

Record PrometheusClient : Type := {
  client : AxiosConfig;   (* the instance made by [axios.create(axiosConfig)] *)
  config : Config
}.

(** The constructor. *)
Definition new_PrometheusClient (config : Config) : PrometheusClient :=
  let axiosConfig :=
    {| baseURL := prometheusUrl config; timeout := 30000; auth := None |} in
  (* Add basic auth if credentials provided *)
  let axiosConfig :=
    match username config, password config with
    | Some u, Some p =>
        if truthy (Some u) && truthy (Some p)
        then {| baseURL := baseURL axiosConfig;
                timeout := timeout axiosConfig;
                auth := Some (u, p) |}
        else axiosConfig
    | _, _ => axiosConfig
    end in
  {| client := axiosConfig; config := config |}.

(** The value thrown by [handleError(error)], which never returns. *)
Definition handled (this : PrometheusClient) (err : Exn) : Exn :=
  match err with
  | AxiosError message (Some response) _ =>
      Error ("Prometheus API error: "
             ++ or_else (error_response_error response) message
             ++ " ("
             ++ or_else (error_response_errorType response)
                  (String_of_number (error_response_status response))
             ++ ")")
  | AxiosError message None true =>
      Error ("Cannot connect to Prometheus at "
             ++ prometheusUrl (config this) ++ ": " ++ message)
  | _ => err
  end.

Definition handleError {A} (this : PrometheusClient) (err : Exn) : M A :=
  throw (handled this err).

(** [params.k = v] under [if (v)]: a falsy value leaves the key out. *)
Definition if_truthy (o : option string) : option string :=
  if truthy o then o else None.

Definition is_success {T} (r : AxiosResponse T) : bool :=
  String.eqb (status (response_data r)) "success".

Record ConnectionStatus : Type := {
  connection_status : string;
  connection_version : option string
}.

Definition testConnection (this : PrometheusClient) : M ConnectionStatus :=
  try_catch
    ((* Try to get build info *)
     response <- await (axios_get (client this) GetBuildInfo) ;;
     ret {| connection_status := "connected";
            connection_version := Some (version (data (response_data response))) |})
    (fun err =>
       (* If buildinfo fails, try a simple query *)
       try_catch
         (_ <- await (axios_get (client this) (GetQuery "up" None)) ;;
          ret {| connection_status := "connected"; connection_version := None |})
         (fun _ => handleError this err)).

Definition queryInstant (this : PrometheusClient) (query : string) (time : option string)
  : M InstantQueryResult :=
  try_catch
    (response <- await (axios_get (client this) (GetQuery query (if_truthy time))) ;;
     if negb (is_success response)
     then throw (Error ("Query failed: " ++ template (error (response_data response))))
     else ret (data (response_data response)))
    (handleError this).

Definition queryRange (this : PrometheusClient) (query : string)
    (start end_ : TimeString) (step : string) : M RangeQueryResult :=
  try_catch
    (response <- await (axios_get (client this) (GetQueryRange query start end_ step)) ;;
     if negb (is_success response)
     then throw (Error ("Query failed: " ++ template (error (response_data response))))
     else ret (data (response_data response)))
    (handleError this).

Definition getTargets (this : PrometheusClient) : M TargetsResponse :=
  try_catch
    (response <- await (axios_get (client this) GetTargets) ;;
     if negb (is_success response)
     then throw (Error ("Failed to get targets: " ++ template (error (response_data response))))
     else ret (data (response_data response)))
    (handleError this).

Definition getMetrics (this : PrometheusClient) : M (list string) :=
  try_catch
    (response <- await (axios_get (client this) GetMetricNames) ;;
     if negb (is_success response)
     then throw (Error ("Failed to get metrics: " ++ template (error (response_data response))))
     else ret (data (response_data response)))
    (handleError this).

Definition getMetricMetadata (this : PrometheusClient) (metric : option string)
  : M (JS.Record (list MetricMetadata)) :=
  try_catch
    (response <- await (axios_get (client this) (GetMetadata (if_truthy metric))) ;;
     if negb (is_success response)
     then throw (Error ("Failed to get metadata: " ++ template (error (response_data response))))
     else ret (data (response_data response)))
    (handleError this).

Definition getAlerts (this : PrometheusClient) : M (list Alert) :=
  try_catch
    (response <- await (axios_get (client this) GetAlerts) ;;
     if negb (is_success response)
     then throw (Error ("Failed to get alerts: " ++ template (error (response_data response))))
     else ret (alerts (data (response_data response))))
    (handleError this).

Definition getRules (this : PrometheusClient) : M RulesResponse :=
  try_catch
    (response <- await (axios_get (client this) GetRules) ;;
     if negb (is_success response)
     then throw (Error ("Failed to get rules: " ++ template (error (response_data response))))
     else ret (data (response_data response)))
    (handleError this).

Definition getLabelValues (this : PrometheusClient) (label : string) : M (list string) :=
  try_catch
    (response <- await (axios_get (client this) (GetLabelValues label)) ;;
     if negb (is_success response)
     then throw (Error ("Failed to get label values: " ++ template (error (response_data response))))
     else ret (data (response_data response)))
    (handleError this).

Definition getSeries (this : PrometheusClient) (matchers : list string)
    (start end_ : option string) : M (list Labels) :=
  try_catch
    (response <- await (axios_get (client this)
                          (GetSeries matchers (if_truthy start) (if_truthy end_))) ;;
     if negb (is_success response)
     then throw (Error ("Failed to get series: " ++ template (error (response_data response))))
     else ret (data (response_data response)))
    (handleError this).

Definition getBuildInfo (this : PrometheusClient) : M BuildInfo :=
  try_catch
    (response <- await (axios_get (client this) GetBuildInfo) ;;
     if negb (is_success response)
     then throw (Error ("Failed to get build info: " ++ template (error (response_data response))))
     else ret (data (response_data response)))
    (handleError this).

Definition getRuntimeInfo (this : PrometheusClient) : M RuntimeInfo :=
  try_catch
    (response <- await (axios_get (client this) GetRuntimeInfo) ;;
     if negb (is_success response)
     then throw (Error ("Failed to get runtime info: " ++ template (error (response_data response))))
     else ret (data (response_data response)))
    (handleError this).

Definition getConfig (this : PrometheusClient) : M string :=
  try_catch
    (response <- await (axios_get (client this) GetConfig) ;;
     if negb (is_success response)
     then throw (Error ("Failed to get config: " ++ template (error (response_data response))))
     else ret (yaml (data (response_data response))))
    (handleError this).

Definition getFlags (this : PrometheusClient) : M Labels :=
  try_catch
    (response <- await (axios_get (client this) GetFlags) ;;
     if negb (is_success response)
     then throw (Error ("Failed to get flags: " ++ template (error (response_data response))))
     else ret (data (response_data response)))
    (handleError this).

Definition getTsdbStatus (this : PrometheusClient) : M TsdbStatus :=
  try_catch
    (response <- await (axios_get (client this) GetTsdbStatus) ;;
     if negb (is_success response)
     then throw (Error ("Failed to get TSDB status: " ++ template (error (response_data response))))
     else ret (data (response_data response)))
    (handleError this).

(** ** [loadConfig] of [config.ts] *)

(** The three variables [loadConfig] reads from [process.env]. *)
Record Env : Type := {
  PROMETHEUS_URL : option string;
  PROMETHEUS_USERNAME : option string;
  PROMETHEUS_PASSWORD : option string
}.

Section LoadConfig.

(** The check behind [z.string().url(...)]: whether the string parses as a
    URL. *)
Variable isURL : string -> bool.

(** [process.env.X || undefined]. *)
Definition or_undefined (o : option string) : option string :=
  if truthy o then o else None.

(** [ConfigSchema.safeParse(config)] on an object whose [prometheusUrl] is
    a string and whose credentials are strings or absent, as [loadConfig]
    builds it: the only issue there can be is the URL check, and it is
    rendered as [path: message]. *)
Definition configuration_errors (config : Config) : list string :=
  if isURL (prometheusUrl config)
  then []
  else ["prometheusUrl" ++ ": " ++ "PROMETHEUS_URL must be a valid URL"].

Definition loadConfig (env : Env) : Outcome Config :=
  let config :=
    {| prometheusUrl := or_else (PROMETHEUS_URL env) "";
       username := or_undefined (PROMETHEUS_USERNAME env);
       password := or_undefined (PROMETHEUS_PASSWORD env) |} in
  (* Remove trailing slash from URL if present *)
  let config :=
    if endsWith "/" (prometheusUrl config)
    then {| prometheusUrl := drop_last (prometheusUrl config);
            username := username config;
            password := password config |}
    else config in
  match configuration_errors config with
  | [] => Return config
  | errors => Throw (Error ("Configuration error:" ++ nl ++ join nl errors))
  end.

End LoadConfig.

(** ** [healthTools]: [list_targets] and [get_target_health] *)

Module healthTools.

Record ListTargetsArgs : Type := {
  args_health : option string
}.

Record Summary : Type := {
  total : number;
  up : number;
  down : number;
  unknown : number;
  dropped : number
}.

Record ListedTarget : Type := {
  lt_job : option string;
  lt_instance : option string;
  lt_health : string;
  lt_lastScrape : string;
  lt_lastScrapeDuration : number;
  lt_lastError : option string;   (* [null] for [None] *)
  lt_scrapeUrl : string
}.

Record ListTargetsResult : Type := {
  summary : Summary;
  listed : list ListedTarget      (* the key [activeTargets] of the result *)
}.

(** [xs.length] and [xs.filter(p).length] as numbers. *)
Definition length_of {A} (xs : list A) : number := Z.of_nat (length xs).

(** [s || null]. *)
Definition or_null (s : string) : option string :=
  if String.eqb s "" then None else Some s.

Definition health_is (h : string) (t : Target) : bool := String.eqb (health t) h.

Definition list_targets (client : PrometheusClient) (args : ListTargetsArgs)
  : M ListTargetsResult :=
  targets <- await (getTargets client) ;;
  let activeTargets0 := activeTargets targets in
  (* Filter by health if specified *)
  let activeTargets1 :=
    match args_health args with
    | Some h =>
        if truthy (Some h) && negb (String.eqb h "all")
        then filter (health_is h) activeTargets0
        else activeTargets0
    | None => activeTargets0
    end in
  ret {| summary :=
           {| total := length_of (activeTargets targets);
              up := length_of (filter (health_is "up") (activeTargets targets));
              down := length_of (filter (health_is "down") (activeTargets targets));
              unknown := length_of (filter (health_is "unknown") (activeTargets targets));
              dropped := length_of (droppedTargets targets) |};
         listed :=
           map (fun t =>
                  {| lt_job := get (labels t) "job";
                     lt_instance := get (labels t) "instance";
                     lt_health := health t;
                     lt_lastScrape := lastScrape t;
                     lt_lastScrapeDuration := lastScrapeDuration t;
                     lt_lastError := or_null (lastError t);
                     lt_scrapeUrl := scrapeUrl t |})
               activeTargets1 |}.

Record TargetHealthArgs : Type := {
  args_job : option string;
  args_instance : option string
}.

Record TargetHealth : Type := {
  th_job : option string;
  th_instance : option string;
  th_health : string;
  th_lastScrape : string;
  th_lastScrapeDuration : number;
  th_lastError : option string;
  th_scrapeUrl : string;
  th_scrapeInterval : string;
  th_labels : Labels
}.

(** The two shapes of the result: [{ found: false, message }] and
    [{ found: true, targets }]. *)
Record TargetHealthResult : Type := {
  found : bool;
  message : option string;
  targets : option (list TargetHealth)
}.

(** [a !== b] between two values that are a string or [undefined]. *)
Definition differs (a b : option string) : bool :=
  match a, b with
  | Some x, Some y => negb (String.eqb x y)
  | None, None => false
  | _, _ => true
  end.

Definition matches_filter (args : TargetHealthArgs) (t : Target) : bool :=
  if truthy (args_job args) &&
     differs (get (labels t) "job") (args_job args)
  then false
  else if truthy (args_instance args) &&
          differs (get (labels t) "instance") (args_instance args)
  then false
  else true.

Definition get_target_health (client : PrometheusClient) (args : TargetHealthArgs)
  : M TargetHealthResult :=
  if negb (truthy (args_job args)) && negb (truthy (args_instance args))
  then throw (Error "At least one of job or instance must be specified")
  else
    targets <- await (getTargets client) ;;
    let filtered := filter (matches_filter args) (activeTargets targets) in
    if length_of filtered =? 0
    then ret {| found := false;
                message := Some "No matching targets found";
                targets := None |}
    else ret {| found := true;
                message := None;
                targets :=
                  Some (map (fun t =>
                               {| th_job := get (labels t) "job";
                                  th_instance := get (labels t) "instance";
                                  th_health := health t;
                                  th_lastScrape := lastScrape t;
                                  th_lastScrapeDuration := lastScrapeDuration t;
                                  th_lastError := or_null (lastError t);
                                  th_scrapeUrl := scrapeUrl t;
                                  th_scrapeInterval := scrapeInterval t;
                                  th_labels := labels t |})
                            filtered) |}.

End healthTools.

(** ** [queryTools] *)

Module queryTools.

Record QueryRangeArgs : Type := {
  args_query : string;
  args_start : string;
  args_end : option string;
  args_step : option string
}.

Record TimeRange : Type := {
  tr_start : TimeString;
  tr_end : TimeString;
  tr_step : string
}.

Record RangeValue : Type := {
  rv_timestamp : TimeString;
  rv_value : string
}.

Record RangeResultRow : Type := {
  row_metric : Labels;
  valueCount : number;
  row_values : list RangeValue
}.

Record QueryRangeResult : Type := {
  qr_resultType : string;
  resultCount : number;
  timeRange : TimeRange;
  results : list RangeResultRow
}.

Definition multipliers : JS.Record number :=
  [ ("s", 1000);
    ("m", 60 * 1000);
    ("h", 60 * 60 * 1000);
    ("d", 24 * 60 * 60 * 1000);
    ("w", 7 * 24 * 60 * 60 * 1000) ].

(** [new Date(Date.now() - ms).toISOString()], [ms] possibly NaN. *)
Definition ago_ISOString (ms : option Z) : M TimeString :=
  now <- Date_now ;;
  match ms with
  | Some ms => lift (toISOString (now - ms))
  | None => throw (Error "Invalid time value")
  end.

Definition query_range (client : PrometheusClient) (args : QueryRangeArgs)
  : M QueryRangeResult :=
  (* Handle relative time for start (e.g., "1h" means 1 hour ago) *)
  start <-
    (if test_relative (args_start args)
     then
       match match_relative (args_start args) with
       | Some (digits, unit) =>
           let value := parseInt digits in
           let ms := times value (get multipliers unit) in
           ago_ISOString ms
       | None => ret (Verbatim (args_start args))
       end
     else ret (Verbatim (args_start args))) ;;
  end_ <-
    (match args_end args with
     | Some e => if truthy (Some e) then ret (Verbatim e) else now_ISOString
     | None => now_ISOString
     end) ;;
  let step := or_else (args_step args) "1m" in
  result <- await (queryRange client (args_query args) start end_ step) ;;
  rows <-
    lift (map_throwing
            (fun r =>
               match map_throwing
                       (fun v =>
                          match toISOString (fst v * 1000) with
                          | Return ts => Return {| rv_timestamp := ts; rv_value := snd v |}
                          | Throw e => Throw e
                          end)
                       (values r) with
               | Return vs =>
                   Return {| row_metric := series_metric r;
                             valueCount := Z.of_nat (length (values r));
                             row_values := vs |}
               | Throw e => Throw e
               end)
            (range_result result)) ;;
  ret {| qr_resultType := range_resultType result;
         resultCount := Z.of_nat (length (range_result result));
         timeRange := {| tr_start := start; tr_end := end_; tr_step := step |};
         results := rows |}.

Record NodeExporterArgs : Type := {
  args_instance : string;
  args_metric : string;
  args_timeRange : option string
}.

Record LabelledValue : Type := {
  lv_labels : Labels;
  lv_value : string
}.

(** What is stored under a sub-query's name: the reshaped samples, or
    the inline object [{ error: message }]. *)
Inductive MetricResult : Type :=
| Samples (rows : list LabelledValue)
| InlineError (error : string).

Record NodeExporterResult : Type := {
  ne_instance : string;
  ne_timeRange : string;
  metrics : JS.Record MetricResult
}.

(** The object [queries] as the handler has filled it before the loop. *)
Definition node_exporter_queries (instance range metric : string) : JS.Record string :=
  let queries : JS.Record string := [] in
  let queries :=
    if String.eqb metric "cpu" || String.eqb metric "all"
    then assign queries
           [ ("cpuUsagePercent",
              "100 - (avg by (instance) (rate(node_cpu_seconds_total{instance="
              ++ quoted instance ++ ",mode=" ++ quoted "idle" ++ "}[" ++ range
              ++ "])) * 100)");
             ("cpuUserPercent",
              "avg by (instance) (rate(node_cpu_seconds_total{instance="
              ++ quoted instance ++ ",mode=" ++ quoted "user" ++ "}[" ++ range
              ++ "])) * 100");
             ("cpuSystemPercent",
              "avg by (instance) (rate(node_cpu_seconds_total{instance="
              ++ quoted instance ++ ",mode=" ++ quoted "system" ++ "}[" ++ range
              ++ "])) * 100");
             ("cpuIowaitPercent",
              "avg by (instance) (rate(node_cpu_seconds_total{instance="
              ++ quoted instance ++ ",mode=" ++ quoted "iowait" ++ "}[" ++ range
              ++ "])) * 100") ]
    else queries in
  let queries :=
    if String.eqb metric "memory" || String.eqb metric "all"
    then assign queries
           [ ("memoryTotalBytes",
              "node_memory_MemTotal_bytes{instance=" ++ quoted instance ++ "}");
             ("memoryAvailableBytes",
              "node_memory_MemAvailable_bytes{instance=" ++ quoted instance ++ "}");
             ("memoryUsedPercent",
              "100 - (node_memory_MemAvailable_bytes{instance=" ++ quoted instance
              ++ "} / node_memory_MemTotal_bytes{instance=" ++ quoted instance
              ++ "} * 100)");
             ("swapUsedPercent",
              "100 - (node_memory_SwapFree_bytes{instance=" ++ quoted instance
              ++ "} / node_memory_SwapTotal_bytes{instance=" ++ quoted instance
              ++ "} * 100)") ]
    else queries in
  let queries :=
    if String.eqb metric "disk" || String.eqb metric "all"
    then assign queries
           [ ("diskReadBytesPerSec",
              "rate(node_disk_read_bytes_total{instance=" ++ quoted instance ++ "}["
              ++ range ++ "])");
             ("diskWriteBytesPerSec",
              "rate(node_disk_written_bytes_total{instance=" ++ quoted instance
              ++ "}[" ++ range ++ "])");
             ("diskIOUtilization",
              "rate(node_disk_io_time_seconds_total{instance=" ++ quoted instance
              ++ "}[" ++ range ++ "]) * 100") ]
    else queries in
  let queries :=
    if String.eqb metric "filesystem" || String.eqb metric "all"
    then assign queries
           [ ("filesystemUsedPercent",
              "100 - (node_filesystem_avail_bytes{instance=" ++ quoted instance
              ++ ",fstype!~" ++ quoted "tmpfs|overlay"
              ++ "} / node_filesystem_size_bytes{instance=" ++ quoted instance
              ++ ",fstype!~" ++ quoted "tmpfs|overlay" ++ "} * 100)");
             ("filesystemAvailableBytes",
              "node_filesystem_avail_bytes{instance=" ++ quoted instance
              ++ ",fstype!~" ++ quoted "tmpfs|overlay" ++ "}") ]
    else queries in
  let queries :=
    if String.eqb metric "network" || String.eqb metric "all"
    then assign queries
           [ ("networkReceiveBytesPerSec",
              "rate(node_network_receive_bytes_total{instance=" ++ quoted instance
              ++ ",device!~" ++ quoted "lo|veth.*|docker.*|br-.*" ++ "}[" ++ range
              ++ "])");
             ("networkTransmitBytesPerSec",
              "rate(node_network_transmit_bytes_total{instance=" ++ quoted instance
              ++ ",device!~" ++ quoted "lo|veth.*|docker.*|br-.*" ++ "}[" ++ range
              ++ "])");
             ("networkReceiveErrors",
              "rate(node_network_receive_errs_total{instance=" ++ quoted instance
              ++ "}[" ++ range ++ "])");
             ("networkTransmitErrors",
              "rate(node_network_transmit_errs_total{instance=" ++ quoted instance
              ++ "}[" ++ range ++ "])") ]
    else queries in
  let queries :=
    if String.eqb metric "load" || String.eqb metric "all"
    then assign queries
           [ ("load1",
              "node_load1{instance=" ++ quoted instance ++ "}");
             ("load5",
              "node_load5{instance=" ++ quoted instance ++ "}");
             ("load15",
              "node_load15{instance=" ++ quoted instance ++ "}");
             ("cpuCount",
              "count(node_cpu_seconds_total{instance=" ++ quoted instance ++ ",mode="
              ++ quoted "idle" ++ "})") ]
    else queries in
  queries.

Definition reshape (res : InstantQueryResult) : MetricResult :=
  Samples (map (fun r => {| lv_labels := metric r; lv_value := snd (value r) |})
               (result res)).

Definition query_node_exporter (client : PrometheusClient) (args : NodeExporterArgs)
  : M NodeExporterResult :=
  let instance := args_instance args in
  let range := or_else (args_timeRange args) "5m" in
  let queries := node_exporter_queries instance range (args_metric args) in
  results <-
    for_of queries ([] : JS.Record MetricResult)
      (fun results entry =>
         let name := fst entry in
         let query := snd entry in
         try_catch
           (result <- await (queryInstant client query None) ;;
            ret (set results name (reshape result)))
           (fun err =>
              ret (set results name
                     (InlineError (message_or (fun _ => "Query failed") err))))) ;;
  ret {| ne_instance := instance; ne_timeRange := range; metrics := results |}.

(** *** [query_instant] *)

Record QueryInstantArgs : Type := {
  qi_query : string;
  qi_time : option string
}.

Record InstantRow : Type := {
  ir_metric : Labels;
  ir_timestamp : TimeString;
  ir_value : string
}.

Record QueryInstantResult : Type := {
  qi_resultType : string;
  qi_resultCount : number;
  qi_results : list InstantRow
}.

Definition query_instant (client : PrometheusClient) (args : QueryInstantArgs)
  : M QueryInstantResult :=
  res <- await (queryInstant client (qi_query args) (qi_time args)) ;;
  rows <-
    lift (map_throwing
            (fun r =>
               match toISOString (fst (value r) * 1000) with
               | Return ts =>
                   Return {| ir_metric := metric r;
                             ir_timestamp := ts;
                             ir_value := snd (value r) |}
               | Throw e => Throw e
               end)
            (result res)) ;;
  ret {| qi_resultType := resultType res;
         qi_resultCount := Z.of_nat (length (result res));
         qi_results := rows |}.

(** *** [query_windows_exporter] *)

(** The object [queries] as the handler has filled it before the loop. *)
Definition windows_exporter_queries (instance range metric : string) : JS.Record string :=
  let queries : JS.Record string := [] in
  let queries :=
    if String.eqb metric "cpu" || String.eqb metric "all"
    then assign queries
           [ ("cpuUsage",
              "100 - (avg by (instance) (rate(windows_cpu_time_total{instance="
              ++ quoted instance ++ ",mode=" ++ quoted "idle" ++ "}[" ++ range
              ++ "])) * 100)") ]
    else queries in
  let queries :=
    if String.eqb metric "memory" || String.eqb metric "all"
    then assign queries
           [ ("memoryUsedBytes",
              "windows_os_physical_memory_free_bytes{instance=" ++ quoted instance
              ++ "}");
             ("memoryTotalBytes",
              "windows_cs_physical_memory_bytes{instance=" ++ quoted instance ++ "}");
             ("memoryUsedPercent",
              "100 - (windows_os_physical_memory_free_bytes{instance="
              ++ quoted instance ++ "} / windows_cs_physical_memory_bytes{instance="
              ++ quoted instance ++ "} * 100)") ]
    else queries in
  let queries :=
    if String.eqb metric "disk" || String.eqb metric "all"
    then assign queries
           [ ("diskFreeBytes",
              "windows_logical_disk_free_bytes{instance=" ++ quoted instance ++ "}");
             ("diskUsedPercent",
              "100 - (windows_logical_disk_free_bytes{instance=" ++ quoted instance
              ++ "} / windows_logical_disk_size_bytes{instance=" ++ quoted instance
              ++ "} * 100)") ]
    else queries in
  let queries :=
    if String.eqb metric "network" || String.eqb metric "all"
    then assign queries
           [ ("networkBytesReceived",
              "rate(windows_net_bytes_received_total{instance=" ++ quoted instance
              ++ "}[" ++ range ++ "])");
             ("networkBytesSent",
              "rate(windows_net_bytes_sent_total{instance=" ++ quoted instance ++ "}["
              ++ range ++ "])") ]
    else queries in
  let queries :=
    if String.eqb metric "services" || String.eqb metric "all"
    then assign queries
           [ ("servicesRunning",
              "windows_service_state{instance=" ++ quoted instance ++ ",state="
              ++ quoted "running" ++ "}");
             ("servicesStopped",
              "windows_service_state{instance=" ++ quoted instance ++ ",state="
              ++ quoted "stopped" ++ "}") ]
    else queries in
  queries.

(** The handler takes its arguments and gives its result in the shapes of
    the node-exporter helper: [{ instance, metric, timeRange? }] and
    [{ instance, timeRange, metrics }]. *)
Definition query_windows_exporter (client : PrometheusClient) (args : NodeExporterArgs)
  : M NodeExporterResult :=
  let instance := args_instance args in
  let range := or_else (args_timeRange args) "5m" in
  let queries := windows_exporter_queries instance range (args_metric args) in
  results <-
    for_of queries ([] : JS.Record MetricResult)
      (fun results entry =>
         let name := fst entry in
         let query := snd entry in
         try_catch
           (res <- await (queryInstant client query None) ;;
            ret (set results name (reshape res)))
           (fun err =>
              ret (set results name
                     (InlineError (message_or (fun _ => "Query failed") err))))) ;;
  ret {| ne_instance := instance; ne_timeRange := range; metrics := results |}.

(** *** [query_blackbox_exporter] *)

Record BlackboxArgs : Type := {
  bb_target : option string;
  bb_module : option string
}.

Record Probe : Type := {
  probe_target : option string;
  probe_instance : option string;
  probe_module : option string;
  probe_job : option string;
  probe_success : bool;
  durationSeconds : option Float     (* [null] for [None] *)
}.

Record ProbeSummary : Type := {
  probes_total : number;
  probes_up : number;
  probes_down : number
}.

Record BlackboxResult : Type := {
  bb_summary : ProbeSummary;
  probes : list Probe
}.

(** The array [filters] after the two pushes. *)
Definition blackbox_filters (args : BlackboxArgs) : list string :=
  let filters : list string := [] in
  let filters :=
    match bb_target args with
    | Some t =>
        if truthy (Some t)
        then (filters ++ [("target=" ++ quoted t)%string])%list
        else filters
    | None => filters
    end in
  let filters :=
    match bb_module args with
    | Some m =>
        if truthy (Some m)
        then (filters ++ [("module=" ++ quoted m)%string])%list
        else filters
    | None => filters
    end in
  filters.

(** [name] or [name{f1,f2}], as the handler builds its two queries. *)
Definition with_filters (name : string) (filters : list string) : string :=
  if 0 <? Z.of_nat (length filters)
  then name ++ "{" ++ join "," filters ++ "}"
  else name.

Definition query_blackbox_exporter (client : PrometheusClient) (args : BlackboxArgs)
  : M BlackboxResult :=
  let filters := blackbox_filters args in
  let query := with_filters "probe_success" filters in
  successResult <- await (queryInstant client query None) ;;
  (* Also get probe duration *)
  let durationQuery := with_filters "probe_duration_seconds" filters in
  durationResult <-
    try_catch
      (res <- await (queryInstant client durationQuery None) ;; ret (result res))
      (fun _ => ret []) ;;
  (* Combine results *)
  let probes :=
    map (fun r =>
           let duration :=
             find (fun d =>
                     same (get (metric d) "instance") (get (metric r) "instance")
                     && same (get (metric d) "target") (get (metric r) "target"))
                  durationResult in
           {| probe_target := get (metric r) "target";
              probe_instance := get (metric r) "instance";
              probe_module := get (metric r) "module";
              probe_job := get (metric r) "job";
              probe_success := String.eqb (snd (value r)) "1";
              durationSeconds :=
                match duration with
                | Some d => Some (parseFloat (snd (value d)))
                | None => None
                end |})
        (result successResult) in
  ret {| bb_summary :=
           {| probes_total := Z.of_nat (length probes);
              probes_up := Z.of_nat (length (filter (fun p => probe_success p) probes));
              probes_down :=
                Z.of_nat (length (filter (fun p => negb (probe_success p)) probes)) |};
         probes := probes |}.

End queryTools.

(** ** [alertsTools] *)

Module alertsTools.

Import queryTools.

Record AlertHistoryArgs : Type := {
  args_alertname : option string;
  args_timeRange : option string
}.

Record AlertHistoryRow : Type := {
  ah_alertname : option string;
  ah_severity : option string;
  ah_instance : option string;
  ah_job : option string;
  stateChanges : number;
  firstSeen : option TimeString;   (* [null] for [None] *)
  lastSeen : option TimeString;
  ah_labels : Labels
}.

Record AlertHistoryResult : Type := {
  ah_timeRange : TimeRange;
  alertCount : number;
  ah_alerts : list AlertHistoryRow
}.

Definition invalid_time_range : string :=
  "Invalid time range format. Use formats like "
  ++ quoted "1h" ++ ", " ++ quoted "24h" ++ ", " ++ quoted "7d".

Definition multipliers : JS.Record number :=
  [ ("s", 1000);
    ("m", 60 * 1000);
    ("h", 60 * 60 * 1000);
    ("d", 24 * 60 * 60 * 1000);
    ("w", 7 * 24 * 60 * 60 * 1000) ].

(** [xs.length > 0 ? new Date(xs[i][0] * 1000).toISOString() : null]
    for [i] the first or the last index. *)
Definition seen (at_ : option (number * string)) : Outcome (option TimeString) :=
  match at_ with
  | Some v =>
      match toISOString (fst v * 1000) with
      | Return ts => Return (Some ts)
      | Throw e => Throw e
      end
  | None => Return None
  end.

Definition get_alert_history (client : PrometheusClient) (args : AlertHistoryArgs)
  : M AlertHistoryResult :=
  let range := or_else (args_timeRange args) "1h" in
  (* Parse time range *)
  match match_relative range with
  | None => throw (Error invalid_time_range)
  | Some (digits, unit) =>
      let value := parseInt digits in
      let ms := times value (get multipliers unit) in
      start <- ago_ISOString ms ;;
      end_ <- now_ISOString ;;
      (* Build query *)
      let query :=
        match args_alertname args with
        | Some a =>
            if truthy (Some a) then "ALERTS{alertname=" ++ quoted a ++ "}" else "ALERTS"
        | None => "ALERTS"
        end in
      (* Determine appropriate step based on time range *)
      let step := "1m" in
      let step := if gt ms (24 * 60 * 60 * 1000) then "5m" else step in
      let step := if gt ms (7 * 24 * 60 * 60 * 1000) then "15m" else step in
      result <- await (queryRange client query start end_ step) ;;
      rows <-
        lift (map_throwing
                (fun r =>
                   match seen (nth_error (values r) 0) with
                   | Return first =>
                       match seen (nth_error (values r) (length (values r) - 1)) with
                       | Return last =>
                           Return {| ah_alertname := get (series_metric r) "alertname";
                                     ah_severity := get (series_metric r) "severity";
                                     ah_instance := get (series_metric r) "instance";
                                     ah_job := get (series_metric r) "job";
                                     stateChanges := Z.of_nat (length (values r));
                                     firstSeen := first;
                                     lastSeen := last;
                                     ah_labels := series_metric r |}
                       | Throw e => Throw e
                       end
                   | Throw e => Throw e
                   end)
                (range_result result)) ;;
      ret {| ah_timeRange := {| tr_start := start; tr_end := end_; tr_step := step |};
             alertCount := Z.of_nat (length (range_result result));
             ah_alerts := rows |}
  end.

(** *** [list_alerts] *)

Record ListAlertsArgs : Type := {
  la_state : option string
}.

Record AlertsSummary : Type := {
  la_total : number;
  la_firing : number;
  la_pending : number
}.

Record ListedAlert : Type := {
  la_alertname : option string;
  la_alert_state : string;
  la_severity : option string;
  la_instance : option string;
  la_job : option string;
  la_summary_text : option string;
  la_description : option string;
  la_activeAt : string;
  la_value : string;
  la_labels : Labels
}.

Record ListAlertsResult : Type := {
  la_summary : AlertsSummary;
  la_alerts : list ListedAlert
}.

Definition state_is (st : string) (a : Alert) : bool := String.eqb (alert_state a) st.

Definition list_alerts (client : PrometheusClient) (args : ListAlertsArgs)
  : M ListAlertsResult :=
  alerts <- await (getAlerts client) ;;
  let filtered :=
    match la_state args with
    | Some st =>
        if truthy (Some st) && negb (String.eqb st "all")
        then filter (state_is st) alerts
        else alerts
    | None => alerts
    end in
  ret {| la_summary :=
           {| la_total := Z.of_nat (length alerts);
              la_firing := Z.of_nat (length (filter (state_is "firing") alerts));
              la_pending := Z.of_nat (length (filter (state_is "pending") alerts)) |};
         la_alerts :=
           map (fun a =>
                  {| la_alertname := get (alert_labels a) "alertname";
                     la_alert_state := alert_state a;
                     la_severity := get (alert_labels a) "severity";
                     la_instance := get (alert_labels a) "instance";
                     la_job := get (alert_labels a) "job";
                     la_summary_text := get (alert_annotations a) "summary";
                     la_description := get (alert_annotations a) "description";
                     la_activeAt := alert_activeAt a;
                     la_value := alert_value a;
                     la_labels := alert_labels a |})
               filtered |}.

(** *** [get_alert_rules] *)

Record AlertRulesArgs : Type := {
  ar_group : option string;
  ar_state : option string
}.

Record FormattedAlertRule : Type := {
  far_name : string;
  far_state : string;
  far_health : string;
  far_query : string;
  far_duration : number;
  far_labels : Labels;
  far_annotations : Labels;
  far_lastEvaluation : string;
  far_evaluationTime : number;
  far_lastError : option string;      (* [null] for [None] *)
  far_activeAlerts : number
}.

Record FormattedAlertGroup : Type := {
  fag_name : string;
  fag_file : string;
  fag_interval : number;
  fag_rules : list FormattedAlertRule
}.

(** The summary [{ groups, rules, ...stateCounts }]: the counters are
    spread after the two fixed keys. *)
Record AlertRulesSummary : Type := {
  ars_groups : number;
  ars_rules : option Z;               (* NaN for [None] *)
  ars_stateCounts : JS.Record (option Z)
}.

Record AlertRulesResult : Type := {
  ar_summary : AlertRulesSummary;
  ar_groups : list FormattedAlertGroup
}.

(** [{ firing: 0, pending: 0, inactive: 0 }]. *)
Definition initial_stateCounts : JS.Record (option Z) :=
  [ ("firing", Some 0); ("pending", Some 0); ("inactive", Some 0) ].

(** [stateCounts.key]: NaN stands in for a missing counter. *)
Definition counter (stateCounts : JS.Record (option Z)) (key : string) : option Z :=
  match get stateCounts key with
  | Some v => v
  | None => None
  end.

(** [s || null]. *)
Definition or_null (s : string) : option string :=
  if String.eqb s "" then None else Some s.

(** The rules of a group the handler keeps: the alerting ones, in the
    requested state when a state other than "all" is given. *)
Definition kept_alert_rules (state : option string) (g : RuleGroup) : list AlertRule :=
  let rules := filter (fun r => String.eqb (rule_type r) "alerting") (group_rules g) in
  match state with
  | Some st =>
      if truthy (Some st) && negb (String.eqb st "all")
      then filter (fun r => String.eqb (rule_state r) st) rules
      else rules
  | None => rules
  end.

(** The body of [rules.forEach]. *)
Definition count_state (stateCounts : JS.Record (option Z)) (r : AlertRule)
  : JS.Record (option Z) :=
  if key_in (rule_state r) stateCounts
  then increment stateCounts (rule_state r)
  else stateCounts.

Definition format_alert_rule (r : AlertRule) : FormattedAlertRule :=
  {| far_name := rule_name r;
     far_state := rule_state r;
     far_health := rule_health r;
     far_query := rule_query r;
     far_duration := rule_duration r;
     far_labels := rule_labels r;
     far_annotations := rule_annotations r;
     far_lastEvaluation := rule_lastEvaluation r;
     far_evaluationTime := rule_evaluationTime r;
     far_lastError := or_null (rule_lastError r);
     far_activeAlerts := Z.of_nat (length (rule_alerts r)) |}.

(** [groups.map(g => ...)] with the counters its callback updates. *)
Fixpoint format_alert_groups (state : option string) (groups : list RuleGroup)
    (stateCounts : JS.Record (option Z))
  : list FormattedAlertGroup * JS.Record (option Z) :=
  match groups with
  | [] => ([], stateCounts)
  | g :: rest =>
      let rules := kept_alert_rules state g in
      let stateCounts := fold_left count_state rules stateCounts in
      let formatted :=
        {| fag_name := group_name g;
           fag_file := group_file g;
           fag_interval := group_interval g;
           fag_rules := map format_alert_rule rules |} in
      let (others, stateCounts) := format_alert_groups state rest stateCounts in
      (formatted :: others, stateCounts)
  end.

(** [groups.filter(g => g.name === args.group)] under [if (args.group)]. *)
Definition select_groups (group : option string) (groups : list RuleGroup)
  : list RuleGroup :=
  match group with
  | Some name =>
      if truthy (Some name)
      then filter (fun g => String.eqb (group_name g) name) groups
      else groups
  | None => groups
  end.

Definition get_alert_rules (client : PrometheusClient) (args : AlertRulesArgs)
  : M AlertRulesResult :=
  rulesResponse <- await (getRules client) ;;
  (* Filter by group name *)
  let groups := select_groups (ar_group args) (groups rulesResponse) in
  (* Count states *)
  let (formattedGroups, stateCounts) :=
    format_alert_groups (ar_state args) groups initial_stateCounts in
  ret {| ar_summary :=
           {| ars_groups := Z.of_nat (length groups);
              ars_rules :=
                plus (plus (counter stateCounts "firing") (counter stateCounts "pending"))
                  (counter stateCounts "inactive");
              ars_stateCounts := stateCounts |};
         ar_groups := formattedGroups |}.

(** *** [get_recording_rules] *)

Record RecordingRulesArgs : Type := {
  rr_group : option string
}.

Record FormattedRecordingRule : Type := {
  frr_name : string;
  frr_query : string;
  frr_labels : Labels;
  frr_health : string;
  frr_lastEvaluation : string;
  frr_evaluationTime : number;
  frr_lastError : option string
}.

Record FormattedRecordingGroup : Type := {
  frg_name : string;
  frg_file : string;
  frg_interval : number;
  frg_rules : list FormattedRecordingRule
}.

Record RecordingSummary : Type := {
  rs_groups : number;
  totalRules : number;
  healthy : number;
  unhealthy : number
}.

Record RecordingRulesResult : Type := {
  rr_summary : RecordingSummary;
  rr_groups : list FormattedRecordingGroup
}.

(** The three counters [totalRules], [healthyRules], [unhealthyRules]. *)
Record RuleCounters : Type := {
  c_total : number;
  c_healthy : number;
  c_unhealthy : number
}.

(** The body of [recordingRules.forEach]. *)
Definition count_rule (c : RuleCounters) (r : AlertRule) : RuleCounters :=
  let c := {| c_total := c_total c + 1;
              c_healthy := c_healthy c;
              c_unhealthy := c_unhealthy c |} in
  if String.eqb (rule_health r) "ok"
  then {| c_total := c_total c;
          c_healthy := c_healthy c + 1;
          c_unhealthy := c_unhealthy c |}
  else {| c_total := c_total c;
          c_healthy := c_healthy c;
          c_unhealthy := c_unhealthy c + 1 |}.

(** Filter for recording rules only (type !== 'alerting'). *)
Definition recording_rules (g : RuleGroup) : list AlertRule :=
  filter (fun r => negb (String.eqb (rule_type r) "alerting")) (group_rules g).

Definition format_recording_rule (r : AlertRule) : FormattedRecordingRule :=
  {| frr_name := rule_name r;
     frr_query := rule_query r;
     frr_labels := rule_labels r;
     frr_health := rule_health r;
     frr_lastEvaluation := rule_lastEvaluation r;
     frr_evaluationTime := rule_evaluationTime r;
     frr_lastError := or_null (rule_lastError r) |}.

(** [groups.map(g => ...)] with the counters its callback updates. *)
Fixpoint format_recording_groups (groups : list RuleGroup) (c : RuleCounters)
  : list FormattedRecordingGroup * RuleCounters :=
  match groups with
  | [] => ([], c)
  | g :: rest =>
      let recordingRules := recording_rules g in
      let c := fold_left count_rule recordingRules c in
      let formatted :=
        {| frg_name := group_name g;
           frg_file := group_file g;
           frg_interval := group_interval g;
           frg_rules := map format_recording_rule recordingRules |} in
      let (others, c) := format_recording_groups rest c in
      (formatted :: others, c)
  end.

Definition get_recording_rules (client : PrometheusClient) (args : RecordingRulesArgs)
  : M RecordingRulesResult :=
  rulesResponse <- await (getRules client) ;;
  (* Filter by group name *)
  let groups := select_groups (rr_group args) (groups rulesResponse) in
  let (mapped, c) :=
    format_recording_groups groups
      {| c_total := 0; c_healthy := 0; c_unhealthy := 0 |} in
  let formattedGroups :=
    filter (fun g => 0 <? Z.of_nat (length (frg_rules g))) mapped in
  ret {| rr_summary :=
           {| rs_groups := Z.of_nat (length formattedGroups);
              totalRules := c_total c;
              healthy := c_healthy c;
              unhealthy := c_unhealthy c |};
         rr_groups := formattedGroups |}.

End alertsTools.

(** ** [metricsTools]: [list_metrics], [get_label_values] and [find_series] *)

Module metricsTools.

Record ListMetricsArgs : Type := {
  lm_search : option string;
  lm_limit : option number
}.

Record ListMetricsResult : Type := {
  lm_total : number;
  matchingCount : number;
  returnedCount : number;
  lm_metrics : list string
}.

Section ListMetrics.

(** [String.prototype.toLowerCase], which the engine computes from the
    Unicode character database. *)
Variable toLowerCase : string -> string.

Definition list_metrics (client : PrometheusClient) (args : ListMetricsArgs)
  : M ListMetricsResult :=
  metrics <- await (getMetrics client) ;;
  let filtered :=
    match lm_search args with
    | Some search =>
        if truthy (Some search)
        then
          let searchLower := toLowerCase search in
          filter (fun m => includes searchLower (toLowerCase m)) metrics
        else metrics
    | None => metrics
    end in
  let limit := number_or (lm_limit args) 100 in
  let limited := slice_to filtered limit in
  ret {| lm_total := Z.of_nat (length metrics);
         matchingCount := Z.of_nat (length filtered);
         returnedCount := Z.of_nat (length limited);
         lm_metrics := limited |}.

End ListMetrics.

Record LabelValuesArgs : Type := {
  lv_label : string
}.

Record LabelValuesResult : Type := {
  lvr_label : string;
  lvr_count : number;
  lvr_values : list string
}.

Definition get_label_values (client : PrometheusClient) (args : LabelValuesArgs)
  : M LabelValuesResult :=
  vals <- await (getLabelValues client (lv_label args)) ;;
  ret {| lvr_label := lv_label args;
         lvr_count := Z.of_nat (length vals);
         lvr_values := slice_to vals 500 (* Limit to 500 values *) |}.

Record FindSeriesArgs : Type := {
  fs_match : string;
  fs_start : option string;
  fs_end : option string
}.

Record FoundSeries : Type := {
  found_metric : option string;
  found_labels : Labels
}.

Record FindSeriesResult : Type := {
  selector : string;
  fs_count : number;
  series : list FoundSeries
}.

Definition find_series (client : PrometheusClient) (args : FindSeriesArgs)
  : M FindSeriesResult :=
  found <- await (getSeries client [fs_match args] (fs_start args) (fs_end args)) ;;
  ret {| selector := fs_match args;
         fs_count := Z.of_nat (length found);
         series :=
           map (fun s => {| found_metric := get s "__name__"; found_labels := s |})
               (slice_to found 100) |}.

End metricsTools.

(** ** [statusTools] *)

Module statusTools.

Definition sizes : list string := ["Bytes"; "KB"; "MB"; "GB"; "TB"].

(** [String(parseFloat(x.toFixed(2)))] for [x >= 1], given the integer
    [n] nearest to [100 * x] (the larger one on a tie, as [toFixed]
    chooses): the decimal text of [n / 100] without trailing zeros. *)
Definition two_decimals (n : Z) : string :=
  let whole := n / 100 in
  let cents := n mod 100 in
  if cents =? 0 then String_of_number whole
  else if cents mod 10 =? 0 then String_of_number whole ++ "." ++ String_of_number (cents / 10)
  else String_of_number whole ++ "."
       ++ (if cents <? 10 then "0" else "") ++ String_of_number cents.

(** [formatBytes(bytes)] on an integer that a double holds.  The index
    [i] is computed as the code computes it, in doubles: the floor of the
    quotient of the two logarithms.  For [bytes >= 1] it is no less than
    zero.  [Math.pow(k, i)] is a power of two and the division by it is
    exact in double arithmetic, so [toFixed(2)] rounds the exact quotient.
    A negative argument gives NaN throughout. *)
Definition formatBytes (bytes : number) : string :=
  if bytes =? 0 then "0 Bytes"
  else
    let k := 1024 in
    match Math.floor (PrimFloat.div (Math.log (Math.double bytes))
                        (Math.log (Math.double k))) with
    | Some i =>
        let hundredths := (200 * bytes + k ^ i) / (2 * k ^ i) in
        two_decimals hundredths ++ " " ++ nth (Z.to_nat i) sizes "undefined"
    | None => "NaN undefined"
    end.

(** *** [get_prometheus_status] *)

Record StatusArgs : Type := {
  st_include : option string
}.

(** What a field of the status holds: the value fetched, or the inline
    object [{ error: message }]. *)
Inductive Fetched (A : Type) : Type :=
| Value (a : A)
| FetchError (error : string).

Arguments FetchError {A} error.

(** [{ yaml }] or [{ yaml, fullLength }]. *)
Record ShownConfig : Type := {
  shown_yaml : string;
  fullLength : option number
}.

(** The object [result]; a key that was never assigned is [None]. *)
Record StatusResult : Type := {
  st_build : option (Fetched BuildInfo);
  st_runtime : option (Fetched RuntimeInfo);
  st_config : option (Fetched ShownConfig);
  st_flags : option (Fetched Labels)
}.

(** Return first 2000 chars of config to avoid overwhelming response. *)
Definition show_config (config : string) : ShownConfig :=
  if 2000 <? Z.of_nat (Text.length config)
  then {| shown_yaml := Text.substring_to 2000 config ++ nl ++ "... (truncated)";
          fullLength := Some (Z.of_nat (Text.length config)) |}
  else {| shown_yaml := config; fullLength := None |}.

(** One guarded [try { result.k = f(await fetch) } catch { result.k =
    { error } }]. *)
Definition fetch_field {A B} (wanted : bool) (fetch : M A) (shape : A -> B)
    (fallback : string) : M (option (Fetched B)) :=
  if wanted
  then try_catch
         (a <- await fetch ;; ret (Some (Value (shape a))))
         (fun err => ret (Some (FetchError (message_or (fun _ => fallback) err))))
  else ret None.

Definition get_prometheus_status (client : PrometheusClient) (args : StatusArgs)
  : M StatusResult :=
  let include := or_else (st_include args) "all" in
  let wants (what : string) := String.eqb include "all" || String.eqb include what in
  build <- fetch_field (wants "build") (getBuildInfo client) (fun b => b)
             "Failed to get build info" ;;
  runtime <- fetch_field (wants "runtime") (getRuntimeInfo client) (fun r => r)
               "Failed to get runtime info" ;;
  config <- fetch_field (wants "config") (getConfig client) show_config
              "Failed to get config" ;;
  flags <- fetch_field (wants "flags") (getFlags client) (fun f => f)
             "Failed to get flags" ;;
  ret {| st_build := build; st_runtime := runtime;
         st_config := config; st_flags := flags |}.

(** *** [get_tsdb_status] *)

Record TsdbArgs : Type := {
  tsdb_limit : option number
}.

Record ShownHeadStats : Type := {
  shown_numSeries : number;
  shown_numLabelPairs : number;
  shown_chunkCount : number;
  shown_minTime : TimeString;
  shown_maxTime : TimeString
}.

Record MemoryUsage : Type := {
  mu_name : string;
  mu_bytes : number;
  humanReadable : string
}.

Record TsdbResult : Type := {
  shown_headStats : ShownHeadStats;
  topMetricsBySeriesCount : list NameValue;
  topLabelsByValueCount : list NameValue;
  topLabelsByMemoryUsage : list MemoryUsage;
  topLabelValuePairs : list NameValue
}.

Definition get_tsdb_status (client : PrometheusClient) (args : TsdbArgs)
  : M TsdbResult :=
  tsdb <- await (getTsdbStatus client) ;;
  let limit := number_or (tsdb_limit args) 10 in
  minTime <- lift (toISOString (minTime (headStats tsdb))) ;;
  maxTime <- lift (toISOString (maxTime (headStats tsdb))) ;;
  ret {| shown_headStats :=
           {| shown_numSeries := numSeries (headStats tsdb);
              shown_numLabelPairs := numLabelPairs (headStats tsdb);
              shown_chunkCount := chunkCount (headStats tsdb);
              shown_minTime := minTime;
              shown_maxTime := maxTime |};
         topMetricsBySeriesCount := slice_to (seriesCountByMetricName tsdb) limit;
         topLabelsByValueCount := slice_to (labelValueCountByLabelName tsdb) limit;
         topLabelsByMemoryUsage :=
           map (fun l => {| mu_name := nv_name l;
                            mu_bytes := nv_value l;
                            humanReadable := formatBytes (nv_value l) |})
               (slice_to (memoryInBytesByLabelName tsdb) limit);
         topLabelValuePairs := slice_to (seriesCountByLabelValuePair tsdb) limit |}.

End statusTools.

(** ** The dispatcher: the [CallToolRequestSchema] handler of [index.ts] *)

(** The outcome of [schema.safeParse(args)]: the validated, defaulted
    arguments, or the message of the [ZodError]. *)
Inductive SafeParse (A : Type) : Type :=
| ParseSuccess (data : A)
| ParseFailure (message : string).

Arguments ParseFailure {A} message.

(** The names every object inherits from [Object.prototype]: the operator
    [in] finds them in [allTools] although they are no tools. *)
Definition Object_prototype_keys : list string :=
  [ "constructor"; "__defineGetter__"; "__defineSetter__"; "hasOwnProperty";
    "__lookupGetter__"; "__lookupSetter__"; "isPrototypeOf";
    "propertyIsEnumerable"; "toString"; "valueOf"; "__proto__";
    "toLocaleString" ].

(** The text of the one content item of a result: a string the dispatcher
    builds, or [JSON.stringify(result, null, 2)] of what the handler
    returned, which is kept symbolic. *)
Inductive Text (Value : Type) : Type :=
| Plain (s : string)
| Stringified (result : Value).

Arguments Plain {Value} s.

(** The result of a tool call: one text content item and the error flag,
    which is absent ([None]) on success. *)
Record CallToolResult (Value : Type) : Type := {
  text : Text Value;
  isError : option bool
}.

Arguments Build_CallToolResult {Value} text isError.

Section Dispatcher.

(** [request.params.arguments] and the values handlers return. *)
Variable Raw : Type.
Variable Value : Type.

(** An entry of the catalog.  Every entry of the five groups has an
    [inputSchema] and a [handler]. *)
Record Tool : Type := {
  description : string;
  Args : Type;
  inputSchema : Raw -> SafeParse Args;
  handler : PrometheusClient -> Args -> M Value
}.

(** The merged catalog [{ ...healthTools, ...queryTools, ...metricsTools,
    ...alertsTools, ...statusTools }]. *)
Variable allTools : JS.Record Tool.

(** [name in allTools]. *)
Definition in_allTools (name : string) : bool :=
  match get allTools name with
  | Some _ => true
  | None => existsb (String.eqb name) Object_prototype_keys
  end.

Definition callTool (prometheusClient : PrometheusClient) (name : string) (args : Raw)
  : M (CallToolResult Value) :=
  if negb (in_allTools name)
  then ret {| text := Plain ("Unknown tool: " ++ name); isError := Some true |}
  else
    try_catch
      (match get allTools name with
       | Some tool =>
           (* Validate input if schema exists *)
           match inputSchema tool args with
           | ParseFailure message =>
               ret {| text := Plain ("Invalid arguments: " ++ message);
                      isError := Some true |}
           | ParseSuccess validatedArgs =>
               (* Execute tool *)
               result <- await (handler tool prometheusClient validatedArgs) ;;
               ret {| text := Stringified result; isError := None |}
           end
       | None =>
           (* [allTools[name]] is a member of [Object.prototype]: it has
              no [inputSchema], and calling its [handler], which is
              [undefined], is a [TypeError] *)
           throw (Error "tool.handler is not a function")
       end)
      (fun err =>
         let message := message_or String_of_thrown err in
         ret {| text := Plain ("Error executing " ++ name ++ ": " ++ message);
                isError := Some true |}).

End Dispatcher.

(** ** Vocabulary of the properties *)

(** The thirteen methods of the client that unwrap an envelope, with their
    arguments. *)
Inductive Call : Type :=
| CallQueryInstant (query : string) (time : option string)
| CallQueryRange (query : string) (start end_ : TimeString) (step : string)
| CallGetTargets
| CallGetMetrics
| CallGetMetricMetadata (metric : option string)
| CallGetAlerts
| CallGetRules
| CallGetLabelValues (label : string)
| CallGetSeries (matchers : list string) (start end_ : option string)
| CallGetBuildInfo
| CallGetRuntimeInfo
| CallGetConfig
| CallGetFlags
| CallGetTsdbStatus.

(** Forget the value a computation returns. *)
Definition void {A} (m : M A) : M unit := _ <- m ;; ret tt.

Definition invoke (this : PrometheusClient) (call : Call) : M unit :=
  match call with
  | CallQueryInstant q t => void (queryInstant this q t)
  | CallQueryRange q a b st => void (queryRange this q a b st)
  | CallGetTargets => void (getTargets this)
  | CallGetMetrics => void (getMetrics this)
  | CallGetMetricMetadata m => void (getMetricMetadata this m)
  | CallGetAlerts => void (getAlerts this)
  | CallGetRules => void (getRules this)
  | CallGetLabelValues l => void (getLabelValues this l)
  | CallGetSeries ms a b => void (getSeries this ms a b)
  | CallGetBuildInfo => void (getBuildInfo this)
  | CallGetRuntimeInfo => void (getRuntimeInfo this)
  | CallGetConfig => void (getConfig this)
  | CallGetFlags => void (getFlags this)
  | CallGetTsdbStatus => void (getTsdbStatus this)
  end.

(** The request a method sends. *)
Definition request_of (call : Call) : Request :=
  match call with
  | CallQueryInstant q t => GetQuery q (if_truthy t)
  | CallQueryRange q a b st => GetQueryRange q a b st
  | CallGetTargets => GetTargets
  | CallGetMetrics => GetMetricNames
  | CallGetMetricMetadata m => GetMetadata (if_truthy m)
  | CallGetAlerts => GetAlerts
  | CallGetRules => GetRules
  | CallGetLabelValues l => GetLabelValues l
  | CallGetSeries ms a b => GetSeries ms (if_truthy a) (if_truthy b)
  | CallGetBuildInfo => GetBuildInfo
  | CallGetRuntimeInfo => GetRuntimeInfo
  | CallGetConfig => GetConfig
  | CallGetFlags => GetFlags
  | CallGetTsdbStatus => GetTsdbStatus
  end.

(** The text a method puts before the envelope's [error]. *)
Definition failure_prefix (call : Call) : string :=
  match call with
  | CallQueryInstant _ _ => "Query failed"
  | CallQueryRange _ _ _ _ => "Query failed"
  | CallGetTargets => "Failed to get targets"
  | CallGetMetrics => "Failed to get metrics"
  | CallGetMetricMetadata _ => "Failed to get metadata"
  | CallGetAlerts => "Failed to get alerts"
  | CallGetRules => "Failed to get rules"
  | CallGetLabelValues _ => "Failed to get label values"
  | CallGetSeries _ _ _ => "Failed to get series"
  | CallGetBuildInfo => "Failed to get build info"
  | CallGetRuntimeInfo => "Failed to get runtime info"
  | CallGetConfig => "Failed to get config"
  | CallGetFlags => "Failed to get flags"
  | CallGetTsdbStatus => "Failed to get TSDB status"
  end.

Definition is_2xx (st : number) : bool := (200 <=? st) && (st <? 300).

(** The requests a computation adds to the trace. *)
Definition sent_by {A} (m : M A) (w : World) (s : State) : list Sent :=
  skipn (length (trace s)) (trace (snd (m w s))).

(** *** Worlds to run the model in *)

(** An empty answer for each path. *)
Definition empty_payload (r : Request) : payload r :=
  match r with
  | GetQuery _ _ => {| resultType := "vector"; result := [] |}
  | GetQueryRange _ _ _ _ => {| range_resultType := "matrix"; range_result := [] |}
  | GetTargets => {| activeTargets := []; droppedTargets := [] |}
  | GetMetricNames => []
  | GetMetadata _ => []
  | GetAlerts => {| alerts := [] |}
  | GetRules => {| groups := [] |}
  | GetLabelValues _ => []
  | GetSeries _ _ _ => []
  | GetBuildInfo =>
      {| version := ""; revision := ""; branch := ""; buildUser := "";
         buildDate := ""; goVersion := "" |}
  | GetRuntimeInfo =>
      {| startTime := ""; CWD := ""; reloadConfigSuccess := true;
         lastConfigTime := ""; corruptionCount := 0; goroutineCount := 0;
         GOMAXPROCS := 0; GOMEMLIMIT := 0; GOGC := ""; GODEBUG := "";
         storageRetention := "" |}
  | GetConfig => {| yaml := "" |}
  | GetFlags => []
  | GetTsdbStatus =>
      {| headStats := {| numSeries := 0; numLabelPairs := 0; chunkCount := 0;
                         minTime := 0; maxTime := 0 |};
         seriesCountByMetricName := []; labelValueCountByLabelName := [];
         memoryInBytesByLabelName := []; seriesCountByLabelValuePair := [] |}
  end.

Definition success_envelope {T} (d : T) : PrometheusResponse T :=
  {| status := "success"; data := d; errorType := None; error := None |}.

Definition error_envelope {T} (d : T) (x y : string) : PrometheusResponse T :=
  {| status := "error"; data := d; errorType := Some y; error := Some x |}.

(** A clock that stands at 2023-11-14T22:13:20Z. *)
Definition some_clock : nat -> Z := fun _ => 1700000000000.

(** A backend that answers every request with the given HTTP status and
    the envelope [{ status: "error", error: x, errorType: y }]. *)
Definition failing_world (st : number) (x y : string) : World :=
  {| respond := fun _ _ r => Reply st (error_envelope (empty_payload r) x y);
     clock := some_clock |}.

(** A backend that answers every request with an empty success. *)
Definition empty_world : World :=
  {| respond := fun _ _ r => Reply 200 (success_envelope (empty_payload r));
     clock := some_clock |}.

(** A backend whose [n]-th answer to an instant query fails when [bad n]
    holds and is an empty success otherwise. *)
Definition flaky_world (bad : nat -> bool) (x y : string) : World :=
  {| respond := fun n _ r =>
       if bad n
       then Reply 422 (error_envelope (empty_payload r) x y)
       else Reply 200 (success_envelope (empty_payload r));
     clock := some_clock |}.

(** A backend that reports the given active targets. *)
Definition targets_world (ts : list Target) : World :=
  {| respond := fun _ _ r =>
       match r return HttpReply (payload r) with
       | GetTargets =>
           Reply 200 (success_envelope {| activeTargets := ts; droppedTargets := [] |})
       | r' => Reply 200 (success_envelope (empty_payload r'))
       end;
     clock := some_clock |}.

Definition initial : State := {| trace := []; ticks := 0 |}.

Definition some_client : PrometheusClient :=
  new_PrometheusClient
    {| prometheusUrl := "http://prometheus:9090"; username := None; password := None |}.

Definition target_of (job instance h : string) : Target :=
  {| discoveredLabels := [];
     labels := [("instance", instance); ("job", job)];
     scrapePool := job;
     scrapeUrl := "http://" ++ instance ++ "/metrics";
     globalUrl := "http://" ++ instance ++ "/metrics";
     lastError := "";
     lastScrape := "2023-11-14T22:13:00Z";
     lastScrapeDuration := 0;
     health := h;
     scrapeInterval := "15s";
     scrapeTimeout := "10s" |}.

(** A catalog with the entry [get_target_health], for arguments that
    already have the shape its schema produces (two optional strings), so
    that validation succeeds with the arguments themselves. *)
Definition get_target_health_tool
  : Tool healthTools.TargetHealthArgs healthTools.TargetHealthResult :=
  {| description := "Get health status of a specific target by job name and/or instance";
     Args := healthTools.TargetHealthArgs;
     inputSchema := fun args => ParseSuccess args;
     handler := healthTools.get_target_health |}.

Definition health_catalog
  : JS.Record (Tool healthTools.TargetHealthArgs healthTools.TargetHealthResult) :=
  [ ("get_target_health", get_target_health_tool) ].

(** *** Relative durations, as the specification words them *)

(** The decimal numeral of a natural number. *)
Definition decimal (n : N) : string := NilEmpty.string_of_uint (N.to_uint n).

(** [numeral ds n]: the non-empty string of decimal digits [ds], leading
    zeros allowed, denotes [n]. *)
Definition numeral (ds : string) (n : N) : Prop :=
  ds <> "" /\ exists d, NilEmpty.uint_of_string ds = Some d /\ N.of_uint d = n.

(** The multiplier table of the specification, in milliseconds. *)
Definition unit_ms (u : string) : option Z :=
  if String.eqb u "s" then Some 1000
  else if String.eqb u "m" then Some 60000
  else if String.eqb u "h" then Some 3600000
  else if String.eqb u "d" then Some 86400000
  else if String.eqb u "w" then Some 604800000
  else None.

(** The grammar [<int><unit>]. *)
Definition relative_duration (s : string) : Prop :=
  exists ds n u mult, s = ds ++ u /\ numeral ds n /\ unit_ms u = Some mult.

(** The state after one more reading of the clock. *)
Definition tick (s : State) : State :=
  {| trace := trace s; ticks := S (ticks s) |}.

(** *** Sub-queries of the exporter helpers *)

(** The request [client.queryInstant(query)] sends. *)
Definition instant_request (this : PrometheusClient) (query : string) : Sent :=
  {| via := client this; request := GetQuery query None |}.

(** The state once the given sub-queries have been sent. *)
Definition after_queries (this : PrometheusClient) (s : State)
    (queries : JS.Record string) : State :=
  {| trace := trace s ++ map (fun entry => instant_request this (snd entry)) queries;
     ticks := ticks s |}.

(** What the loop of an exporter helper stores for one sub-query, given
    the outcome of its instant query. *)
Definition stored (o : Outcome InstantQueryResult) : queryTools.MetricResult :=
  match o with
  | Return r => queryTools.reshape r
  | Throw e => queryTools.InlineError (message_or (fun _ => "Query failed") e)
  end.

(** What the loop has stored once it has run over the given sub-queries,
    starting in state [s] with the results [acc]. *)
Fixpoint loop_results (this : PrometheusClient) (w : World) (s : State)
    (queries : JS.Record string) (acc : JS.Record queryTools.MetricResult)
  : JS.Record queryTools.MetricResult :=
  match queries with
  | [] => acc
  | entry :: rest =>
      loop_results this w (after_queries this s [entry]) rest
        (set acc (fst entry) (stored (fst (queryInstant this (snd entry) None w s))))
  end.

(** *** Targets *)

(** A filter counts as supplied when it is a non-empty string: the
    handlers test [args.job] and [args.instance] for truthiness. *)
Definition supplied (o : option string) : bool := truthy o.

(** The reshaped entry of [list_targets] for one target. *)
Definition listed_target (t : Target) : healthTools.ListedTarget :=
  {| healthTools.lt_job := get (labels t) "job";
     healthTools.lt_instance := get (labels t) "instance";
     healthTools.lt_health := health t;
     healthTools.lt_lastScrape := lastScrape t;
     healthTools.lt_lastScrapeDuration := lastScrapeDuration t;
     healthTools.lt_lastError := healthTools.or_null (lastError t);
     healthTools.lt_scrapeUrl := scrapeUrl t |}.

(** The number of targets whose health is [h]. *)
Definition count_health (h : string) (ts : list Target) : Z :=
  Z.of_nat (length (filter (fun t => String.eqb (health t) h) ts)).

(** A target matches the lookup when its [job] label is the supplied job
    and its [instance] label the supplied instance; a filter that is not
    supplied matches every target. *)
Definition target_matches (args : healthTools.TargetHealthArgs) (t : Target) : Prop :=
  (forall j, healthTools.args_job args = Some j -> j <> "" ->
             get (labels t) "job" = Some j)
  /\ (forall i, healthTools.args_instance args = Some i -> i <> "" ->
                get (labels t) "instance" = Some i).

(** *** Vocabulary of the further properties *)

(** What [axios] rejects a call with, given what the backend did; [None]
    when the call resolves. *)
Definition rejection {T} (r : HttpReply T) : option Exn :=
  match r with
  | Reply st body =>
      if is_2xx st then None
      else Some (AxiosError
                   ("Request failed with status code " ++ String_of_number st)
                   (Some {| error_response_status := st;
                            error_response_error := error body;
                            error_response_errorType := errorType body |})
                   true)
  | NoReply msg => Some (AxiosError msg None true)
  | Fault e => Some e
  end.

(** A backend that answers every request with a success envelope around
    the given payload. *)
Definition answering (answer : forall r : Request, payload r) : World :=
  {| respond := fun _ _ r => Reply 200 (success_envelope (answer r));
     clock := some_clock |}.

(** A backend nobody answers for. *)
Definition unreachable_world (message : string) : World :=
  {| respond := fun _ _ _ => NoReply message; clock := some_clock |}.

(** A backend whose [n]-th answer is lost when [bad n] holds and is an
    empty success otherwise. *)
Definition lossy_world (bad : nat -> bool) (message : string) : World :=
  {| respond := fun n _ r =>
       if bad n then NoReply message
       else Reply 200 (success_envelope (empty_payload r));
     clock := some_clock |}.

(** The state once the given requests have been sent. *)
Definition after_requests (this : PrometheusClient) (s : State) (rs : list Request)
  : State :=
  {| trace := trace s ++ map (fun r => {| via := client this; request := r |}) rs;
     ticks := ticks s |}.

(** A URL check to run [loadConfig] with: it accepts the strings that
    start with a scheme of the web. *)
Definition has_http_scheme (s : string) : bool :=
  startsWith "http://" s || startsWith "https://" s.

(** Whether a list of keys has no repetition. *)
Fixpoint distinct (ks : list string) : bool :=
  match ks with
  | [] => true
  | k :: r => negb (existsb (String.eqb k) r) && distinct r
  end.

(** *** Answers to run the handlers on *)

Definition sample_of (labels : Labels) (seconds : Z) (v : string) : InstantSample :=
  {| metric := labels; value := (seconds, v) |}.

(** Two probes of one blackbox exporter, the first up and the second
    down. *)
Definition probe_samples : list InstantSample :=
  [ sample_of [("instance", "blackbox:9115"); ("target", "https://a.example")]
      1700000000 "1";
    sample_of [("instance", "blackbox:9115"); ("target", "https://b.example")]
      1700000000 "0" ].

(** A backend whose [n]-th answer is the error envelope of [x] and [y],
    under the status 422, when [bad n] holds, and that answers every
    other instant query with the given samples. *)
Definition flaky_samples_world (bad : nat -> bool) (samples : list InstantSample)
    (x y : string) : World :=
  {| respond := fun n _ r =>
       if bad n
       then Reply 422 (error_envelope (empty_payload r) x y)
       else Reply 200 (success_envelope
                         match r return payload r with
                         | GetQuery _ _ => {| resultType := "vector"; result := samples |}
                         | r' => empty_payload r'
                         end);
     clock := some_clock |}.

(** The text of a character outside ASCII: U+4E2D, of three bytes, and
    U+1F600, of four. *)
Definition ideograph : string :=
  String (ascii_of_nat 228) (String (ascii_of_nat 184) (String (ascii_of_nat 173) "")).

Definition emoji : string :=
  String (ascii_of_nat 240)
    (String (ascii_of_nat 159) (String (ascii_of_nat 152) (String (ascii_of_nat 128) ""))).

(** [n] copies of a text. *)
Definition copies (n : nat) (s : string) : string := String.concat "" (repeat s n).

(** A backend that answers every instant query with the given samples. *)
Definition samples_world (samples : list InstantSample) : World :=
  answering (fun r =>
               match r return payload r with
               | GetQuery _ _ => {| resultType := "vector"; result := samples |}
               | r' => empty_payload r'
               end).

Definition alert_of (name state : string) : Alert :=
  {| alert_labels := [("alertname", name); ("severity", "warning")];
     alert_annotations := [("summary", name)];
     alert_state := state;
     alert_activeAt := "2023-11-14T22:00:00Z";
     alert_value := "1" |}.

(** A backend that reports the given alerts. *)
Definition alerts_world (active : list Alert) : World :=
  answering (fun r =>
               match r return payload r with
               | GetAlerts => {| alerts := active |}
               | r' => empty_payload r'
               end).

Definition rule_of (name type state health_ : string) : AlertRule :=
  {| rule_name := name;
     rule_query := "up == 0";
     rule_duration := 0;
     rule_labels := [];
     rule_annotations := [];
     rule_alerts := [];
     rule_health := health_;
     rule_lastError := "";
     rule_evaluationTime := 0;
     rule_lastEvaluation := "2023-11-14T22:00:00Z";
     rule_state := state;
     rule_type := type |}.

Definition group_of (name : string) (rules : list AlertRule) : RuleGroup :=
  {| group_name := name;
     group_file := "/etc/prometheus/rules.yml";
     group_rules := rules;
     group_interval := 60;
     group_evaluationTime := 0;
     group_lastEvaluation := "2023-11-14T22:00:00Z" |}.

(** A backend that reports the given rule groups. *)
Definition rules_world (gs : list RuleGroup) : World :=
  answering (fun r =>
               match r return payload r with
               | GetRules => {| groups := gs |}
               | r' => empty_payload r'
               end).

(** Three groups: alerting rules only, recording rules only, and both. *)
Definition some_groups : list RuleGroup :=
  [ group_of "alerts"
      [ rule_of "HighLoad" "alerting" "firing" "ok";
        rule_of "DiskFull" "alerting" "inactive" "ok" ];
    group_of "records"
      [ rule_of "job:up:sum" "recording" "" "ok";
        rule_of "job:load:avg" "recording" "" "err" ];
    group_of "mixed"
      [ rule_of "TargetDown" "alerting" "pending" "ok";
        rule_of "instance:cpu:rate" "recording" "" "ok" ] ].

(** *** Rules, as the results list them *)

(** All alerting rules a result lists, over its groups. *)
Definition listed_alert_rules (r : alertsTools.AlertRulesResult)
  : list alertsTools.FormattedAlertRule :=
  concat (map alertsTools.fag_rules (alertsTools.ar_groups r)).

(** All recording rules a result lists, over its groups. *)
Definition listed_recording_rules (r : alertsTools.RecordingRulesResult)
  : list alertsTools.FormattedRecordingRule :=
  concat (map alertsTools.frg_rules (alertsTools.rr_groups r)).

(** The number of listed alerting rules in the given state. *)
Definition in_state (st : string) (rules : list alertsTools.FormattedAlertRule) : Z :=
  Z.of_nat (length (filter (fun r => String.eqb (alertsTools.far_state r) st) rules)).

(** The counters [{ firing, pending, inactive }]. *)
Definition state_counters (f p i : Z) : JS.Record (option Z) :=
  [ ("firing", Some f); ("pending", Some p); ("inactive", Some i) ].

Definition standard_state (st : string) : Prop :=
  st = "firing" \/ st = "pending" \/ st = "inactive".

(** The number of listed recording rules whose health is "ok". *)
Definition with_health_ok (rules : list alertsTools.FormattedRecordingRule) : Z :=
  Z.of_nat (length (filter (fun r => String.eqb (alertsTools.frr_health r) "ok") rules)).

(** *** Metrics *)

(** A backend that reports the given metric names, label values and
    series. *)
Definition metrics_world (names vals : list string) (found : list Labels) : World :=
  answering (fun r =>
               match r return payload r with
               | GetMetricNames => names
               | GetLabelValues _ => vals
               | GetSeries _ _ _ => found
               | r' => empty_payload r'
               end).

Definition some_metrics : list string :=
  [ "HTTP_requests_total"; "http_request_duration_seconds"; "node_load1";
    "process_cpu_seconds_total"; "prometheus_http_requests_total" ].

(** [xs] starts with [ys]. *)
Definition prefix_of {A} (ys xs : list A) : Prop := exists rest, xs = (ys ++ rest)%list.

(** A metric matches a search when, both lowered, it contains it. *)
Definition matches (toLowerCase : string -> string) (search m : string) : bool :=
  includes (toLowerCase search) (toLowerCase m).

(** A lowering to run [list_metrics] with.  It maps the letters A to Z
    to a to z and keeps every other byte: on ASCII text it is what
    [toLowerCase] gives. *)
Definition lower (c : ascii) : ascii :=
  let n := nat_of_ascii c in
  if (65 <=? n)%nat && (n <=? 90)%nat then ascii_of_nat (n + 32) else c.

Fixpoint lowered (s : string) : string :=
  match s with
  | EmptyString => EmptyString
  | String c r => String (lower c) (lowered r)
  end.

(** *** The status of the backend *)

(** Whether [get_prometheus_status] fetches the named part. *)
Definition wanted (include : option string) (what : string) : bool :=
  let include := or_else include "all" in
  String.eqb include "all" || String.eqb include what.

(** The requests of the wanted parts, in the order of the handler. *)
Definition status_requests (include : option string) : list Request :=
  ((if wanted include "build" then [GetBuildInfo] else [])
   ++ (if wanted include "runtime" then [GetRuntimeInfo] else [])
   ++ (if wanted include "config" then [GetConfig] else [])
   ++ (if wanted include "flags" then [GetFlags] else []))%list.

(** What a field holds after its fetch ended in the given way. *)
Definition fetched {A B} (shape : A -> B) (fallback : string) (o : Outcome A)
  : statusTools.Fetched B :=
  match o with
  | Return a => statusTools.Value (shape a)
  | Throw e => statusTools.FetchError (message_or (fun _ => fallback) e)
  end.

(** A backend that reports the given TSDB statistics. *)
Definition tsdb_world (t : TsdbStatus) : World :=
  answering (fun r =>
               match r return payload r with
               | GetTsdbStatus => t
               | r' => empty_payload r'
               end).

Definition label_sizes : list NameValue :=
  [ {| nv_name := "__name__"; nv_value := 1536 |};
    {| nv_name := "instance"; nv_value := 1048576 |};
    {| nv_name := "job"; nv_value := 512 |} ].

Definition some_tsdb (minTime_ maxTime_ : number) : TsdbStatus :=
  {| headStats := {| numSeries := 3; numLabelPairs := 7; chunkCount := 3;
                     minTime := minTime_; maxTime := maxTime_ |};
     seriesCountByMetricName := label_sizes;
     labelValueCountByLabelName := label_sizes;
     memoryInBytesByLabelName := label_sizes;
     seriesCountByLabelValuePair := [] |}.

(** The lengths of the four lists of the statistics, and of the four
    lists of the result. *)
Definition tsdb_lengths (t : TsdbStatus) : list Z :=
  map Z.of_nat
    [ length (seriesCountByMetricName t); length (labelValueCountByLabelName t);
      length (memoryInBytesByLabelName t); length (seriesCountByLabelValuePair t) ].

Definition top_lengths (r : statusTools.TsdbResult) : list Z :=
  map Z.of_nat
    [ length (statusTools.topMetricsBySeriesCount r);
      length (statusTools.topLabelsByValueCount r);
      length (statusTools.topLabelsByMemoryUsage r);
      length (statusTools.topLabelValuePairs r) ].

(** * Properties *)

(** ** Strings *)

Lemma append_nil_r (a : string) : a ++ "" = a.
Proof. induction a as [|c a IH]; simpl; [reflexivity | now rewrite IH]. Qed.

Lemma append_assoc (a b c : string) : (a ++ b) ++ c = a ++ b ++ c.
Proof. induction a as [|d a IH]; simpl; [reflexivity | now rewrite IH]. Qed.

Lemma startsWith_app (p r : string) : startsWith p (p ++ r) = true.
Proof.
  induction p as [|a p IH]; simpl.
  - reflexivity.
  - rewrite Ascii.eqb_refl, IH. reflexivity.
Qed.

Lemma includes_empty (s : string) : includes "" s = true.
Proof. destruct s; reflexivity. Qed.

Lemma includes_here (x r : string) : includes x (x ++ r) = true.
Proof.
  destruct x as [|a x]; simpl.
  - destruct r; reflexivity.
  - rewrite Ascii.eqb_refl, startsWith_app. reflexivity.
Qed.

Lemma includes_app (a x b : string) : includes x (a ++ x ++ b) = true.
Proof.
  induction a as [|c a IH]; simpl.
  - apply includes_here.
  - rewrite IH. apply orb_true_r.
Qed.

Lemma includes_end (a x : string) : includes x (a ++ x) = true.
Proof.
  rewrite <- (append_nil_r x) at 2. apply includes_app.
Qed.

Lemma eqb_neq_false (a b : string) : a <> b -> String.eqb a b = false.
Proof. intros H. apply String.eqb_neq. exact H. Qed.

Lemma or_else_nonempty (x d : string) : x <> "" -> or_else (Some x) d = x.
Proof.
  intros H. unfold or_else. rewrite (eqb_neq_false H). reflexivity.
Qed.

(** ** The backend client *)

Ltac run_method H :=
  unfold invoke, void, queryInstant, queryRange, getTargets, getMetrics,
    getMetricMetadata, getAlerts, getRules, getLabelValues, getSeries,
    getBuildInfo, getRuntimeInfo, getConfig, getFlags, getTsdbStatus,
    try_catch, bind, axios_get, handleError, throw, ret;
  simpl in H; rewrite H.

Lemma error_envelope_2xx (this : PrometheusClient) (call : Call) (w : World) (s : State)
    (st : number) (body : PrometheusResponse (payload (request_of call))) :
  respond w (length (trace s)) (client this) (request_of call) = Reply st body ->
  is_2xx st = true ->
  status body <> "success" ->
  fst (invoke this call w s)
  = Throw (Error (failure_prefix call ++ ": " ++ template (error body))).
Proof.
  intros H H2 Hs. unfold is_2xx in H2.
  pose proof (eqb_neq_false Hs) as E.
  destruct call; run_method H; rewrite H2; unfold is_success;
    cbn [response_data payload request_of] in E |- *; rewrite E; reflexivity.
Qed.

Lemma any_envelope_non_2xx (this : PrometheusClient) (call : Call) (w : World) (s : State)
    (st : number) (body : PrometheusResponse (payload (request_of call))) :
  respond w (length (trace s)) (client this) (request_of call) = Reply st body ->
  is_2xx st = false ->
  fst (invoke this call w s)
  = Throw (Error ("Prometheus API error: "
                  ++ or_else (error body)
                       ("Request failed with status code " ++ String_of_number st)
                  ++ " ("
                  ++ or_else (errorType body) (String_of_number st)
                  ++ ")")).
Proof.
  intros H H2. unfold is_2xx in H2.
  destruct call; run_method H; rewrite H2; reflexivity.
Qed.

Lemma testConnection_2xx (this : PrometheusClient) (w : World) (s : State)
    (st : number) (body : PrometheusResponse BuildInfo) :
  respond w (length (trace s)) (client this) GetBuildInfo = Reply st body ->
  is_2xx st = true ->
  fst (testConnection this w s)
  = Return {| connection_status := "connected";
              connection_version := Some (version (data body)) |}.
Proof.
  intros H H2. unfold is_2xx in H2.
  unfold testConnection, try_catch, bind, axios_get, ret.
  rewrite H, H2. reflexivity.
Qed.

(** Claim C1, as amended.  For each of the thirteen client methods that
    unwrap an envelope: when the backend answers with an envelope whose
    status is not "success", carrying the error text [x] and the error type
    [y], the method throws an [Error], whatever the HTTP status is, and the
    message contains [x].  Under a 2xx status the message is the method's
    own prefix followed by [x], and [y] is not part of it; under any other
    status the message is built by [handleError] and contains [y] as well:
    it reads "Prometheus API error: x (y)" when both are non-empty. *)
Theorem error_envelope_is_a_failure
    (this : PrometheusClient) (call : Call) (w : World) (s : State)
    (st : number) (body : PrometheusResponse (payload (request_of call)))
    (x y : string) :
  respond w (length (trace s)) (client this) (request_of call) = Reply st body ->
  status body <> "success" ->
  error body = Some x ->
  errorType body = Some y ->
  exists msg,
    fst (invoke this call w s) = Throw (Error msg)
    /\ includes x msg = true
    /\ (is_2xx st = true -> msg = failure_prefix call ++ ": " ++ x)
    /\ (is_2xx st = false ->
        includes y msg = true
        /\ (x <> "" -> y <> "" ->
            msg = "Prometheus API error: " ++ x ++ " (" ++ y ++ ")")).
Proof.
  intros H Hs Hx Hy.
  destruct (is_2xx st) eqn:E.
  - exists (failure_prefix call ++ ": " ++ x). repeat split.
    + rewrite (error_envelope_2xx this call w s H E Hs), Hx. reflexivity.
    + rewrite <- append_assoc. apply includes_end.
    + discriminate.
    + discriminate.
  - rewrite (any_envelope_non_2xx this call w s H E), Hx, Hy.
    eexists. split; [reflexivity|]. split; [|split; [discriminate|intros _; split]].
    + destruct (String.eqb_spec x "") as [->|Hx'].
      * apply includes_empty.
      * rewrite (or_else_nonempty _ Hx'). apply includes_app.
    + destruct (String.eqb_spec y "") as [->|Hy'].
      * apply includes_empty.
      * rewrite (or_else_nonempty _ Hy').
        rewrite <- 2 append_assoc. apply includes_app.
    + intros Hx' Hy'. rewrite (or_else_nonempty _ Hx'), (or_else_nonempty _ Hy').
      reflexivity.
Qed.

Lemma error_envelope_is_a_failure_witness :
  exists msg,
    fst (invoke some_client CallGetTargets (failing_world 422 "parse error" "bad_data")
           initial) = Throw (Error msg)
    /\ includes "parse error" msg = true
    /\ (is_2xx 422 = true -> msg = failure_prefix CallGetTargets ++ ": " ++ "parse error")
    /\ (is_2xx 422 = false ->
        includes "bad_data" msg = true
        /\ ("parse error" <> "" -> "bad_data" <> "" ->
            msg = "Prometheus API error: " ++ "parse error" ++ " (" ++ "bad_data" ++ ")")).
Proof.
  apply (@error_envelope_is_a_failure some_client CallGetTargets
           (failing_world 422 "parse error" "bad_data") initial 422
           (error_envelope (empty_payload GetTargets) "parse error" "bad_data")
           "parse error" "bad_data").
  - reflexivity.
  - simpl. discriminate.
  - reflexivity.
  - reflexivity.
Defined.

(** Claim C1 as stated fails: an envelope
    [{ status: "error", error: "parse error", errorType: "bad_data" }]
    received with HTTP status 200 makes [queryInstant] throw
    "Query failed: parse error", which does not contain the error type. *)
Lemma error_type_absent_under_2xx :
  let w := failing_world 200 "parse error" "bad_data" in
  respond w 0 (client some_client) (GetQuery "up" None)
  = Reply 200 {| status := "error";
                 data := empty_payload (GetQuery "up" None);
                 errorType := Some "bad_data";
                 error := Some "parse error" |}
  /\ fst (queryInstant some_client "up" None w initial)
     = Throw (Error "Query failed: parse error")
  /\ includes "parse error" "Query failed: parse error" = true
  /\ includes "bad_data" "Query failed: parse error" = false.
Proof. repeat split. Qed.

(** ** The dispatcher *)

Section DispatcherProperties.

Variables Raw Value : Type.
Variable allTools : JS.Record (Tool Raw Value).
Variable prometheusClient : PrometheusClient.

Let call := callTool allTools prometheusClient.

Lemma in_allTools_own (name : string) (tool : Tool Raw Value) :
  get allTools name = Some tool -> in_allTools allTools name = true.
Proof. intros H. unfold in_allTools. rewrite H. reflexivity. Qed.

(** The call handler always resolves: whatever happens inside is turned
    into a result. *)
Lemma callTool_returns (name : string) (args : Raw) (w : World) (s : State) :
  exists result, fst (call name args w s) = Return result.
Proof.
  unfold call, callTool, try_catch, bind, ret, throw.
  destruct (in_allTools allTools name); simpl; [|eexists; reflexivity].
  destruct (get allTools name) as [tool|]; [|eexists; reflexivity].
  destruct (inputSchema tool args) as [validated|msg]; [|eexists; reflexivity].
  destruct (handler tool prometheusClient validated w s) as [[result|e] s'];
    eexists; reflexivity.
Qed.

Lemma callTool_handler_throws (name : string) (tool : Tool Raw Value) (args : Raw)
    (validated : Args tool) (e : Exn) (w : World) (s s' : State) :
  get allTools name = Some tool ->
  inputSchema tool args = ParseSuccess validated ->
  handler tool prometheusClient validated w s = (Throw e, s') ->
  call name args w s
  = (Return {| text := Plain ("Error executing " ++ name ++ ": "
                              ++ message_or String_of_thrown e);
               isError := Some true |}, s').
Proof.
  intros Hget Hparse Hthrow.
  unfold call, callTool, try_catch, bind.
  rewrite (in_allTools_own _ Hget), Hget, Hparse. simpl.
  rewrite Hthrow. reflexivity.
Qed.

Lemma callTool_unknown (name : string) (args : Raw) (w : World) (s : State) :
  get allTools name = None ->
  call name args w s
  = (Return {| text := Plain (if existsb (String.eqb name) Object_prototype_keys
                              then "Error executing " ++ name
                                   ++ ": tool.handler is not a function"
                              else "Unknown tool: " ++ name);
               isError := Some true |}, s).
Proof.
  intros Hget.
  unfold call, callTool, in_allTools, try_catch, bind. rewrite Hget.
  destruct (existsb (String.eqb name) Object_prototype_keys); reflexivity.
Qed.

End DispatcherProperties.

(** Claim C2.  When the name is a key of the catalog, the arguments pass the
    entry's schema and the handler throws, the call handler returns a result
    whose error flag is set and whose text contains the message of what was
    thrown and the name of the tool; and for every name and every argument
    object the call handler returns a result, it never throws. *)
Theorem handler_exception_is_contained
    (Raw Value : Type) (allTools : JS.Record (Tool Raw Value))
    (prometheusClient : PrometheusClient)
    (name : string) (tool : Tool Raw Value) (args : Raw) (validated : Args tool)
    (e : Exn) (w : World) (s s' : State) :
  get allTools name = Some tool ->
  inputSchema tool args = ParseSuccess validated ->
  handler tool prometheusClient validated w s = (Throw e, s') ->
  (exists msg,
      callTool allTools prometheusClient name args w s
      = (Return {| text := Plain msg; isError := Some true |}, s')
      /\ includes (message_or String_of_thrown e) msg = true
      /\ includes name msg = true)
  /\ (forall name' args' w' s0,
         exists result,
           fst (callTool allTools prometheusClient name' args' w' s0) = Return result).
Proof.
  intros Hget Hparse Hthrow. split.
  - eexists. split; [|split].
    + eapply callTool_handler_throws; eassumption.
    + rewrite <- 2 append_assoc. apply includes_end.
    + apply includes_app.
  - intros. apply callTool_returns.
Qed.

Lemma handler_exception_is_contained_witness :
  let args := {| healthTools.args_job := None; healthTools.args_instance := None |} in
  (exists msg,
      callTool health_catalog some_client "get_target_health" args empty_world initial
      = (Return {| text := Plain msg; isError := Some true |}, initial)
      /\ includes "At least one of job or instance must be specified" msg = true
      /\ includes "get_target_health" msg = true)
  /\ (forall name' args' w' s0,
         exists result,
           fst (callTool health_catalog some_client name' args' w' s0) = Return result).
Proof.
  apply (@handler_exception_is_contained _ _ health_catalog some_client
           "get_target_health" get_target_health_tool
           {| healthTools.args_job := None; healthTools.args_instance := None |}
           {| healthTools.args_job := None; healthTools.args_instance := None |}
           (Error "At least one of job or instance must be specified")
           empty_world initial initial);
    reflexivity.
Defined.

(** Claim C5.  For a name that is no key of the catalog, the call handler
    returns a result with the error flag set whose text contains the name,
    and it sends no request to the backend.  The text is
    "Unknown tool: <name>", except for the names every object inherits
    ("toString", "constructor", ...), which pass the [in] test and are
    reported by the catch block instead. *)
Theorem unknown_tool_is_reported
    (Raw Value : Type) (allTools : JS.Record (Tool Raw Value))
    (prometheusClient : PrometheusClient)
    (name : string) (args : Raw) (w : World) (s : State) :
  get allTools name = None ->
  exists msg,
    callTool allTools prometheusClient name args w s
    = (Return {| text := Plain msg; isError := Some true |}, s)
    /\ includes name msg = true
    /\ (existsb (String.eqb name) Object_prototype_keys = false ->
        msg = "Unknown tool: " ++ name)
    /\ sent_by (callTool allTools prometheusClient name args) w s = [].
Proof.
  intros Hget. eexists. split; [apply callTool_unknown; exact Hget|].
  split; [|split].
  - destruct (existsb _ _).
    + apply includes_app.
    + apply includes_end.
  - intros ->. reflexivity.
  - unfold sent_by. rewrite callTool_unknown by exact Hget. simpl.
    apply skipn_all.
Qed.

Lemma unknown_tool_is_reported_witness :
  let args := {| healthTools.args_job := None; healthTools.args_instance := None |} in
  exists msg,
    callTool health_catalog some_client "delete_series" args empty_world initial
    = (Return {| text := Plain msg; isError := Some true |}, initial)
    /\ includes "delete_series" msg = true
    /\ (existsb (String.eqb "delete_series") Object_prototype_keys = false ->
        msg = "Unknown tool: " ++ "delete_series")
    /\ sent_by (callTool health_catalog some_client "delete_series" args)
         empty_world initial = [].
Proof.
  apply (@unknown_tool_is_reported _ _ health_catalog some_client "delete_series"
           {| healthTools.args_job := None; healthTools.args_instance := None |}
           empty_world initial).
  reflexivity.
Defined.

(** ** Relative durations *)

Lemma splitLast_snoc (ds : string) (c : ascii) :
  splitLast (ds ++ String c "") = Some (ds, c).
Proof.
  induction ds as [|a ds IH]; simpl.
  - reflexivity.
  - rewrite IH. destruct (ds ++ String c ""); [discriminate IH | reflexivity].
Qed.

Lemma splitLast_inv (s ds : string) (c : ascii) :
  splitLast s = Some (ds, c) -> s = ds ++ String c "".
Proof.
  revert ds. induction s as [|a s IH]; intros ds; simpl.
  - discriminate.
  - destruct s as [|b s].
    + intros [= <- <-]. reflexivity.
    + destruct (splitLast (String b s)) as [[i l]|]; [|discriminate].
      intros [= <- <-]. rewrite (IH i eq_refl). reflexivity.
Qed.

Lemma allDigits_string_of_uint (d : Decimal.uint) :
  allDigits (NilEmpty.string_of_uint d) = true.
Proof. induction d; simpl; auto. Qed.

Lemma allDigits_of_numeral (ds : string) (d : Decimal.uint) :
  NilEmpty.uint_of_string ds = Some d -> allDigits ds = true.
Proof.
  intros H. rewrite <- (NilEmpty.sus _ _ H). apply allDigits_string_of_uint.
Qed.

Lemma digitPrefix_allDigits (ds : string) : allDigits ds = true -> digitPrefix ds = ds.
Proof.
  induction ds as [|c ds IH]; simpl; [reflexivity|].
  intros H. apply andb_prop in H as [Hc Hds]. rewrite Hc, (IH Hds). reflexivity.
Qed.

Lemma parseInt_numeral (ds : string) (n : N) :
  numeral ds n -> parseInt ds = Some (Z.of_N n).
Proof.
  intros [Hne [d [Hd Hn]]]. unfold parseInt.
  rewrite (digitPrefix_allDigits _ (allDigits_of_numeral _ Hd)).
  destruct ds as [|c ds]; [contradiction|].
  rewrite Hd. simpl. rewrite Hn. reflexivity.
Qed.

Lemma numeral_decimal (n : N) : numeral (decimal n) n.
Proof.
  unfold numeral, decimal. split.
  - destruct n as [|p]; [discriminate|].
    intros H. pose proof (DecimalN.Unsigned.of_to (Npos p)) as E.
    destruct (N.to_uint (Npos p)); simpl in H; discriminate.
  - exists (N.to_uint n). split.
    + apply NilEmpty.usu.
    + apply DecimalN.Unsigned.of_to.
Qed.

(** The units of the table are the five letters of the pattern, and the
    handlers' tables hold the same numbers. *)
(** The decimal numeral of a number is read back as that number. *)
Lemma decimal_is_parsed (n : N) : parseInt (decimal n) = Some (Z.of_N n).
Proof. apply parseInt_numeral. apply numeral_decimal. Qed.

Lemma unit_ms_cases (u : string) (mult : Z) :
  unit_ms u = Some mult ->
  (u = "s" /\ mult = 1000) \/ (u = "m" /\ mult = 60000) \/ (u = "h" /\ mult = 3600000)
  \/ (u = "d" /\ mult = 86400000) \/ (u = "w" /\ mult = 604800000).
Proof.
  unfold unit_ms.
  repeat match goal with
         | |- context [String.eqb u ?k] => destruct (String.eqb_spec u k)
         end; intros [= <-]; subst; auto 10.
Qed.

Lemma match_relative_numeral (ds u : string) (n : N) (mult : Z) :
  numeral ds n -> unit_ms u = Some mult ->
  match_relative (ds ++ u) = Some (ds, u)
  /\ get queryTools.multipliers u = Some mult
  /\ get alertsTools.multipliers u = Some mult.
Proof.
  intros Hnum Hu. pose proof Hnum as [Hne [d [Hd _]]].
  assert (Hm : forall c, isUnit c = true ->
                         match_relative (ds ++ String c "") = Some (ds, String c "")).
  { intros c Hc. unfold match_relative. rewrite splitLast_snoc.
    rewrite (eqb_neq_false Hne), (allDigits_of_numeral _ Hd), Hc. reflexivity. }
  destruct (unit_ms_cases _ Hu) as [[-> ->]|[[-> ->]|[[-> ->]|[[-> ->]|[-> ->]]]]];
    (split; [apply Hm; reflexivity | split; reflexivity]).
Qed.

Lemma match_relative_grammar (s ds u : string) :
  match_relative s = Some (ds, u) -> relative_duration s.
Proof.
  unfold match_relative.
  destruct (splitLast s) as [[i c]|] eqn:Hs; [|discriminate].
  destruct (negb (String.eqb i "")) eqn:Hne; [|discriminate].
  destruct (allDigits i) eqn:Hd; [|discriminate].
  destruct (isUnit c) eqn:Hc; [|discriminate].
  simpl. intros [= <- <-].
  assert (Hnum : exists n, numeral i n).
  { assert (Hex : exists d, NilEmpty.uint_of_string i = Some d).
    { clear Hs Hne. induction i as [|a i IH]; simpl.
      - eexists; reflexivity.
      - simpl in Hd. apply andb_prop in Hd as [Ha Hi].
        destruct (IH Hi) as [d ->].
        destruct a as [[|] [|] [|] [|] [|] [|] [|] [|]]; try discriminate Ha;
          simpl; eexists; reflexivity. }
    destruct Hex as [d Hd']. exists (N.of_uint d). split.
    - intros ->. discriminate Hne.
    - exists d. split; [exact Hd' | reflexivity]. }
  destruct Hnum as [n Hnum].
  assert (Hunit : exists mult, unit_ms (String c "") = Some mult).
  { unfold isUnit in Hc. simpl in Hc.
    repeat match type of Hc with
           | (Ascii.eqb c ?k || _) = true =>
               destruct (Ascii.eqb_spec c k);
               [subst; eexists; reflexivity | simpl in Hc]
           end.
    discriminate Hc. }
  destruct Hunit as [mult Hmult].
  exists i, n, (String c ""), mult. split; [|split; assumption].
  apply splitLast_inv. exact Hs.
Qed.

Lemma match_relative_none (s : string) :
  ~ relative_duration s -> match_relative s = None.
Proof.
  intros H. destruct (match_relative s) as [[ds u]|] eqn:E; [|reflexivity].
  exfalso. apply H. apply (match_relative_grammar _ E).
Qed.

(** ** What the handlers send *)

Lemma skipn_length_app {A} (l r : list A) : skipn (length l) (l ++ r) = r.
Proof. induction l as [|a l IH]; simpl; [reflexivity | exact IH]. Qed.

Lemma queryRange_state (this : PrometheusClient) (q : string) (a b : TimeString)
    (st : string) (w : World) (s : State) :
  snd (queryRange this q a b st w s)
  = {| trace := trace s ++ [ {| via := client this; request := GetQueryRange q a b st |} ];
       ticks := ticks s |}.
Proof.
  unfold queryRange, try_catch, bind, axios_get, handleError, throw, ret.
  destruct (respond w (length (trace s)) (client this) (GetQueryRange q a b st))
    as [code body| |]; [|reflexivity|reflexivity].
  destruct ((200 <=? code) && (code <? 300)); [|reflexivity].
  destruct (negb (is_success _)); reflexivity.
Qed.

Lemma queryInstant_state (this : PrometheusClient) (q : string) (t : option string)
    (w : World) (s : State) :
  snd (queryInstant this q t w s)
  = {| trace := trace s ++ [ {| via := client this; request := GetQuery q (if_truthy t) |} ];
       ticks := ticks s |}.
Proof.
  unfold queryInstant, try_catch, bind, axios_get, handleError, throw, ret.
  destruct (respond w (length (trace s)) (client this) (GetQuery q (if_truthy t)))
    as [code body| |]; [|reflexivity|reflexivity].
  destruct ((200 <=? code) && (code <? 300)); [|reflexivity].
  destruct (negb (is_success _)); reflexivity.
Qed.

(** A continuation that only computes leaves the state as it is. *)
Lemma snd_bind_lift {A B C} (m : M A) (f : A -> Outcome B) (g : A -> B -> C)
    (w : World) (s : State) :
  snd ((a <- m ;; b <- lift (f a) ;; ret (g a b)) w s) = snd (m w s).
Proof.
  unfold bind, lift, ret. destruct (m w s) as [[a|e] s']; [|reflexivity].
  destruct (f a); reflexivity.
Qed.

(** The step [get_alert_history] derives from the look-back. *)
Lemma alert_history_step (ms : Z) :
  let step := if gt (Some ms) (24 * 60 * 60 * 1000) then "5m" else "1m" in
  let step := if gt (Some ms) (7 * 24 * 60 * 60 * 1000) then "15m" else step in
  (ms <= 86400000 -> step = "1m")
  /\ (86400000 < ms <= 604800000 -> step = "5m")
  /\ (604800000 < ms -> step = "15m").
Proof.
  unfold gt. cbv zeta.
  change (7 * 24 * 60 * 60 * 1000) with 604800000.
  change (24 * 60 * 60 * 1000) with 86400000.
  destruct (Z.ltb_spec 86400000 ms), (Z.ltb_spec 604800000 ms);
    repeat split; intros; try reflexivity; lia.
Qed.

Lemma get_alert_history_sends (this : PrometheusClient)
    (args : alertsTools.AlertHistoryArgs) (w : World) (s : State)
    (ds u : string) (v mult : Z) :
  match_relative (or_else (alertsTools.args_timeRange args) "1h") = Some (ds, u) ->
  parseInt ds = Some v ->
  get alertsTools.multipliers u = Some mult ->
  validTime (clock w (ticks s) - v * mult) = true ->
  exists query step,
    sent_by (alertsTools.get_alert_history this args) w s
    = [ {| via := client this;
           request := GetQueryRange query
                        (ISOString (clock w (ticks s) - v * mult))
                        (ISOString (clock w (S (ticks s))))
                        step |} ]
    /\ (v * mult <= 86400000 -> step = "1m")
    /\ (86400000 < v * mult <= 604800000 -> step = "5m")
    /\ (604800000 < v * mult -> step = "15m").
Proof.
  intros Hm Hp Hg Hv.
  eexists. eexists. split; [|apply alert_history_step].
  unfold sent_by, alertsTools.get_alert_history. rewrite Hm, Hp, Hg.
  unfold queryTools.ago_ISOString, now_ISOString, Date_now, toISOString.
  unfold bind at 1 2. unfold times. cbv iota beta. rewrite Hv.
  unfold lift at 1. cbv iota beta.
  unfold bind at 1 2. unfold ret at 1. cbv iota beta.
  rewrite snd_bind_lift, queryRange_state. cbn [trace ticks].
  apply skipn_length_app.
Qed.

Lemma get_alert_history_invalid_date (this : PrometheusClient)
    (args : alertsTools.AlertHistoryArgs) (w : World) (s : State)
    (ds u : string) (v mult : Z) :
  match_relative (or_else (alertsTools.args_timeRange args) "1h") = Some (ds, u) ->
  parseInt ds = Some v ->
  get alertsTools.multipliers u = Some mult ->
  validTime (clock w (ticks s) - v * mult) = false ->
  alertsTools.get_alert_history this args w s
  = (Throw (Error "Invalid time value"), tick s).
Proof.
  intros Hm Hp Hg Hv.
  unfold alertsTools.get_alert_history. rewrite Hm, Hp, Hg.
  unfold queryTools.ago_ISOString, Date_now, toISOString.
  unfold bind at 1 2. unfold times. cbv iota beta. rewrite Hv. reflexivity.
Qed.

Ltac step_queryRange :=
  match goal with
  | |- context [queryRange ?c ?q ?a ?b ?st ?w ?s] =>
      let Q := fresh "Q" in
      pose proof (queryRange_state c q a b st w s) as Q;
      destruct (queryRange c q a b st w s) as [[? | ?] ?];
      cbn [snd] in Q; subst
  end;
  repeat match goal with
         | |- context [match ?x with Return _ => _ | Throw _ => _ end] => destruct x
         end;
  cbn [snd trace ticks].

Ltac finish_query_range :=
  match goal with
  | |- context [queryTools.args_end ?args] =>
      destruct (queryTools.args_end args) as [e|];
      [destruct (truthy (Some e))|];
      unfold now_ISOString, Date_now, bind, lift, ret;
      step_queryRange; eexists; rewrite skipn_length_app; reflexivity
  end.

Lemma query_range_sends (this : PrometheusClient) (args : queryTools.QueryRangeArgs)
    (w : World) (s : State) (ds u : string) (v mult : Z) :
  match_relative (queryTools.args_start args) = Some (ds, u) ->
  parseInt ds = Some v ->
  get queryTools.multipliers u = Some mult ->
  validTime (clock w (ticks s) - v * mult) = true ->
  exists end_,
    sent_by (queryTools.query_range this args) w s
    = [ {| via := client this;
           request := GetQueryRange (queryTools.args_query args)
                        (ISOString (clock w (ticks s) - v * mult))
                        end_
                        (or_else (queryTools.args_step args) "1m") |} ].
Proof.
  intros Hm Hp Hg Hv.
  unfold sent_by, queryTools.query_range, test_relative. rewrite Hm, Hp, Hg.
  unfold queryTools.ago_ISOString, Date_now, toISOString.
  unfold bind at 1 2. unfold times. cbv iota beta. rewrite Hv.
  unfold lift at 1. cbv iota beta.
  finish_query_range.
Qed.

Lemma query_range_invalid_date (this : PrometheusClient)
    (args : queryTools.QueryRangeArgs) (w : World) (s : State)
    (ds u : string) (v mult : Z) :
  match_relative (queryTools.args_start args) = Some (ds, u) ->
  parseInt ds = Some v ->
  get queryTools.multipliers u = Some mult ->
  validTime (clock w (ticks s) - v * mult) = false ->
  queryTools.query_range this args w s = (Throw (Error "Invalid time value"), tick s).
Proof.
  intros Hm Hp Hg Hv.
  unfold queryTools.query_range, test_relative. rewrite Hm, Hp, Hg.
  unfold queryTools.ago_ISOString, Date_now, toISOString.
  unfold bind at 1 2. unfold times. cbv iota beta. rewrite Hv. reflexivity.
Qed.

Lemma query_range_verbatim (this : PrometheusClient) (args : queryTools.QueryRangeArgs)
    (w : World) (s : State) :
  match_relative (queryTools.args_start args) = None ->
  exists end_,
    sent_by (queryTools.query_range this args) w s
    = [ {| via := client this;
           request := GetQueryRange (queryTools.args_query args)
                        (Verbatim (queryTools.args_start args))
                        end_
                        (or_else (queryTools.args_step args) "1m") |} ].
Proof.
  intros Hm.
  unfold sent_by, queryTools.query_range, test_relative. rewrite Hm.
  unfold bind at 1. unfold ret at 1. cbv iota beta.
  finish_query_range.
Qed.

Lemma get_alert_history_rejects (this : PrometheusClient)
    (args : alertsTools.AlertHistoryArgs) (w : World) (s : State) :
  match_relative (or_else (alertsTools.args_timeRange args) "1h") = None ->
  alertsTools.get_alert_history this args w s
  = (Throw (Error alertsTools.invalid_time_range), s).
Proof.
  intros Hm. unfold alertsTools.get_alert_history. rewrite Hm. reflexivity.
Qed.

Lemma relative_duration_matches (s : string) :
  relative_duration s -> exists ds u, match_relative s = Some (ds, u).
Proof.
  intros [ds [n [u [mult [-> [Hn Hu]]]]]]. exists ds, u.
  eapply match_relative_numeral; eassumption.
Qed.

Lemma not_relative_duration (s : string) :
  match_relative s = None -> ~ relative_duration s.
Proof.
  intros E H. destruct (relative_duration_matches H) as [ds [u E']].
  rewrite E in E'. discriminate E'.
Qed.

(** Claim C3, as amended.  For a string [ds ++ u] of the grammar, [ds] a
    numeral of [n] and [u] a unit with multiplier [mult] in the table
    s=1000, m=60000, h=3600000, d=86400000, w=604800000, both handlers
    that parse relative durations (the [start] of [query_range], the
    [timeRange] of [get_alert_history]) use [n * mult] milliseconds: the
    range query they send starts at the instant [now - n * mult], and when
    that instant is no valid date they throw the RangeError of
    [toISOString] and send nothing.  For a string [other] that is not of
    the grammar, [query_range] signals nothing and sends the string as it
    is, and [get_alert_history] (for a non-empty string; the empty one is
    replaced by the default "1h") throws one fixed message, which does not
    carry the string, and sends nothing. *)
Theorem relative_durations_are_converted
    (this : PrometheusClient) (w : World) (s : State)
    (ds u : string) (n : N) (mult : Z) (other : string)
    (query : string) (end_ step alertname : option string) :
  numeral ds n ->
  unit_ms u = Some mult ->
  ~ relative_duration other ->
  other <> "" ->
  let ms := Z.of_N n * mult in
  let now := clock w (ticks s) in
  let range_args start :=
    {| queryTools.args_query := query; queryTools.args_start := start;
       queryTools.args_end := end_; queryTools.args_step := step |} in
  let history_args range :=
    {| alertsTools.args_alertname := alertname;
       alertsTools.args_timeRange := Some range |} in
  (validTime (now - ms) = true ->
   (exists e,
       sent_by (queryTools.query_range this (range_args (ds ++ u))) w s
       = [ {| via := client this;
              request := GetQueryRange query (ISOString (now - ms)) e
                           (or_else step "1m") |} ])
   /\ (exists q e st,
          sent_by (alertsTools.get_alert_history this (history_args (ds ++ u))) w s
          = [ {| via := client this;
                 request := GetQueryRange q (ISOString (now - ms)) e st |} ]))
  /\ (validTime (now - ms) = false ->
      queryTools.query_range this (range_args (ds ++ u)) w s
      = (Throw (Error "Invalid time value"), tick s)
      /\ alertsTools.get_alert_history this (history_args (ds ++ u)) w s
         = (Throw (Error "Invalid time value"), tick s))
  /\ (exists e,
         sent_by (queryTools.query_range this (range_args other)) w s
         = [ {| via := client this;
                request := GetQueryRange query (Verbatim other) e
                             (or_else step "1m") |} ])
  /\ alertsTools.get_alert_history this (history_args other) w s
     = (Throw (Error alertsTools.invalid_time_range), s).
Proof.
  intros Hn Hu Hother Hne ms now range_args history_args.
  destruct (@match_relative_numeral ds u n mult Hn Hu) as [Hm [Hq Ha]].
  pose proof (@parseInt_numeral ds n Hn) as Hp.
  assert (Hdu : or_else (Some (ds ++ u)) "1h" = ds ++ u).
  { apply or_else_nonempty. destruct Hn as [Hds _].
    destruct ds; [contradiction | discriminate]. }
  repeat split.
  - eapply (query_range_sends this (range_args (ds ++ u))); eassumption.
  - destruct (get_alert_history_sends this (history_args (ds ++ u)) w s) with
      (ds := ds) (u := u) (v := Z.of_N n) (mult := mult)
      as [q [st [E _]]]; try assumption.
    + cbn [history_args alertsTools.args_timeRange]. rewrite Hdu. exact Hm.
    + eexists. eexists. eexists. exact E.
  - eapply (query_range_invalid_date this (range_args (ds ++ u))); eassumption.
  - apply (get_alert_history_invalid_date this (history_args (ds ++ u)) w s)
      with (ds := ds) (u := u) (v := Z.of_N n) (mult := mult); try assumption.
    cbn [history_args alertsTools.args_timeRange]. rewrite Hdu. exact Hm.
  - apply (query_range_verbatim this (range_args other) w s).
    apply match_relative_none. exact Hother.
  - apply get_alert_history_rejects.
    cbn [history_args alertsTools.args_timeRange].
    rewrite (or_else_nonempty _ Hne). apply match_relative_none. exact Hother.
Qed.

Lemma relative_durations_are_converted_witness :
  let this := some_client in
  let w := empty_world in
  let s := initial in
  (validTime (1700000000000 - 7200000) = true ->
   (exists e,
       sent_by (queryTools.query_range this
                  {| queryTools.args_query := "up"; queryTools.args_start := "2" ++ "h";
                     queryTools.args_end := None; queryTools.args_step := None |}) w s
       = [ {| via := client this;
              request := GetQueryRange "up" (ISOString (1700000000000 - 7200000)) e
                           (or_else None "1m") |} ])
   /\ (exists q e st,
          sent_by (alertsTools.get_alert_history this
                     {| alertsTools.args_alertname := None;
                        alertsTools.args_timeRange := Some ("2" ++ "h") |}) w s
          = [ {| via := client this;
                 request := GetQueryRange q (ISOString (1700000000000 - 7200000)) e st |} ]))
  /\ (validTime (1700000000000 - 7200000) = false ->
      queryTools.query_range this
        {| queryTools.args_query := "up"; queryTools.args_start := "2" ++ "h";
           queryTools.args_end := None; queryTools.args_step := None |} w s
      = (Throw (Error "Invalid time value"), tick s)
      /\ alertsTools.get_alert_history this
           {| alertsTools.args_alertname := None;
              alertsTools.args_timeRange := Some ("2" ++ "h") |} w s
         = (Throw (Error "Invalid time value"), tick s))
  /\ (exists e,
         sent_by (queryTools.query_range this
                    {| queryTools.args_query := "up"; queryTools.args_start := "yesterday";
                       queryTools.args_end := None; queryTools.args_step := None |}) w s
         = [ {| via := client this;
                request := GetQueryRange "up" (Verbatim "yesterday") e
                             (or_else None "1m") |} ])
  /\ alertsTools.get_alert_history this
       {| alertsTools.args_alertname := None;
          alertsTools.args_timeRange := Some "yesterday" |} w s
     = (Throw (Error alertsTools.invalid_time_range), s).
Proof.
  apply (@relative_durations_are_converted some_client empty_world initial
           "2" "h" 2%N 3600000 "yesterday" "up" None None None).
  - split; [discriminate | exists (D2 Nil); split; reflexivity].
  - reflexivity.
  - apply not_relative_duration. reflexivity.
  - discriminate.
Defined.

(** Claim C3 as stated fails on strings outside the grammar: given the
    start "yesterday", [query_range] signals no failure and hands the
    string to the backend, and given the time range "yesterday",
    [get_alert_history] throws a message that does not carry the string. *)
Lemma invalid_time_expression_not_signalled :
  ~ relative_duration "yesterday"
  /\ (exists r,
         fst (queryTools.query_range some_client
                {| queryTools.args_query := "up"; queryTools.args_start := "yesterday";
                   queryTools.args_end := None; queryTools.args_step := None |}
                empty_world initial) = Return r
         /\ queryTools.tr_start (queryTools.timeRange r) = Verbatim "yesterday")
  /\ (exists msg,
         fst (alertsTools.get_alert_history some_client
                {| alertsTools.args_alertname := None;
                   alertsTools.args_timeRange := Some "yesterday" |}
                empty_world initial) = Throw (Error msg)
         /\ includes "yesterday" msg = false).
Proof.
  split; [|split].
  - apply not_relative_duration. reflexivity.
  - eexists. split; reflexivity.
  - eexists. split; reflexivity.
Qed.

(** Claim C4.  When the time range of an alert-history call is a string of
    the grammar denoting [ms] milliseconds, the handler sends one range
    query, and the step of that query is "1m" when [ms <= 86400000], "5m"
    when [86400000 < ms <= 604800000] and "15m" when [604800000 < ms];
    when the look-back leaves the range of [Date] the handler throws
    before the range query, so that no step is passed at all. *)
Theorem alert_history_step_policy
    (this : PrometheusClient) (args : alertsTools.AlertHistoryArgs)
    (w : World) (s : State) (ds u : string) (n : N) (mult : Z) :
  numeral ds n ->
  unit_ms u = Some mult ->
  or_else (alertsTools.args_timeRange args) "1h" = ds ++ u ->
  let ms := Z.of_N n * mult in
  (validTime (clock w (ticks s) - ms) = true ->
   exists query start end_ step,
     sent_by (alertsTools.get_alert_history this args) w s
     = [ {| via := client this; request := GetQueryRange query start end_ step |} ]
     /\ (ms <= 86400000 -> step = "1m")
     /\ (86400000 < ms <= 604800000 -> step = "5m")
     /\ (604800000 < ms -> step = "15m"))
  /\ (validTime (clock w (ticks s) - ms) = false ->
      sent_by (alertsTools.get_alert_history this args) w s = []).
Proof.
  intros Hn Hu Hr ms.
  destruct (@match_relative_numeral ds u n mult Hn Hu) as [Hm [_ Ha]].
  pose proof (@parseInt_numeral ds n Hn) as Hp.
  rewrite <- Hr in Hm. split; intros Hv.
  - destruct (get_alert_history_sends this args w s Hm Hp Ha Hv)
      as [query [step [E P]]].
    exists query, (ISOString (clock w (ticks s) - ms)),
      (ISOString (clock w (S (ticks s)))), step.
    split; [exact E | exact P].
  - unfold sent_by.
    rewrite (get_alert_history_invalid_date this args w s Hm Hp Ha Hv).
    apply skipn_all.
Qed.

Lemma alert_history_step_policy_witness :
  let args := {| alertsTools.args_alertname := None;
                 alertsTools.args_timeRange := Some "7d" |} in
  let ms := Z.of_N 7 * 86400000 in
  (validTime (clock empty_world (ticks initial) - ms) = true ->
   exists query start end_ step,
     sent_by (alertsTools.get_alert_history some_client args) empty_world initial
     = [ {| via := client some_client;
            request := GetQueryRange query start end_ step |} ]
     /\ (ms <= 86400000 -> step = "1m")
     /\ (86400000 < ms <= 604800000 -> step = "5m")
     /\ (604800000 < ms -> step = "15m"))
  /\ (validTime (clock empty_world (ticks initial) - ms) = false ->
      sent_by (alertsTools.get_alert_history some_client args) empty_world initial = []).
Proof.
  apply (@alert_history_step_policy some_client
           {| alertsTools.args_alertname := None;
              alertsTools.args_timeRange := Some "7d" |}
           empty_world initial "7" "d" 7%N 86400000).
  - split; [discriminate | exists (D7 Nil); split; reflexivity].
  - reflexivity.
  - reflexivity.
Defined.

(** ** The node-exporter helper *)

Lemma cpu_queries (instance range : string) :
  queryTools.node_exporter_queries instance range "cpu"
  = [ ("cpuUsagePercent",
       "100 - (avg by (instance) (rate(node_cpu_seconds_total{instance="
       ++ quoted instance ++ ",mode=" ++ quoted "idle" ++ "}[" ++ range
       ++ "])) * 100)");
      ("cpuUserPercent",
       "avg by (instance) (rate(node_cpu_seconds_total{instance="
       ++ quoted instance ++ ",mode=" ++ quoted "user" ++ "}[" ++ range
       ++ "])) * 100");
      ("cpuSystemPercent",
       "avg by (instance) (rate(node_cpu_seconds_total{instance="
       ++ quoted instance ++ ",mode=" ++ quoted "system" ++ "}[" ++ range
       ++ "])) * 100");
      ("cpuIowaitPercent",
       "avg by (instance) (rate(node_cpu_seconds_total{instance="
       ++ quoted instance ++ ",mode=" ++ quoted "iowait" ++ "}[" ++ range
       ++ "])) * 100") ].
Proof. reflexivity. Qed.

Lemma after_queries_nil (this : PrometheusClient) (s : State) :
  after_queries this s [] = s.
Proof. unfold after_queries. simpl. rewrite app_nil_r. destruct s; reflexivity. Qed.

Lemma after_queries_app (this : PrometheusClient) (s : State) (a b : JS.Record string) :
  after_queries this (after_queries this s a) b = after_queries this s (a ++ b)%list.
Proof.
  unfold after_queries. cbn [trace ticks]. rewrite map_app, app_assoc. reflexivity.
Qed.

(** The loop of the helper: it returns, whatever the sub-queries do, with
    one entry stored per sub-query. *)
Lemma for_of_sub_queries (this : PrometheusClient) (w : World)
    (queries : JS.Record string) (acc : JS.Record queryTools.MetricResult) (s : State) :
  for_of queries acc
    (fun results entry =>
       try_catch
         (result <- queryInstant this (snd entry) None ;;
          ret (set results (fst entry) (queryTools.reshape result)))
         (fun err =>
            ret (set results (fst entry)
                   (queryTools.InlineError
                      (message_or (fun _ => "Query failed") err))))) w s
  = (Return (loop_results this w s queries acc), after_queries this s queries).
Proof.
  revert acc s. induction queries as [|entry rest IH]; intros acc s.
  - simpl. rewrite after_queries_nil. reflexivity.
  - simpl for_of. unfold bind at 1. unfold try_catch at 1. unfold bind at 1.
    pose proof (queryInstant_state this (snd entry) None w s) as Q.
    cbn [loop_results].
    destruct (queryInstant this (snd entry) None w s) as [[r|e] s1];
      cbn [snd] in Q; subst s1; unfold ret at 1; cbv iota beta; cbn [fst stored];
      rewrite IH;
      change (after_queries this s (entry :: rest))
        with (after_queries this s ([entry] ++ rest)%list);
      rewrite <- after_queries_app; reflexivity.
Qed.

(** The node-exporter helper returns for every category and every
    behaviour of the backend: a failing sub-query never aborts it. *)
Lemma query_node_exporter_returns (this : PrometheusClient)
    (args : queryTools.NodeExporterArgs) (w : World) (s : State) :
  let range := or_else (queryTools.args_timeRange args) "5m" in
  let queries :=
    queryTools.node_exporter_queries (queryTools.args_instance args) range
      (queryTools.args_metric args) in
  queryTools.query_node_exporter this args w s
  = (Return {| queryTools.ne_instance := queryTools.args_instance args;
               queryTools.ne_timeRange := range;
               queryTools.metrics := loop_results this w s queries [] |},
     after_queries this s queries).
Proof.
  intros range queries. unfold queryTools.query_node_exporter.
  unfold bind at 1. fold range. fold queries.
  rewrite (for_of_sub_queries this w queries [] s). reflexivity.
Qed.

(** Claim C6.  For the category "cpu" the node-exporter helper synthesizes
    the four CPU sub-queries and no other: the usage, as 100 less the idle
    rate, and the rates of the modes user, system and iowait, each over
    the range and for the instance given.  It sends one instant query for
    each, in this order.  Whatever the backend does with them, the helper
    returns, with one entry per sub-query under the sub-query's name:
    when the instant query of that sub-query returned, its samples, each
    as the labels and the value text of the sample, in their order; and
    when it threw, the inline object [{ error: message }], [message]
    being the message of the error thrown, or "Query failed" for a value
    that is no error. *)
Theorem cpu_sub_queries_fail_independently
    (this : PrometheusClient) (instance : string) (timeRange : option string)
    (w : World) (s : State) :
  let range := or_else timeRange "5m" in
  let args := {| queryTools.args_instance := instance;
                 queryTools.args_metric := "cpu";
                 queryTools.args_timeRange := timeRange |} in
  let queries :=
    [ ("cpuUsagePercent",
       "100 - (avg by (instance) (rate(node_cpu_seconds_total{instance="
       ++ quoted instance ++ ",mode=" ++ quoted "idle" ++ "}[" ++ range
       ++ "])) * 100)");
      ("cpuUserPercent",
       "avg by (instance) (rate(node_cpu_seconds_total{instance="
       ++ quoted instance ++ ",mode=" ++ quoted "user" ++ "}[" ++ range
       ++ "])) * 100");
      ("cpuSystemPercent",
       "avg by (instance) (rate(node_cpu_seconds_total{instance="
       ++ quoted instance ++ ",mode=" ++ quoted "system" ++ "}[" ++ range
       ++ "])) * 100");
      ("cpuIowaitPercent",
       "avg by (instance) (rate(node_cpu_seconds_total{instance="
       ++ quoted instance ++ ",mode=" ++ quoted "iowait" ++ "}[" ++ range
       ++ "])) * 100") ] in
  queryTools.node_exporter_queries instance range "cpu" = queries
  /\ sent_by (queryTools.query_node_exporter this args) w s
     = map (fun entry => {| via := client this;
                            request := GetQuery (snd entry) None |}) queries
  /\ exists results,
       fst (queryTools.query_node_exporter this args w s)
       = Return {| queryTools.ne_instance := instance;
                   queryTools.ne_timeRange := range;
                   queryTools.metrics := results |}
       /\ keys results
          = ["cpuUsagePercent"; "cpuUserPercent"; "cpuSystemPercent"; "cpuIowaitPercent"]
       /\ forall k name query,
            nth_error queries k = Some (name, query) ->
            let outcome :=
              fst (queryInstant this query None w
                     (after_queries this s (firstn k queries))) in
            (forall answer, outcome = Return answer ->
               get results name
               = Some (queryTools.Samples
                         (map (fun sample =>
                                 {| queryTools.lv_labels := metric sample;
                                    queryTools.lv_value := snd (value sample) |})
                              (result answer))))
            /\ (forall e, outcome = Throw e ->
                  get results name
                  = Some (queryTools.InlineError
                            match e with
                            | Error message => message
                            | AxiosError message _ _ => message
                            | NonError _ => "Query failed"
                            end)).
Proof.
  intros range args queries.
  pose proof (query_node_exporter_returns this args w s) as R.
  cbn [args queryTools.args_instance queryTools.args_metric queryTools.args_timeRange] in R.
  fold range in R. rewrite cpu_queries in R. fold queries in R.
  split; [apply cpu_queries|]. split.
  - unfold sent_by. rewrite R. unfold after_queries. cbn [snd trace].
    apply skipn_length_app.
  - eexists. split; [rewrite R; reflexivity|].
    assert (Hq : exists q0 q1 q2 q3,
               queries = [ ("cpuUsagePercent", q0); ("cpuUserPercent", q1);
                           ("cpuSystemPercent", q2); ("cpuIowaitPercent", q3) ])
      by (do 4 eexists; reflexivity).
    destruct Hq as [q0 [q1 [q2 [q3 Hq]]]].
    clearbody queries. subst queries.
    split; [reflexivity|].
    intros k name query Hk outcome.
    assert (Hget : get (loop_results this w s
                          [ ("cpuUsagePercent", q0); ("cpuUserPercent", q1);
                            ("cpuSystemPercent", q2); ("cpuIowaitPercent", q3) ] [])
                       name = Some (stored outcome)).
    { unfold outcome.
      destruct k as [|[|[|[|k]]]]; cbn [nth_error] in Hk;
        try (destruct k; discriminate Hk);
        injection Hk as <- <-; cbn [firstn loop_results fst snd set];
        rewrite ?after_queries_app, ?after_queries_nil; reflexivity. }
    split.
    + intros answer He. rewrite Hget, He. reflexivity.
    + intros e He. rewrite Hget, He. destruct e; reflexivity.
Qed.

(** ** Targets *)

Lemma getTargets_state (this : PrometheusClient) (w : World) (s : State) :
  snd (getTargets this w s)
  = {| trace := trace s ++ [ {| via := client this; request := GetTargets |} ];
       ticks := ticks s |}.
Proof.
  unfold getTargets, try_catch, bind, axios_get, handleError, throw, ret.
  destruct (respond w (length (trace s)) (client this) GetTargets)
    as [code body| |]; [|reflexivity|reflexivity].
  destruct ((200 <=? code) && (code <? 300)); [|reflexivity].
  destruct (negb (is_success _)); reflexivity.
Qed.

Lemma differs_false (a : option string) (x : string) :
  healthTools.differs a (Some x) = false <-> a = Some x.
Proof.
  unfold healthTools.differs. destruct a as [y|].
  - destruct (String.eqb_spec y x); simpl; split; intros H;
      try reflexivity; try discriminate; congruence.
  - split; discriminate.
Qed.

(** The filter of [get_target_health] keeps the targets that match. *)
Lemma matches_filter_spec (args : healthTools.TargetHealthArgs) (t : Target) :
  healthTools.matches_filter args t = true <-> target_matches args t.
Proof.
  unfold healthTools.matches_filter, target_matches, truthy.
  destruct args as [[j|] [i|]]; cbn [healthTools.args_job healthTools.args_instance].
  all: repeat match goal with
         | |- context [String.eqb ?x ""] => destruct (String.eqb_spec x ""); subst
         end; cbn [negb andb].
  all: repeat match goal with
         | |- context [healthTools.differs ?a (Some ?x)] =>
             let D := fresh "D" in
             pose proof (differs_false a x) as D;
             destruct (healthTools.differs a (Some x))
         end.
  all: split; [intros H; split; intros ? E Hne; inversion E; subst;
                 try contradiction; try discriminate;
                 try (match goal with D : _ <-> _ |- _ => apply D; reflexivity end)
              | intros [Hj Hi]; try reflexivity].
  all: try (match goal with
            | D : true = false <-> _ |- _ =>
                exfalso; apply Bool.diff_true_false; apply D; auto
            end).
Qed.

(** Claim C7.  When neither a job nor an instance is supplied, the target
    lookup throws "At least one of job or instance must be specified"
    without asking the backend.  When one of them is supplied, the backend
    answers with its targets and no active target matches, the lookup
    returns [{ found: false, message }]; it does not throw. *)
Theorem target_lookup_without_match
    (this : PrometheusClient) (args : healthTools.TargetHealthArgs)
    (w : World) (s : State) :
  (supplied (healthTools.args_job args) = false ->
   supplied (healthTools.args_instance args) = false ->
   healthTools.get_target_health this args w s
   = (Throw (Error "At least one of job or instance must be specified"), s))
  /\ (forall (targets : TargetsResponse) (s' : State),
        supplied (healthTools.args_job args) = true
        \/ supplied (healthTools.args_instance args) = true ->
        getTargets this w s = (Return targets, s') ->
        (forall t, In t (activeTargets targets) -> ~ target_matches args t) ->
        healthTools.get_target_health this args w s
        = (Return {| healthTools.found := false;
                     healthTools.message := Some "No matching targets found";
                     healthTools.targets := None |}, s')).
Proof.
  unfold supplied, healthTools.get_target_health. split.
  - intros -> ->. reflexivity.
  - intros targets s' Hs Hget Hnone.
    assert (E : negb (truthy (healthTools.args_job args))
                && negb (truthy (healthTools.args_instance args)) = false).
    { destruct Hs as [-> | ->]; [reflexivity | apply andb_false_r]. }
    rewrite E. unfold bind. rewrite Hget.
    assert (F : filter (healthTools.matches_filter args) (activeTargets targets) = []).
    { induction (activeTargets targets) as [|t ts IH]; [reflexivity|].
      simpl. destruct (healthTools.matches_filter args t) eqn:M.
      - exfalso. apply (Hnone t (or_introl eq_refl)).
        apply matches_filter_spec. exact M.
      - apply IH. intros t' Ht'. apply Hnone. right. exact Ht'. }
    rewrite F. reflexivity.
Qed.

Lemma target_lookup_without_match_witness :
  let args := {| healthTools.args_job := Some "node";
                 healthTools.args_instance := Some "host:9100" |} in
  let none := {| healthTools.args_job := None; healthTools.args_instance := None |} in
  let w := targets_world [target_of "prometheus" "localhost:9090" "up"] in
  healthTools.get_target_health some_client none w initial
  = (Throw (Error "At least one of job or instance must be specified"), initial)
  /\ healthTools.get_target_health some_client args w initial
     = (Return {| healthTools.found := false;
                  healthTools.message := Some "No matching targets found";
                  healthTools.targets := None |},
        snd (getTargets some_client w initial)).
Proof.
  intros args none w. split.
  - apply (proj1 (target_lookup_without_match some_client none w initial));
      reflexivity.
  - apply (proj2 (target_lookup_without_match some_client args w initial)
             {| activeTargets := [target_of "prometheus" "localhost:9090" "up"];
                droppedTargets := [] |}).
    + left. reflexivity.
    + reflexivity.
    + intros t [<- | []] [Hj _]. discriminate (Hj "node" eq_refl ltac:(discriminate)).
Defined.

(** Claim C8.  [list_targets] with the health filter "all" does exactly
    what it does without a health filter (which is also what the schema's
    default, "all", stands for): the same outcome, the same listed targets.
    And whenever the backend answers with its targets, whatever the filter,
    the counts of the summary are taken over all active targets, while the
    list holds the targets the filter keeps, all of them for "all". *)
Theorem list_targets_all_is_no_filter
    (this : PrometheusClient) (args : healthTools.ListTargetsArgs)
    (w : World) (s : State) (targets : TargetsResponse) (s' : State) :
  getTargets this w s = (Return targets, s') ->
  healthTools.list_targets this {| healthTools.args_health := Some "all" |} w s
  = healthTools.list_targets this {| healthTools.args_health := None |} w s
  /\ (exists r,
         healthTools.list_targets this args w s = (Return r, s')
         /\ healthTools.summary r
            = {| healthTools.total := Z.of_nat (length (activeTargets targets));
                 healthTools.up := count_health "up" (activeTargets targets);
                 healthTools.down := count_health "down" (activeTargets targets);
                 healthTools.unknown := count_health "unknown" (activeTargets targets);
                 healthTools.dropped := Z.of_nat (length (droppedTargets targets)) |}
         /\ (healthTools.args_health args = Some "all"
             \/ healthTools.args_health args = None ->
             healthTools.listed r = map listed_target (activeTargets targets))
         /\ (forall h,
                healthTools.args_health args = Some h -> h <> "all" -> h <> "" ->
                healthTools.listed r
                = map listed_target
                    (filter (fun t => String.eqb (health t) h) (activeTargets targets)))).
Proof.
  intros Hget. split; [reflexivity|].
  unfold healthTools.list_targets, bind. rewrite Hget.
  eexists. split; [reflexivity|]. split; [reflexivity|]. split.
  - intros [-> | ->]; reflexivity.
  - intros h -> Hall Hne. cbn [healthTools.listed].
    unfold truthy. rewrite (eqb_neq_false Hne), (eqb_neq_false Hall). reflexivity.
Qed.

Lemma list_targets_all_is_no_filter_witness :
  let ts := [ target_of "node" "a:9100" "up"; target_of "node" "b:9100" "up";
              target_of "node" "c:9100" "down" ] in
  let w := targets_world ts in
  let args := {| healthTools.args_health := Some "down" |} in
  healthTools.list_targets some_client {| healthTools.args_health := Some "all" |} w initial
  = healthTools.list_targets some_client {| healthTools.args_health := None |} w initial
  /\ (exists r,
         healthTools.list_targets some_client args w initial
         = (Return r, snd (getTargets some_client w initial))
         /\ healthTools.summary r
            = {| healthTools.total := 3; healthTools.up := 2; healthTools.down := 1;
                 healthTools.unknown := 0; healthTools.dropped := 0 |}
         /\ healthTools.listed r = [ listed_target (target_of "node" "c:9100" "down") ]).
Proof.
  intros ts w args.
  destruct (@list_targets_all_is_no_filter some_client args w initial
              {| activeTargets := ts; droppedTargets := [] |}
              (snd (getTargets some_client w initial)) eq_refl)
    as [E [r [R [S [_ L]]]]].
  split; [exact E|].
  exists r. split; [exact R|]. split; [exact S|].
  apply (L "down"); [reflexivity | discriminate | discriminate].
Defined.

(** ** Credentials *)

Lemma invoke_sends (this : PrometheusClient) (call : Call) (w : World) (s : State) :
  sent_by (invoke this call) w s = [ {| via := client this; request := request_of call |} ].
Proof.
  unfold sent_by.
  assert (E : snd (invoke this call w s)
              = {| trace := trace s ++ [ {| via := client this;
                                            request := request_of call |} ];
                   ticks := ticks s |}).
  { destruct call;
      unfold invoke, void, queryInstant, queryRange, getTargets, getMetrics,
        getMetricMetadata, getAlerts, getRules, getLabelValues, getSeries,
        getBuildInfo, getRuntimeInfo, getConfig, getFlags, getTsdbStatus,
        try_catch, bind, axios_get, handleError, throw, ret;
      cbn [request_of];
      match goal with
      | |- context [respond ?w ?n ?c ?r] =>
          destruct (respond w n c r) as [code body| |]; [|reflexivity|reflexivity]
      end;
      (destruct ((200 <=? code) && (code <? 300)); [|reflexivity]);
      destruct (negb (is_success _)); reflexivity. }
  rewrite E. cbn [trace]. apply skipn_length_app.
Qed.

Lemma testConnection_sends (this : PrometheusClient) (w : World) (s : State) (x : Sent) :
  In x (sent_by (testConnection this) w s) -> via x = client this.
Proof.
  unfold sent_by, testConnection, try_catch, bind, axios_get, handleError, throw, ret.
  destruct (respond w (length (trace s)) (client this) GetBuildInfo)
    as [code body| |].
  1: destruct ((200 <=? code) && (code <? 300)).
  1: { cbn [snd trace]. rewrite skipn_length_app. intros [<- | []]. reflexivity. }
  all: cbn [trace ticks];
    match goal with
    | |- context [respond ?w ?n ?c (GetQuery ?q ?t)] =>
        destruct (respond w n c (GetQuery q t)) as [code' body'| |];
        [destruct ((200 <=? code') && (code' <? 300))| |]
    end;
    cbn [snd trace]; rewrite <- app_assoc, skipn_length_app;
    intros [<- | [<- | []]]; reflexivity.
Qed.

(** Claim C10.  The client made from a configuration carries credentials
    only when the configuration holds both a user name and a password, and
    then these two (both non-empty); when one of them is missing or empty
    the client carries none and is the client of the configuration without
    credentials.  Every request of every method goes out with exactly the
    settings the constructor made. *)
Theorem basic_auth_needs_both (config : Config) :
  let this := new_PrometheusClient config in
  (forall u p,
      auth (client this) = Some (u, p) ->
      username config = Some u /\ password config = Some p /\ u <> "" /\ p <> "")
  /\ (forall u p,
         username config = Some u -> password config = Some p ->
         u <> "" -> p <> "" ->
         auth (client this) = Some (u, p))
  /\ (truthy (username config) && truthy (password config) = false ->
      auth (client this) = None
      /\ client this
         = client (new_PrometheusClient
                     {| prometheusUrl := prometheusUrl config;
                        username := None; password := None |}))
  /\ (forall call w s x, In x (sent_by (invoke this call) w s) -> via x = client this)
  /\ (forall w s x, In x (sent_by (testConnection this) w s) -> via x = client this).
Proof.
  intros this. split; [|split; [|split; [|split]]].
  4: { intros call w s x. rewrite invoke_sends. intros [<- | []]. reflexivity. }
  4: { intros w s x H. eapply testConnection_sends. exact H. }
  all: unfold this, new_PrometheusClient;
    destruct config as [url [u|] [p|]];
    cbn [username password prometheusUrl client auth].
  all: try (intros ? ? [=]; fail).
  all: try (intros ? ? ? [=]; fail).
  all: try (intros ? ? [=]; fail).
  all: try (intros _; split; reflexivity).
  - intros u' p'. unfold truthy.
    destruct (String.eqb_spec u ""), (String.eqb_spec p ""); cbn;
      intros [= <- <-]; auto.
  - intros u' p' [= <-] [= <-] Hu Hp. unfold truthy.
    rewrite (eqb_neq_false Hu), (eqb_neq_false Hp). reflexivity.
  - intros H. rewrite H. split; reflexivity.
Qed.

Lemma basic_auth_needs_both_witness :
  let config := {| prometheusUrl := "http://prometheus:9090";
                   username := Some "admin"; password := None |} in
  auth (client (new_PrometheusClient config)) = None
  /\ client (new_PrometheusClient config) = client some_client.
Proof.
  apply (proj1 (proj2 (proj2 (basic_auth_needs_both
           {| prometheusUrl := "http://prometheus:9090";
              username := Some "admin"; password := None |})))).
  reflexivity.
Defined.

(** ** Byte sizes *)

(** Every size below 1024, by running [formatBytes] on each. *)
Lemma formatBytes_below_1024 :
  forallb (fun bytes =>
             String.eqb (statusTools.formatBytes bytes)
               (String_of_number bytes ++ " Bytes"))
          (map Z.of_nat (seq 1 1023))
  = true.
Proof. vm_compute. reflexivity. Qed.

(** Claim C9.  [formatBytes] gives "0 Bytes" for 0, "1 KB" for 1024 and
    "1 MB" for 1048576.  Its units are the ladder Bytes, KB, MB, GB, TB
    at the powers of 1024: the [i]-th power of 1024 is shown as 1 in the
    [i]-th unit, and the size just below the next power is still shown in
    that unit, for the four units that have a next one; a size below 1024
    is shown as it is, in Bytes.  The number shown is the size divided by
    the power of 1024, rounded to two decimals, without trailing
    zeros. *)
Theorem formatBytes_binary_units :
  statusTools.formatBytes 0 = "0 Bytes"
  /\ statusTools.formatBytes 1024 = "1 KB"
  /\ statusTools.formatBytes 1048576 = "1 MB"
  /\ statusTools.sizes = ["Bytes"; "KB"; "MB"; "GB"; "TB"]
  /\ (forall (i : nat) (unit : string),
         nth_error statusTools.sizes i = Some unit ->
         statusTools.formatBytes (1024 ^ Z.of_nat i) = "1 " ++ unit)
  /\ (forall (i : nat) (unit next : string),
         nth_error statusTools.sizes i = Some unit ->
         nth_error statusTools.sizes (S i) = Some next ->
         statusTools.formatBytes (1024 ^ Z.of_nat (S i) - 1)
         = (if Nat.eqb i 0 then "1023 " else "1024 ") ++ unit)
  /\ (forall bytes : Z,
         0 < bytes < 1024 ->
         statusTools.formatBytes bytes = String_of_number bytes ++ " Bytes")
  /\ statusTools.formatBytes 1536 = "1.5 KB"
  /\ statusTools.formatBytes 1590 = "1.55 KB"
  /\ statusTools.formatBytes 123456789 = "117.74 MB"
  /\ statusTools.formatBytes 1610612736 = "1.5 GB".
Proof.
  split; [reflexivity|].
  split; [vm_compute; reflexivity|]. split; [vm_compute; reflexivity|].
  split; [reflexivity|].
  split.
  { intros i unit Hi.
    do 5 (destruct i as [|i]; [injection Hi as <-; vm_compute; reflexivity|]).
    destruct i; discriminate Hi. }
  split.
  { intros i unit next Hi Hn.
    do 4 (destruct i as [|i]; [injection Hi as <-; vm_compute; reflexivity|]).
    destruct i as [|i]; [discriminate Hn | destruct i; discriminate Hi]. }
  split.
  { intros bytes Hb.
    pose proof formatBytes_below_1024 as H.
    rewrite forallb_forall in H.
    apply String.eqb_eq. apply H.
    apply in_map_iff. exists (Z.to_nat bytes). split; [lia|].
    apply in_seq. lia. }
  repeat split; vm_compute; reflexivity.
Qed.

Lemma formatBytes_binary_units_witness :
  statusTools.formatBytes (1024 ^ Z.of_nat 3) = "1 " ++ "GB"
  /\ statusTools.formatBytes (1024 ^ Z.of_nat 3 - 1) = "1024 " ++ "MB"
  /\ statusTools.formatBytes 1000 = "1000 Bytes".
Proof.
  destruct formatBytes_binary_units as [_ [_ [_ [_ [P [B [L _]]]]]]].
  split; [apply (P 3%nat "GB"); reflexivity|].
  split; [apply (B 2%nat "MB" "GB"); reflexivity|].
  apply (L 1000). lia.
Defined.

(** ** Worked examples *)

(** The alert history over "2h" without an alert name: the query [ALERTS]
    from two hours before now until now, in steps of one minute. *)
Example alert_history_two_hours :
  sent_by (alertsTools.get_alert_history some_client
             {| alertsTools.args_alertname := None;
                alertsTools.args_timeRange := Some "2h" |})
    empty_world initial
  = [ {| via := client some_client;
         request := GetQueryRange "ALERTS" (ISOString (1700000000000 - 7200000))
                      (ISOString 1700000000000) "1m" |} ].
Proof. reflexivity. Qed.

(** The same for one alert over three weeks: a selector on the alert name
    and steps of fifteen minutes. *)
Example alert_history_three_weeks :
  sent_by (alertsTools.get_alert_history some_client
             {| alertsTools.args_alertname := Some "HighLoad";
                alertsTools.args_timeRange := Some "3w" |})
    empty_world initial
  = [ {| via := client some_client;
         request := GetQueryRange ("ALERTS{alertname=" ++ quoted "HighLoad" ++ "}")
                      (ISOString (1700000000000 - 3 * 604800000))
                      (ISOString 1700000000000) "15m" |} ].
Proof. reflexivity. Qed.

(** A look-back that leaves the range of [Date] ends in the RangeError of
    [toISOString]; no range query is sent. *)
Example alert_history_out_of_range :
  alertsTools.get_alert_history some_client
    {| alertsTools.args_alertname := None;
       alertsTools.args_timeRange := Some "99999999999w" |}
    empty_world initial
  = (Throw (Error "Invalid time value"), tick initial).
Proof. reflexivity. Qed.

(** The CPU sub-queries of "host:9100" when the backend rejects the second
    of them: its key holds the inline error, the others their samples. *)
Example cpu_second_sub_query_fails :
  fst (queryTools.query_node_exporter some_client
         {| queryTools.args_instance := "host:9100";
            queryTools.args_metric := "cpu";
            queryTools.args_timeRange := None |}
         (flaky_world (Nat.eqb 1) "query timed out" "timeout") initial)
  = Return {| queryTools.ne_instance := "host:9100";
              queryTools.ne_timeRange := "5m";
              queryTools.metrics :=
                [ ("cpuUsagePercent", queryTools.Samples []);
                  ("cpuUserPercent",
                   queryTools.InlineError
                     "Prometheus API error: query timed out (timeout)");
                  ("cpuSystemPercent", queryTools.Samples []);
                  ("cpuIowaitPercent", queryTools.Samples []) ] |}.
Proof. reflexivity. Qed.

(** The same when the backend has a sample for each sub-query that it
    answers: the first, third and fourth keys hold the sample, reshaped,
    and the second the inline error. *)
Example cpu_second_sub_query_fails_among_samples :
  let sample :=
    {| metric := [("instance", "host:9100")]; value := (1700000000, "12.5") |} in
  let row :=
    {| queryTools.lv_labels := [("instance", "host:9100")];
       queryTools.lv_value := "12.5" |} in
  fst (queryTools.query_node_exporter some_client
         {| queryTools.args_instance := "host:9100";
            queryTools.args_metric := "cpu";
            queryTools.args_timeRange := None |}
         (flaky_samples_world (Nat.eqb 1) [sample] "query timed out" "timeout") initial)
  = Return {| queryTools.ne_instance := "host:9100";
              queryTools.ne_timeRange := "5m";
              queryTools.metrics :=
                [ ("cpuUsagePercent", queryTools.Samples [row]);
                  ("cpuUserPercent",
                   queryTools.InlineError
                     "Prometheus API error: query timed out (timeout)");
                  ("cpuSystemPercent", queryTools.Samples [row]);
                  ("cpuIowaitPercent", queryTools.Samples [row]) ] |}.
Proof. reflexivity. Qed.

(** A name inherited from [Object.prototype] is no tool, yet passes the
    [in] test; the catch block reports it. *)
Example inherited_name_is_reported :
  callTool health_catalog some_client "toString"
    {| healthTools.args_job := None; healthTools.args_instance := None |}
    empty_world initial
  = (Return {| text := Plain "Error executing toString: tool.handler is not a function";
               isError := Some true |}, initial).
Proof. reflexivity. Qed.

(** Without an envelope check the connectivity probe reports a backend
    that answers 200 with an error envelope as connected. *)
Example probe_ignores_envelope :
  fst (testConnection some_client (failing_world 200 "parse error" "bad_data") initial)
  = Return {| connection_status := "connected"; connection_version := Some "" |}.
Proof. reflexivity. Qed.

Example formatBytes_samples :
  map statusTools.formatBytes [1; 1023; 1536; 123456789; 1073741824; 1099511627776]
  = ["1 Bytes"; "1023 Bytes"; "1.5 KB"; "117.74 MB"; "1 GB"; "1 TB"].
Proof. vm_compute. reflexivity. Qed.

(** The logarithm of 1024 is the double 7804143460206699 * 2^-50, that
    is 6.931471805599453, and the logarithm of 2^50 - 1 is that of 2^50,
    five times as much. *)
Example logarithms_in_doubles :
  FloatOps.Prim2SF (Math.log (Math.double 1024))
  = SpecFloat.S754_finite false 7804143460206699 (-50)
  /\ Math.log (Math.double (2 ^ 50 - 1)) = Math.log (Math.double (2 ^ 50))
  /\ Math.floor (PrimFloat.div (Math.log (Math.double (2 ^ 50 - 1)))
                   (Math.log (Math.double 1024))) = Some 5
  /\ Math.floor (PrimFloat.div (Math.log (Math.double (2 ^ 50 - 4)))
                   (Math.log (Math.double 1024))) = Some 4.
Proof. repeat split; vm_compute; reflexivity. Qed.

(** The ladder ends at TB.  At 1024^5 the index is 5 and there is no
    unit; and for the three sizes just below it the logarithm, in
    doubles, is already that of 1024^5, so that they are shown alike,
    while the size before them is still in TB. *)
Example formatBytes_beyond_the_ladder :
  map statusTools.formatBytes
    [1024 ^ 5 - 4; 1024 ^ 5 - 3; 1024 ^ 5 - 2; 1024 ^ 5 - 1; 1024 ^ 5; -1]
  = ["1024 TB"; "1 undefined"; "1 undefined"; "1 undefined"; "1 undefined";
     "NaN undefined"].
Proof. vm_compute. reflexivity. Qed.

(** * Further properties of the embedded code *)

(** ** The client: unreachable backends and the connectivity probe *)

(** X1.  When a request of any of the fourteen envelope methods gets no
    response, the method throws "Cannot connect to Prometheus at <url>:
    <cause>", naming the configured URL and the cause axios reports. *)
Theorem unreachable_backend_is_named
    (this : PrometheusClient) (call : Call) (w : World) (s : State) (cause : string) :
  respond w (length (trace s)) (client this) (request_of call) = NoReply cause ->
  fst (invoke this call w s)
  = Throw (Error ("Cannot connect to Prometheus at "
                  ++ prometheusUrl (config this) ++ ": " ++ cause)).
Proof.
  intros H. destruct call; run_method H; reflexivity.
Qed.

Lemma unreachable_backend_is_named_witness :
  fst (invoke some_client CallGetRules (unreachable_world "connect ECONNREFUSED") initial)
  = Throw (Error ("Cannot connect to Prometheus at "
                  ++ prometheusUrl (config some_client) ++ ": "
                  ++ "connect ECONNREFUSED")).
Proof.
  apply (@unreachable_backend_is_named some_client CallGetRules
           (unreachable_world "connect ECONNREFUSED") initial "connect ECONNREFUSED").
  reflexivity.
Defined.

Lemma axios_get_rejected (cfg : AxiosConfig) (r : Request) (w : World) (s : State) (e : Exn) :
  rejection (respond w (length (trace s)) cfg r) = Some e ->
  axios_get cfg r w s
  = (Throw e, {| trace := trace s ++ [ {| via := cfg; request := r |} ];
                 ticks := ticks s |}).
Proof.
  unfold rejection, axios_get, is_2xx.
  destruct (respond w (length (trace s)) cfg r) as [st body|msg|e'].
  - destruct ((200 <=? st) && (st <? 300)); [discriminate|]. intros [= <-]. reflexivity.
  - intros [= <-]. reflexivity.
  - intros [= <-]. reflexivity.
Qed.

Lemma axios_get_resolved (cfg : AxiosConfig) (r : Request) (w : World) (s : State) :
  rejection (respond w (length (trace s)) cfg r) = None ->
  exists st body,
    respond w (length (trace s)) cfg r = Reply st body
    /\ axios_get cfg r w s
       = (Return {| response_status := st; response_data := body |},
          {| trace := trace s ++ [ {| via := cfg; request := r |} ];
             ticks := ticks s |}).
Proof.
  unfold rejection, axios_get, is_2xx.
  destruct (respond w (length (trace s)) cfg r) as [st body|msg|e']; try discriminate.
  destruct ((200 <=? st) && (st <? 300)); [|discriminate].
  intros _. exists st, body. split; reflexivity.
Qed.

(** X2.  The connectivity probe falls back: when the build-info request
    is rejected, however, and the instant query [up] sent after it
    resolves, the probe reports "connected", without a version, having
    sent these two requests. *)
Theorem probe_falls_back_to_query
    (this : PrometheusClient) (w : World) (s : State) (e : Exn) :
  rejection (respond w (length (trace s)) (client this) GetBuildInfo) = Some e ->
  rejection (respond w (S (length (trace s))) (client this) (GetQuery "up" None)) = None ->
  testConnection this w s
  = (Return {| connection_status := "connected"; connection_version := None |},
     after_requests this s [GetBuildInfo; GetQuery "up" None]).
Proof.
  intros H1 H2. unfold testConnection, try_catch at 1, bind at 1.
  rewrite (axios_get_rejected _ _ _ _ H1).
  unfold try_catch, bind.
  match goal with
  | |- context [axios_get ?c ?r w ?s'] =>
      destruct (@axios_get_resolved c r w s') as [st [body [_ E]]]
  end.
  { cbn [trace]. rewrite length_app. cbn [length]. rewrite Nat.add_1_r. exact H2. }
  rewrite E. unfold ret, after_requests. cbn [trace ticks map].
  rewrite <- app_assoc. reflexivity.
Qed.

Lemma probe_falls_back_to_query_witness :
  testConnection some_client (lossy_world (Nat.eqb 0) "timeout of 30000ms exceeded") initial
  = (Return {| connection_status := "connected"; connection_version := None |},
     after_requests some_client initial [GetBuildInfo; GetQuery "up" None]).
Proof.
  apply (@probe_falls_back_to_query some_client
           (lossy_world (Nat.eqb 0) "timeout of 30000ms exceeded") initial
           (AxiosError "timeout of 30000ms exceeded" None true));
    reflexivity.
Defined.

(** X3.  When the fallback query is rejected too, the probe throws what
    [handleError] makes of the rejection of the build-info request; the
    rejection of the fallback query is dropped. *)
Theorem probe_reports_first_failure
    (this : PrometheusClient) (w : World) (s : State) (e1 e2 : Exn) :
  rejection (respond w (length (trace s)) (client this) GetBuildInfo) = Some e1 ->
  rejection (respond w (S (length (trace s))) (client this) (GetQuery "up" None))
  = Some e2 ->
  testConnection this w s
  = (Throw (handled this e1),
     after_requests this s [GetBuildInfo; GetQuery "up" None]).
Proof.
  intros H1 H2. unfold testConnection, try_catch at 1, bind at 1.
  rewrite (axios_get_rejected _ _ _ _ H1).
  unfold try_catch, bind.
  rewrite (@axios_get_rejected _ _ _ _ e2).
  - unfold handleError, throw, after_requests. cbn [trace ticks map].
    rewrite <- app_assoc. reflexivity.
  - cbn [trace]. rewrite length_app. cbn [length]. rewrite Nat.add_1_r. exact H2.
Qed.

Lemma probe_reports_first_failure_witness :
  let w := {| respond := fun n _ r =>
                if Nat.eqb n 0
                then Reply 403 (error_envelope (empty_payload r) "forbidden" "auth")
                else NoReply "socket hang up";
              clock := some_clock |} in
  testConnection some_client w initial
  = (Throw (Error "Prometheus API error: forbidden (auth)"),
     after_requests some_client initial [GetBuildInfo; GetQuery "up" None]).
Proof.
  intros w.
  apply (@probe_reports_first_failure some_client w initial
           (AxiosError "Request failed with status code 403"
              (Some {| error_response_status := 403;
                       error_response_error := Some "forbidden";
                       error_response_errorType := Some "auth" |}) true)
           (AxiosError "socket hang up" None true));
    reflexivity.
Defined.

(** ** The dispatcher: validation and what reaches the backend *)

(** X4.  The call handler talks to the backend only through the handler
    of the tool: it sends exactly the requests that handler sends on the
    validated arguments, and none at all when the name is no key of the
    catalog or the arguments fail validation. *)
Theorem dispatcher_sends_what_the_handler_sends
    (Raw Value : Type) (allTools : JS.Record (Tool Raw Value))
    (prometheusClient : PrometheusClient)
    (name : string) (args : Raw) (w : World) (s : State) :
  sent_by (callTool allTools prometheusClient name args) w s
  = match get allTools name with
    | Some tool =>
        match inputSchema tool args with
        | ParseSuccess validated => sent_by (handler tool prometheusClient validated) w s
        | ParseFailure _ => []
        end
    | None => []
    end.
Proof.
  unfold sent_by, callTool, in_allTools, try_catch, bind, ret, throw.
  destruct (get allTools name) as [tool|].
  - cbn [negb]. destruct (inputSchema tool args) as [validated|msg].
    + destruct (handler tool prometheusClient validated w s) as [[v|e] s'];
        reflexivity.
    + cbn [snd]. apply skipn_all.
  - destruct (existsb (String.eqb name) Object_prototype_keys); cbn [negb snd];
      apply skipn_all.
Qed.

(** X5.  For a tool of the catalog: arguments that fail validation are
    answered with "Invalid arguments: <message of the schema>" and the
    error flag, without running the handler; and what a handler returns
    on validated arguments is passed on as the JSON text of that value,
    without an error flag, in the state the handler left. *)
Theorem validation_guards_the_handler
    (Raw Value : Type) (allTools : JS.Record (Tool Raw Value))
    (prometheusClient : PrometheusClient)
    (name : string) (tool : Tool Raw Value) (args : Raw) (w : World) (s : State) :
  get allTools name = Some tool ->
  (forall message,
      inputSchema tool args = ParseFailure message ->
      callTool allTools prometheusClient name args w s
      = (Return {| text := Plain ("Invalid arguments: " ++ message);
                   isError := Some true |}, s))
  /\ (forall validated result s',
         inputSchema tool args = ParseSuccess validated ->
         handler tool prometheusClient validated w s = (Return result, s') ->
         callTool allTools prometheusClient name args w s
         = (Return {| text := Stringified result; isError := None |}, s')).
Proof.
  intros Hget. unfold callTool, try_catch, bind.
  rewrite (in_allTools_own _ _ Hget), Hget. cbn [negb]. split.
  - intros message ->. reflexivity.
  - intros validated result s' -> Hrun. cbn. rewrite Hrun. reflexivity.
Qed.

Lemma validation_guards_the_handler_witness :
  let w := targets_world [target_of "node" "a:9100" "up"] in
  let args := {| healthTools.args_job := Some "node"; healthTools.args_instance := None |} in
  exists result,
    callTool health_catalog some_client "get_target_health" args w initial
    = (Return {| text := Stringified result; isError := None |},
       snd (getTargets some_client w initial))
    /\ healthTools.found result = true.
Proof.
  intros w args. eexists. split.
  - apply (proj2 (@validation_guards_the_handler _ _ health_catalog some_client
                    "get_target_health" get_target_health_tool args w initial eq_refl)
             args).
    + reflexivity.
    + vm_compute. reflexivity.
  - reflexivity.
Defined.

(** ** Loading the configuration *)

Lemma substring_at_end (a : string) (c : ascii) :
  substring (String.length a) 1 (a ++ String c "") = String c "".
Proof. induction a as [|x a IH]; simpl; [reflexivity | exact IH]. Qed.

Lemma length_append (a b : string) :
  String.length (a ++ b) = (String.length a + String.length b)%nat.
Proof. induction a as [|x a IH]; simpl; [reflexivity | now rewrite IH]. Qed.

Lemma endsWith_slash (base : string) : endsWith "/" (base ++ "/") = true.
Proof.
  unfold endsWith. rewrite length_append. cbn [String.length].
  replace (String.length base + 1 - 1)%nat with (String.length base) by lia.
  rewrite substring_at_end.
  destruct (String.length base + 1)%nat eqn:E; [lia | reflexivity].
Qed.

Lemma drop_last_slash (base : string) : drop_last (base ++ "/") = base.
Proof. unfold drop_last. rewrite splitLast_snoc. reflexivity. Qed.

Section LoadConfigProperties.

Variable isURL : string -> bool.

Lemma loadConfig_credentials (env : Env) (cfg : Config) :
  loadConfig isURL env = Return cfg ->
  username cfg = or_undefined (PROMETHEUS_USERNAME env)
  /\ password cfg = or_undefined (PROMETHEUS_PASSWORD env)
  /\ isURL (prometheusUrl cfg) = true.
Proof.
  unfold loadConfig, configuration_errors. cbn [prometheusUrl username password].
  destruct (endsWith "/" (or_else (PROMETHEUS_URL env) ""));
    cbn [prometheusUrl username password];
    match goal with |- context [isURL ?u] => destruct (isURL u) eqn:E end;
    try discriminate; intros [= <-]; repeat split; assumption.
Qed.

End LoadConfigProperties.

Lemma or_undefined_some (o : option string) (u : string) :
  or_undefined o = Some u <-> o = Some u /\ u <> "".
Proof.
  unfold or_undefined, truthy. destruct o as [x|].
  - destruct (String.eqb_spec x ""); cbn [negb]; split.
    + discriminate.
    + intros [[= ->] Hne]. contradiction.
    + intros [= ->]. split; [reflexivity | assumption].
    + intros [[= ->] _]. reflexivity.
  - split; [discriminate | intros [[=] _]].
Qed.

Lemma auth_of_config (cfg : Config) (u p : string) :
  auth (client (new_PrometheusClient cfg)) = Some (u, p)
  <-> username cfg = Some u /\ password cfg = Some p /\ u <> "" /\ p <> "".
Proof.
  unfold new_PrometheusClient, truthy.
  destruct (username cfg) as [x|], (password cfg) as [y|]; cbn [client auth].
  2-4: split; [discriminate | intros [H1 [H2 _]]; discriminate].
  destruct (String.eqb_spec x ""), (String.eqb_spec y ""); cbn [negb andb auth]; split.
  all: try discriminate.
  all: try (intros [[= ->] [[= ->] [Hx Hy]]]; subst; try contradiction; reflexivity).
  intros [= -> ->]. auto.
Qed.

(** X6.  The client made from a loaded configuration sends credentials
    exactly when both PROMETHEUS_USERNAME and PROMETHEUS_PASSWORD are set
    to non-empty strings, and then these two. *)
Theorem credentials_come_from_the_environment
    (isURL : string -> bool) (env : Env) (cfg : Config) (u p : string) :
  loadConfig isURL env = Return cfg ->
  (auth (client (new_PrometheusClient cfg)) = Some (u, p)
   <-> PROMETHEUS_USERNAME env = Some u /\ PROMETHEUS_PASSWORD env = Some p
       /\ u <> "" /\ p <> "").
Proof.
  intros H. destruct (loadConfig_credentials _ _ H) as [Hu [Hp _]].
  rewrite auth_of_config, Hu, Hp, !or_undefined_some. tauto.
Qed.

Lemma credentials_come_from_the_environment_witness :
  let env := {| PROMETHEUS_URL := Some "http://prometheus:9090/";
                PROMETHEUS_USERNAME := Some "admin";
                PROMETHEUS_PASSWORD := Some "secret" |} in
  let cfg := {| prometheusUrl := "http://prometheus:9090";
                username := Some "admin"; password := Some "secret" |} in
  auth (client (new_PrometheusClient cfg)) = Some ("admin", "secret")
  <-> PROMETHEUS_USERNAME env = Some "admin" /\ PROMETHEUS_PASSWORD env = Some "secret"
      /\ "admin" <> "" /\ "secret" <> "".
Proof.
  apply (@credentials_come_from_the_environment has_http_scheme
           {| PROMETHEUS_URL := Some "http://prometheus:9090/";
              PROMETHEUS_USERNAME := Some "admin";
              PROMETHEUS_PASSWORD := Some "secret" |}).
  reflexivity.
Defined.

(** X7.  [loadConfig] removes one trailing slash from PROMETHEUS_URL, and
    only one: for the value [base ++ "/"] with [base] a valid URL the
    loaded URL is [base], also when [base] ends with a slash itself; a
    value without a trailing slash is kept as it is. *)
Theorem one_trailing_slash_is_removed
    (isURL : string -> bool) (env : Env) (url : string) :
  PROMETHEUS_URL env = Some url ->
  (forall base,
      url = base ++ "/" -> isURL base = true ->
      exists cfg, loadConfig isURL env = Return cfg /\ prometheusUrl cfg = base)
  /\ (endsWith "/" url = false -> isURL url = true ->
      exists cfg, loadConfig isURL env = Return cfg /\ prometheusUrl cfg = url).
Proof.
  intros Hurl. unfold loadConfig, configuration_errors. rewrite Hurl.
  cbn [prometheusUrl username password]. split.
  - intros base -> Hbase.
    assert (E : or_else (Some (base ++ "/")) "" = base ++ "/").
    { apply or_else_nonempty. destruct base; discriminate. }
    rewrite E, endsWith_slash. cbn [prometheusUrl]. rewrite drop_last_slash, Hbase.
    eexists. split; reflexivity.
  - intros Hends Hvalid.
    assert (E : or_else (Some url) "" = url).
    { unfold or_else. destruct (String.eqb_spec url ""); [auto | reflexivity]. }
    rewrite E, Hends. cbn [prometheusUrl]. rewrite Hvalid.
    eexists. split; reflexivity.
Qed.

Lemma one_trailing_slash_is_removed_witness :
  exists cfg,
    loadConfig has_http_scheme
      {| PROMETHEUS_URL := Some ("http://prometheus:9090/" ++ "/");
         PROMETHEUS_USERNAME := None; PROMETHEUS_PASSWORD := None |}
    = Return cfg
    /\ prometheusUrl cfg = "http://prometheus:9090/".
Proof.
  apply (proj1 (@one_trailing_slash_is_removed has_http_scheme
                  {| PROMETHEUS_URL := Some ("http://prometheus:9090/" ++ "/");
                     PROMETHEUS_USERNAME := None; PROMETHEUS_PASSWORD := None |}
                  ("http://prometheus:9090/" ++ "/") eq_refl)
           "http://prometheus:9090/");
    reflexivity.
Defined.

(** X8.  A configuration whose URL, after the slash is removed, fails
    the URL check is refused with the message "Configuration error:"
    followed, on the next line, by "prometheusUrl: PROMETHEUS_URL must be a
    valid URL"; so is a missing or empty PROMETHEUS_URL when the empty
    string is no URL. *)
Theorem invalid_url_is_refused (isURL : string -> bool) (env : Env) :
  let refused :=
    Throw (Error ("Configuration error:" ++ nl
                  ++ "prometheusUrl: PROMETHEUS_URL must be a valid URL")) in
  (forall url,
      PROMETHEUS_URL env = Some url -> url <> "" ->
      isURL (if endsWith "/" url then drop_last url else url) = false ->
      loadConfig isURL env = refused)
  /\ (PROMETHEUS_URL env = None \/ PROMETHEUS_URL env = Some "" ->
      isURL "" = false ->
      loadConfig isURL env = refused).
Proof.
  intros refused. unfold loadConfig, configuration_errors.
  cbn [prometheusUrl username password]. split.
  - intros url -> Hne Hbad. rewrite (or_else_nonempty _ Hne).
    destruct (endsWith "/" url); cbn [prometheusUrl]; rewrite Hbad; reflexivity.
  - intros [-> | ->] Hbad; cbn; rewrite Hbad; reflexivity.
Qed.

Lemma invalid_url_is_refused_witness :
  loadConfig has_http_scheme
    {| PROMETHEUS_URL := None; PROMETHEUS_USERNAME := Some "admin";
       PROMETHEUS_PASSWORD := Some "secret" |}
  = Throw (Error ("Configuration error:" ++ nl
                  ++ "prometheusUrl: PROMETHEUS_URL must be a valid URL")).
Proof.
  apply (proj2 (@invalid_url_is_refused has_http_scheme
                  {| PROMETHEUS_URL := None; PROMETHEUS_USERNAME := Some "admin";
                     PROMETHEUS_PASSWORD := Some "secret" |})).
  - left. reflexivity.
  - reflexivity.
Defined.

(** ** Objects as records: assignment and lookup *)

Lemma get_set_same {V} (o : JS.Record V) (k : string) (v : V) :
  get (set o k v) k = Some v.
Proof.
  induction o as [|[k' v'] o IH]; simpl.
  - rewrite String.eqb_refl. reflexivity.
  - destruct (String.eqb_spec k' k) as [->|Hne]; simpl.
    + rewrite String.eqb_refl. reflexivity.
    + rewrite (eqb_neq_false Hne). exact IH.
Qed.

Lemma get_set_other {V} (o : JS.Record V) (k k' : string) (v : V) :
  k <> k' -> get (set o k v) k' = get o k'.
Proof.
  intros Hne. induction o as [|[k0 v0] o IH]; simpl.
  - rewrite (eqb_neq_false Hne). reflexivity.
  - destruct (String.eqb_spec k0 k) as [->|Hk]; simpl.
    + rewrite (eqb_neq_false Hne). reflexivity.
    + destruct (String.eqb k0 k'); [reflexivity | exact IH].
Qed.

Lemma keys_set_new {V} (o : JS.Record V) (k : string) (v : V) :
  ~ In k (keys o) -> keys (set o k v) = (keys o ++ [k])%list.
Proof.
  unfold keys. induction o as [|[k' v'] o IH]; simpl; intros Hn.
  - reflexivity.
  - destruct (String.eqb_spec k' k) as [->|Hk].
    + exfalso. apply Hn. left. reflexivity.
    + simpl. rewrite IH; [reflexivity|]. intros H. apply Hn. right. exact H.
Qed.

Lemma distinct_NoDup (ks : list string) : distinct ks = true -> NoDup ks.
Proof.
  induction ks as [|k r IH]; simpl; intros H; constructor.
  - apply andb_prop in H as [H _]. intros Hin.
    assert (E : existsb (String.eqb k) r = true).
    { apply existsb_exists. exists k. split; [exact Hin | apply String.eqb_refl]. }
    rewrite E in H. discriminate H.
  - apply IH. apply andb_prop in H as [_ H]. exact H.
Qed.

(** ** The exporter helpers, for every category *)

Lemma loop_results_get_other (this : PrometheusClient) (w : World)
    (queries : JS.Record string) (s : State)
    (acc : JS.Record queryTools.MetricResult) (name : string) :
  ~ In name (keys queries) ->
  get (loop_results this w s queries acc) name = get acc name.
Proof.
  revert s acc. induction queries as [|[k q] rest IH]; intros s acc Hn.
  - reflexivity.
  - cbn [loop_results fst snd]. rewrite IH.
    + apply get_set_other. intros ->. apply Hn. left. reflexivity.
    + intros H. apply Hn. right. exact H.
Qed.

Lemma loop_results_keys (this : PrometheusClient) (w : World)
    (queries : JS.Record string) (s : State)
    (acc : JS.Record queryTools.MetricResult) :
  NoDup (keys acc ++ keys queries) ->
  keys (loop_results this w s queries acc) = (keys acc ++ keys queries)%list.
Proof.
  revert s acc. induction queries as [|[k q] rest IH]; intros s acc Hnd.
  - cbn. rewrite app_nil_r. reflexivity.
  - cbn [loop_results fst snd].
    assert (Hk : ~ In k (keys acc)).
    { intros Hin. apply NoDup_remove_2 in Hnd. apply Hnd.
      apply in_or_app. left. exact Hin. }
    rewrite IH.
    + rewrite keys_set_new by exact Hk. rewrite <- app_assoc. reflexivity.
    + rewrite keys_set_new by exact Hk. rewrite <- app_assoc. exact Hnd.
Qed.

Lemma loop_results_nth (this : PrometheusClient) (w : World)
    (queries : JS.Record string) (s : State)
    (acc : JS.Record queryTools.MetricResult) (k : nat) (name query : string) :
  NoDup (keys queries) ->
  nth_error queries k = Some (name, query) ->
  get (loop_results this w s queries acc) name
  = Some (stored (fst (queryInstant this query None w
                         (after_queries this s (firstn k queries))))).
Proof.
  revert s acc k. induction queries as [|[k0 q0] rest IH]; intros s acc k Hnd Hk.
  - destruct k; discriminate Hk.
  - cbn [keys map fst] in Hnd. inversion Hnd as [|? ? Hnotin Hrest]; subst.
    cbn [loop_results fst snd]. destruct k as [|k].
    + cbn [nth_error] in Hk. injection Hk as -> ->.
      rewrite loop_results_get_other by exact Hnotin.
      rewrite get_set_same. cbn [firstn]. rewrite after_queries_nil. reflexivity.
    + cbn [nth_error] in Hk. rewrite (IH _ _ k Hrest Hk).
      cbn [firstn]. rewrite after_queries_app. reflexivity.
Qed.

Ltac forget_query_texts :=
  repeat match goal with
         | |- context [@pair string string ?k ?q] =>
             lazymatch q with
             | (_ ++ _)%string => let x := fresh "q" in generalize q; intro x
             end
         end.

Lemma node_exporter_keys_distinct (instance range metric : string) :
  NoDup (keys (queryTools.node_exporter_queries instance range metric)).
Proof.
  apply distinct_NoDup. unfold queryTools.node_exporter_queries.
  forget_query_texts.
  destruct (String.eqb metric "all"), (String.eqb metric "cpu"),
    (String.eqb metric "memory"), (String.eqb metric "disk"),
    (String.eqb metric "filesystem"), (String.eqb metric "network"),
    (String.eqb metric "load"); vm_compute; reflexivity.
Qed.

Lemma windows_exporter_keys_distinct (instance range metric : string) :
  NoDup (keys (queryTools.windows_exporter_queries instance range metric)).
Proof.
  apply distinct_NoDup. unfold queryTools.windows_exporter_queries.
  forget_query_texts.
  destruct (String.eqb metric "all"), (String.eqb metric "cpu"),
    (String.eqb metric "memory"), (String.eqb metric "disk"),
    (String.eqb metric "network"), (String.eqb metric "services");
    vm_compute; reflexivity.
Qed.

Lemma query_windows_exporter_returns (this : PrometheusClient)
    (args : queryTools.NodeExporterArgs) (w : World) (s : State) :
  let range := or_else (queryTools.args_timeRange args) "5m" in
  let queries :=
    queryTools.windows_exporter_queries (queryTools.args_instance args) range
      (queryTools.args_metric args) in
  queryTools.query_windows_exporter this args w s
  = (Return {| queryTools.ne_instance := queryTools.args_instance args;
               queryTools.ne_timeRange := range;
               queryTools.metrics := loop_results this w s queries [] |},
     after_queries this s queries).
Proof.
  intros range queries. unfold queryTools.query_windows_exporter.
  unfold bind at 1. fold range. fold queries.
  rewrite (for_of_sub_queries this w queries [] s). reflexivity.
Qed.

(** X9.  The node-exporter helper never aborts, whatever the category and
    whatever the backend does: it sends one instant query per synthesized
    sub-query, in their order, and returns one entry per sub-query, under
    its name and in the same order; the entry of a sub-query is the inline
    error when its instant query threw and the reshaped samples
    otherwise. *)
Theorem node_exporter_never_aborts
    (this : PrometheusClient) (args : queryTools.NodeExporterArgs)
    (w : World) (s : State) :
  let range := or_else (queryTools.args_timeRange args) "5m" in
  let queries :=
    queryTools.node_exporter_queries (queryTools.args_instance args) range
      (queryTools.args_metric args) in
  exists results,
    queryTools.query_node_exporter this args w s
    = (Return {| queryTools.ne_instance := queryTools.args_instance args;
                 queryTools.ne_timeRange := range;
                 queryTools.metrics := results |},
       after_queries this s queries)
    /\ keys results = keys queries
    /\ forall k name query,
         nth_error queries k = Some (name, query) ->
         get results name
         = Some (stored (fst (queryInstant this query None w
                                (after_queries this s (firstn k queries))))).
Proof.
  intros range queries.
  exists (loop_results this w s queries []). split; [|split].
  - apply query_node_exporter_returns.
  - rewrite loop_results_keys; [reflexivity|].
    apply node_exporter_keys_distinct.
  - intros k name query Hk. apply loop_results_nth; [|exact Hk].
    apply node_exporter_keys_distinct.
Qed.

(** X10.  The same holds for the windows-exporter helper. *)
Theorem windows_exporter_never_aborts
    (this : PrometheusClient) (args : queryTools.NodeExporterArgs)
    (w : World) (s : State) :
  let range := or_else (queryTools.args_timeRange args) "5m" in
  let queries :=
    queryTools.windows_exporter_queries (queryTools.args_instance args) range
      (queryTools.args_metric args) in
  exists results,
    queryTools.query_windows_exporter this args w s
    = (Return {| queryTools.ne_instance := queryTools.args_instance args;
                 queryTools.ne_timeRange := range;
                 queryTools.metrics := results |},
       after_queries this s queries)
    /\ keys results = keys queries
    /\ forall k name query,
         nth_error queries k = Some (name, query) ->
         get results name
         = Some (stored (fst (queryInstant this query None w
                                (after_queries this s (firstn k queries))))).
Proof.
  intros range queries.
  exists (loop_results this w s queries []). split; [|split].
  - apply query_windows_exporter_returns.
  - rewrite loop_results_keys; [reflexivity|].
    apply windows_exporter_keys_distinct.
  - intros k name query Hk. apply loop_results_nth; [|exact Hk].
    apply windows_exporter_keys_distinct.
Qed.

(** X11.  The category "all" is the concatenation of the categories: for
    node_exporter in the order cpu, memory, disk, filesystem, network,
    load; for windows_exporter in the order cpu, memory, disk, network,
    services.  A category outside these yields no sub-query at all. *)
Theorem all_is_every_category (instance range : string) :
  queryTools.node_exporter_queries instance range "all"
  = (queryTools.node_exporter_queries instance range "cpu"
     ++ queryTools.node_exporter_queries instance range "memory"
     ++ queryTools.node_exporter_queries instance range "disk"
     ++ queryTools.node_exporter_queries instance range "filesystem"
     ++ queryTools.node_exporter_queries instance range "network"
     ++ queryTools.node_exporter_queries instance range "load")%list
  /\ queryTools.windows_exporter_queries instance range "all"
     = (queryTools.windows_exporter_queries instance range "cpu"
        ++ queryTools.windows_exporter_queries instance range "memory"
        ++ queryTools.windows_exporter_queries instance range "disk"
        ++ queryTools.windows_exporter_queries instance range "network"
        ++ queryTools.windows_exporter_queries instance range "services")%list
  /\ (forall metric,
         ~ In metric ["cpu"; "memory"; "disk"; "filesystem"; "network"; "load"; "all"] ->
         queryTools.node_exporter_queries instance range metric = [])
  /\ (forall metric,
         ~ In metric ["cpu"; "memory"; "disk"; "network"; "services"; "all"] ->
         queryTools.windows_exporter_queries instance range metric = []).
Proof.
  split; [reflexivity|]. split; [reflexivity|]. split.
  - intros metric Hn. unfold queryTools.node_exporter_queries.
    repeat match goal with
           | |- context [String.eqb metric ?k] =>
               destruct (String.eqb_spec metric k);
               [exfalso; apply Hn; subst; simpl; tauto|]
           end.
    reflexivity.
  - intros metric Hn. unfold queryTools.windows_exporter_queries.
    repeat match goal with
           | |- context [String.eqb metric ?k] =>
               destruct (String.eqb_spec metric k);
               [exfalso; apply Hn; subst; simpl; tauto|]
           end.
    reflexivity.
Qed.

(** ** Probe results and instant queries *)

Lemma filter_partition_length {A} (p : A -> bool) (xs : list A) :
  (length (filter p xs) + length (filter (fun x => negb (p x)) xs))%nat = length xs.
Proof.
  induction xs as [|x xs IH]; simpl; [reflexivity|].
  destruct (p x); simpl; lia.
Qed.

(** X12.  A failure of the [probe_success] query aborts the probe
    helper with that very failure, and the duration query is never
    sent. *)
Theorem probe_success_failure_propagates
    (this : PrometheusClient) (args : queryTools.BlackboxArgs)
    (w : World) (s s1 : State) (e : Exn) :
  queryInstant this
    (queryTools.with_filters "probe_success" (queryTools.blackbox_filters args))
    None w s = (Throw e, s1) ->
  queryTools.query_blackbox_exporter this args w s = (Throw e, s1)
  /\ sent_by (queryTools.query_blackbox_exporter this args) w s
     = [ instant_request this
           (queryTools.with_filters "probe_success" (queryTools.blackbox_filters args)) ].
Proof.
  intros H.
  assert (E : queryTools.query_blackbox_exporter this args w s = (Throw e, s1)).
  { unfold queryTools.query_blackbox_exporter. unfold bind at 1.
    rewrite H. reflexivity. }
  split; [exact E|].
  unfold sent_by. rewrite E.
  pose proof (queryInstant_state this
                (queryTools.with_filters "probe_success"
                   (queryTools.blackbox_filters args)) None w s) as Q.
  rewrite H in Q. cbn [snd] in Q. cbn [snd]. rewrite Q. cbn [trace].
  apply skipn_length_app.
Qed.

Lemma probe_success_failure_propagates_witness :
  let args := {| queryTools.bb_target := Some "https://example.org";
                 queryTools.bb_module := None |} in
  let w := unreachable_world "connect ECONNREFUSED" in
  queryTools.query_blackbox_exporter some_client args w initial
  = (Throw (Error ("Cannot connect to Prometheus at http://prometheus:9090: "
                   ++ "connect ECONNREFUSED")),
     after_queries some_client initial
       [ ("", "probe_success{target=" ++ quoted "https://example.org" ++ "}") ])
  /\ sent_by (queryTools.query_blackbox_exporter some_client args) w initial
     = [ instant_request some_client
           (queryTools.with_filters "probe_success" (queryTools.blackbox_filters args)) ].
Proof.
  intros args w.
  apply (@probe_success_failure_propagates some_client args w initial).
  reflexivity.
Defined.

(** X13.  Once the [probe_success] query has returned, the probe helper
    returns too, whatever the duration query does: with one probe per
    sample of the answer, in order, counted as up when the sample's value
    is the text "1" and as down otherwise, so that total = up + down; and
    when the duration query throws, every probe has a null duration. *)
Theorem probes_are_counted
    (this : PrometheusClient) (args : queryTools.BlackboxArgs)
    (w : World) (s s1 : State) (answer : InstantQueryResult) :
  let filters := queryTools.blackbox_filters args in
  queryInstant this (queryTools.with_filters "probe_success" filters) None w s
  = (Return answer, s1) ->
  let duration :=
    queryInstant this (queryTools.with_filters "probe_duration_seconds" filters)
      None w s1 in
  exists r,
    queryTools.query_blackbox_exporter this args w s = (Return r, snd duration)
    /\ map queryTools.probe_success (queryTools.probes r)
       = map (fun sample => String.eqb (snd (value sample)) "1") (result answer)
    /\ queryTools.probes_total (queryTools.bb_summary r)
       = Z.of_nat (length (result answer))
    /\ queryTools.probes_total (queryTools.bb_summary r)
       = queryTools.probes_up (queryTools.bb_summary r)
         + queryTools.probes_down (queryTools.bb_summary r)
    /\ (forall e, fst duration = Throw e ->
          Forall (fun p => queryTools.durationSeconds p = None) (queryTools.probes r)).
Proof.
  intros filters H duration.
  unfold queryTools.query_blackbox_exporter. fold filters.
  unfold bind at 1. rewrite H. unfold bind at 1. unfold try_catch.
  unfold bind at 1. fold duration.
  destruct duration as [[d|e] s2]; unfold ret; cbv iota beta.
  - eexists. split; [reflexivity|]. cbn [queryTools.probes queryTools.bb_summary
      queryTools.probes_total queryTools.probes_up queryTools.probes_down fst].
    split; [|split; [|split]].
    + rewrite map_map. reflexivity.
    + rewrite length_map. reflexivity.
    + rewrite <- Nat2Z.inj_add, filter_partition_length. reflexivity.
    + intros e [=].
  - eexists. split; [reflexivity|]. cbn [queryTools.probes queryTools.bb_summary
      queryTools.probes_total queryTools.probes_up queryTools.probes_down fst].
    split; [|split; [|split]].
    + rewrite map_map. reflexivity.
    + rewrite length_map. reflexivity.
    + rewrite <- Nat2Z.inj_add, filter_partition_length. reflexivity.
    + intros _ _. apply Forall_forall. intros p Hp.
      apply in_map_iff in Hp as [sample [<- _]]. reflexivity.
Qed.

Lemma probes_are_counted_witness :
  let args := {| queryTools.bb_target := None; queryTools.bb_module := None |} in
  let w := samples_world probe_samples in
  exists r,
    queryTools.query_blackbox_exporter some_client args w initial
    = (Return r,
       after_queries some_client initial
         [ ("", "probe_success"); ("", "probe_duration_seconds") ])
    /\ map queryTools.probe_success (queryTools.probes r) = [true; false]
    /\ queryTools.probes_total (queryTools.bb_summary r) = 2
    /\ queryTools.probes_total (queryTools.bb_summary r)
       = queryTools.probes_up (queryTools.bb_summary r)
         + queryTools.probes_down (queryTools.bb_summary r)
    /\ (forall e,
          fst (queryInstant some_client "probe_duration_seconds" None w
                 (after_queries some_client initial [ ("", "probe_success") ]))
          = Throw e ->
          Forall (fun p => queryTools.durationSeconds p = None) (queryTools.probes r)).
Proof.
  intros args w.
  apply (@probes_are_counted some_client args w initial
           (after_queries some_client initial [ ("", "probe_success") ])
           {| resultType := "vector"; result := probe_samples |}).
  reflexivity.
Defined.

Lemma map_throwing_all {A B} (f : A -> Outcome B) (g : A -> B) (xs : list A) :
  (forall x, In x xs -> f x = Return (g x)) ->
  map_throwing f xs = Return (map g xs).
Proof.
  induction xs as [|x xs IH]; intros H; simpl; [reflexivity|].
  rewrite (H x (or_introl eq_refl)), IH; [reflexivity|].
  intros y Hy. apply H. right. exact Hy.
Qed.

Lemma map_throwing_some {A B} (f : A -> Outcome B) (e : Exn) (xs : list A) :
  (forall x, In x xs -> (exists y, f x = Return y) \/ f x = Throw e) ->
  (exists x, In x xs /\ f x = Throw e) ->
  map_throwing f xs = Throw e.
Proof.
  induction xs as [|x xs IH]; intros Hall [x0 [Hin Hx0]]; [destruct Hin|].
  simpl. destruct (Hall x (or_introl eq_refl)) as [[y Hy]|Hthrow].
  - rewrite Hy. rewrite IH; [reflexivity| |].
    + intros z Hz. apply Hall. right. exact Hz.
    + destruct Hin as [->|Hin].
      * rewrite Hy in Hx0. discriminate Hx0.
      * exists x0. split; assumption.
  - rewrite Hthrow. reflexivity.
Qed.

(** X14.  [query_instant] is all or nothing: when the instant query
    returns and every sample's timestamp (seconds, times 1000) is a valid
    date, the handler returns one row per sample with [resultCount] their
    number; when a single sample's timestamp is out of the range of
    [Date], the handler throws the RangeError "Invalid time value" and no
    row is returned. *)
Theorem instant_rows_are_all_or_nothing
    (this : PrometheusClient) (args : queryTools.QueryInstantArgs)
    (w : World) (s s1 : State) (answer : InstantQueryResult) :
  queryInstant this (queryTools.qi_query args) (queryTools.qi_time args) w s
  = (Return answer, s1) ->
  ((forall r, In r (result answer) -> validTime (fst (value r) * 1000) = true) ->
   queryTools.query_instant this args w s
   = (Return {| queryTools.qi_resultType := resultType answer;
                queryTools.qi_resultCount := Z.of_nat (length (result answer));
                queryTools.qi_results :=
                  map (fun r =>
                         {| queryTools.ir_metric := metric r;
                            queryTools.ir_timestamp := ISOString (fst (value r) * 1000);
                            queryTools.ir_value := snd (value r) |})
                      (result answer) |}, s1))
  /\ ((exists r, In r (result answer) /\ validTime (fst (value r) * 1000) = false) ->
      queryTools.query_instant this args w s
      = (Throw (Error "Invalid time value"), s1)).
Proof.
  intros H. unfold queryTools.query_instant, bind, lift, ret. rewrite H. split.
  - intros Hvalid.
    rewrite (@map_throwing_all _ _ _
               (fun r => {| queryTools.ir_metric := metric r;
                            queryTools.ir_timestamp := ISOString (fst (value r) * 1000);
                            queryTools.ir_value := snd (value r) |})).
    + reflexivity.
    + intros r Hr. unfold toISOString. rewrite (Hvalid r Hr). reflexivity.
  - intros [r [Hr Hbad]].
    rewrite (@map_throwing_some _ _ _ (Error "Invalid time value")).
    + reflexivity.
    + intros x _. unfold toISOString. destruct (validTime (fst (value x) * 1000)).
      * left. eexists. reflexivity.
      * right. reflexivity.
    + exists r. split; [exact Hr|]. unfold toISOString. rewrite Hbad. reflexivity.
Qed.

Lemma instant_rows_are_all_or_nothing_witness :
  let args := {| queryTools.qi_query := "up"; queryTools.qi_time := None |} in
  let samples := [ sample_of [("job", "node")] 1700000000 "1";
                   sample_of [("job", "node")] 9000000000000000 "1" ] in
  queryTools.query_instant some_client args (samples_world samples) initial
  = (Throw (Error "Invalid time value"),
     after_queries some_client initial [ ("", "up") ]).
Proof.
  intros args samples.
  apply (proj2 (@instant_rows_are_all_or_nothing some_client args
                  (samples_world samples) initial
                  (after_queries some_client initial [ ("", "up") ])
                  {| resultType := "vector"; result := samples |} eq_refl)).
  exists (sample_of [("job", "node")] 9000000000000000 "1").
  split; [right; left; reflexivity | reflexivity].
Defined.

(** ** Targets and alerts: counts and filters *)

Lemma two_states_at_most {A} (f : A -> string) (a b : string) (xs : list A) :
  a <> b ->
  (length (filter (fun x => String.eqb (f x) a) xs)
   + length (filter (fun x => String.eqb (f x) b) xs) <= length xs)%nat
  /\ ((forall x, In x xs -> f x = a \/ f x = b) ->
      (length (filter (fun x => String.eqb (f x) a) xs)
       + length (filter (fun x => String.eqb (f x) b) xs))%nat = length xs).
Proof.
  intros Hab. induction xs as [|x xs [IH1 IH2]]; simpl; [split; auto|].
  destruct (String.eqb_spec (f x) a) as [Ea|Na], (String.eqb_spec (f x) b) as [Eb|Nb];
    try congruence; simpl; split; try lia; intros Hall;
    try (rewrite <- IH2; [lia | intros y Hy; apply Hall; right; exact Hy]).
  destruct (Hall x (or_introl eq_refl)); contradiction.
Qed.

Lemma three_states_at_most {A} (f : A -> string) (a b c : string) (xs : list A) :
  a <> b -> a <> c -> b <> c ->
  (length (filter (fun x => String.eqb (f x) a) xs)
   + length (filter (fun x => String.eqb (f x) b) xs)
   + length (filter (fun x => String.eqb (f x) c) xs) <= length xs)%nat
  /\ ((forall x, In x xs -> f x = a \/ f x = b \/ f x = c) ->
      (length (filter (fun x => String.eqb (f x) a) xs)
       + length (filter (fun x => String.eqb (f x) b) xs)
       + length (filter (fun x => String.eqb (f x) c) xs))%nat = length xs).
Proof.
  intros Hab Hac Hbc. induction xs as [|x xs [IH1 IH2]]; simpl; [split; auto|].
  destruct (String.eqb_spec (f x) a) as [Ea|Na], (String.eqb_spec (f x) b) as [Eb|Nb],
    (String.eqb_spec (f x) c) as [Ec|Nc];
    try congruence; simpl; split; try lia; intros Hall;
    try (rewrite <- IH2; [lia | intros y Hy; apply Hall; right; exact Hy]).
  destruct (Hall x (or_introl eq_refl)) as [?|[?|?]]; contradiction.
Qed.

(** X15.  Given a supplied filter and the targets of the backend, the
    target lookup reports [found: true] exactly when some active target
    matches, and then lists the matching targets, all of them, in the
    order of the backend. *)
Theorem target_lookup_finds_the_matches
    (this : PrometheusClient) (args : healthTools.TargetHealthArgs)
    (w : World) (s s' : State) (answer : TargetsResponse) :
  supplied (healthTools.args_job args) = true
  \/ supplied (healthTools.args_instance args) = true ->
  getTargets this w s = (Return answer, s') ->
  exists r,
    healthTools.get_target_health this args w s = (Return r, s')
    /\ (healthTools.found r = true
        <-> exists t, In t (activeTargets answer) /\ target_matches args t)
    /\ (healthTools.found r = true ->
        exists listed,
          healthTools.targets r = Some listed
          /\ map healthTools.th_labels listed
             = map labels (filter (healthTools.matches_filter args) (activeTargets answer))
          /\ forall t, In t (activeTargets answer) ->
                       (target_matches args t
                        <-> In t (filter (healthTools.matches_filter args)
                                    (activeTargets answer)))).
Proof.
  intros Hs Hget. unfold supplied in Hs. unfold healthTools.get_target_health.
  assert (E : negb (truthy (healthTools.args_job args))
              && negb (truthy (healthTools.args_instance args)) = false).
  { destruct Hs as [-> | ->]; [reflexivity | apply andb_false_r]. }
  rewrite E. unfold bind. rewrite Hget.
  destruct (filter (healthTools.matches_filter args) (activeTargets answer))
    as [|t ts] eqn:F.
  - eexists. split; [reflexivity|]. cbn [healthTools.found]. split.
    + split; [discriminate|]. intros [t [Hin Hm]].
      apply matches_filter_spec in Hm.
      assert (Hf : In t (filter (healthTools.matches_filter args) (activeTargets answer))).
      { apply filter_In. split; assumption. }
      rewrite F in Hf. destruct Hf.
    + discriminate.
  - eexists.
    replace (healthTools.length_of (t :: ts) =? 0) with false
      by (unfold healthTools.length_of; cbn [length]; symmetry; apply Z.eqb_neq; lia).
    split; [reflexivity|]. cbn [healthTools.found healthTools.targets]. split.
    + split; [|reflexivity]. intros _. exists t.
      assert (Hf : In t (filter (healthTools.matches_filter args) (activeTargets answer))).
      { rewrite F. left. reflexivity. }
      apply filter_In in Hf as [Hin Hm]. split; [exact Hin|].
      apply matches_filter_spec. exact Hm.
    + intros _. eexists. split; [reflexivity|]. split.
      * rewrite map_map. reflexivity.
      * intros t0 Hin. rewrite <- F, filter_In, <- matches_filter_spec. tauto.
Qed.

Lemma target_lookup_finds_the_matches_witness :
  let ts := [ target_of "node" "a:9100" "up"; target_of "prometheus" "p:9090" "up";
              target_of "node" "b:9100" "down" ] in
  let args := {| healthTools.args_job := Some "node"; healthTools.args_instance := None |} in
  exists r,
    healthTools.get_target_health some_client args (targets_world ts) initial
    = (Return r, snd (getTargets some_client (targets_world ts) initial))
    /\ healthTools.found r = true
    /\ option_map (map healthTools.th_instance) (healthTools.targets r)
       = Some [Some "a:9100"; Some "b:9100"].
Proof.
  intros ts args.
  destruct (@target_lookup_finds_the_matches some_client args (targets_world ts) initial
              (snd (getTargets some_client (targets_world ts) initial))
              {| activeTargets := ts; droppedTargets := [] |}
              (or_introl eq_refl) eq_refl) as [r [R _]].
  exists r. split; [exact R|].
  vm_compute in R. injection R as <-. split; reflexivity.
Defined.

(** X16.  In the result of [list_targets], whatever the filter: the
    counts of up, down and unknown targets never exceed the total and add
    up to it when every target has one of these three healths; and under
    a filter for one of the three, the number of listed targets is the
    count the summary gives for that health. *)
Theorem target_counts_are_consistent
    (this : PrometheusClient) (args : healthTools.ListTargetsArgs)
    (w : World) (s s' : State) (answer : TargetsResponse) :
  getTargets this w s = (Return answer, s') ->
  exists r,
    healthTools.list_targets this args w s = (Return r, s')
    /\ healthTools.up (healthTools.summary r) + healthTools.down (healthTools.summary r)
       + healthTools.unknown (healthTools.summary r)
       <= healthTools.total (healthTools.summary r)
    /\ ((forall t, In t (activeTargets answer) ->
                   health t = "up" \/ health t = "down" \/ health t = "unknown") ->
        healthTools.up (healthTools.summary r) + healthTools.down (healthTools.summary r)
        + healthTools.unknown (healthTools.summary r)
        = healthTools.total (healthTools.summary r))
    /\ (healthTools.args_health args = Some "up" ->
        Z.of_nat (length (healthTools.listed r)) = healthTools.up (healthTools.summary r))
    /\ (healthTools.args_health args = Some "down" ->
        Z.of_nat (length (healthTools.listed r)) = healthTools.down (healthTools.summary r))
    /\ (healthTools.args_health args = Some "unknown" ->
        Z.of_nat (length (healthTools.listed r))
        = healthTools.unknown (healthTools.summary r)).
Proof.
  intros Hget. unfold healthTools.list_targets, bind. rewrite Hget.
  eexists. split; [reflexivity|].
  cbn [healthTools.summary healthTools.listed healthTools.total healthTools.up
         healthTools.down healthTools.unknown].
  unfold healthTools.length_of, healthTools.health_is.
  destruct (@three_states_at_most Target health "up" "down" "unknown"
              (activeTargets answer)) as [Hle Heq]; try discriminate.
  split; [lia|]. split; [intros Hall; specialize (Heq Hall); lia|].
  repeat split; intros ->; cbn; rewrite length_map; reflexivity.
Qed.

Lemma target_counts_are_consistent_witness :
  let ts := [ target_of "node" "a:9100" "up"; target_of "node" "b:9100" "up";
              target_of "node" "c:9100" "down" ] in
  exists r,
    healthTools.list_targets some_client {| healthTools.args_health := Some "up" |}
      (targets_world ts) initial
    = (Return r, snd (getTargets some_client (targets_world ts) initial))
    /\ Z.of_nat (length (healthTools.listed r)) = healthTools.up (healthTools.summary r)
    /\ healthTools.up (healthTools.summary r) = 2.
Proof.
  intros ts.
  destruct (@target_counts_are_consistent some_client
              {| healthTools.args_health := Some "up" |} (targets_world ts) initial
              (snd (getTargets some_client (targets_world ts) initial))
              {| activeTargets := ts; droppedTargets := [] |} eq_refl)
    as [r [R [_ [_ [U _]]]]].
  exists r. split; [exact R|]. split; [apply U; reflexivity|].
  vm_compute in R. injection R as <-. reflexivity.
Defined.

(** X17.  In the result of [list_alerts] the summary counts all alerts of
    the backend, whatever the state filter: firing plus pending never
    exceeds the total and equals it when every alert is firing or
    pending.  The alerts listed are all of them without a filter or with
    "all", and under the filter "firing" or "pending" as many as the
    summary counts for that state. *)
Theorem alert_counts_are_consistent
    (this : PrometheusClient) (args : alertsTools.ListAlertsArgs)
    (w : World) (s s' : State) (active : list Alert) :
  getAlerts this w s = (Return active, s') ->
  exists r,
    alertsTools.list_alerts this args w s = (Return r, s')
    /\ alertsTools.la_total (alertsTools.la_summary r) = Z.of_nat (length active)
    /\ alertsTools.la_firing (alertsTools.la_summary r)
       + alertsTools.la_pending (alertsTools.la_summary r)
       <= alertsTools.la_total (alertsTools.la_summary r)
    /\ ((forall a, In a active -> alert_state a = "firing" \/ alert_state a = "pending") ->
        alertsTools.la_firing (alertsTools.la_summary r)
        + alertsTools.la_pending (alertsTools.la_summary r)
        = alertsTools.la_total (alertsTools.la_summary r))
    /\ (alertsTools.la_state args = None \/ alertsTools.la_state args = Some "all" ->
        map alertsTools.la_labels (alertsTools.la_alerts r) = map alert_labels active)
    /\ (alertsTools.la_state args = Some "firing" ->
        Z.of_nat (length (alertsTools.la_alerts r))
        = alertsTools.la_firing (alertsTools.la_summary r))
    /\ (alertsTools.la_state args = Some "pending" ->
        Z.of_nat (length (alertsTools.la_alerts r))
        = alertsTools.la_pending (alertsTools.la_summary r)).
Proof.
  intros Hget. unfold alertsTools.list_alerts, bind. rewrite Hget.
  eexists. split; [reflexivity|].
  cbn [alertsTools.la_summary alertsTools.la_alerts alertsTools.la_total
         alertsTools.la_firing alertsTools.la_pending].
  unfold alertsTools.state_is.
  destruct (@two_states_at_most Alert alert_state "firing" "pending" active)
    as [Hle Heq]; try discriminate.
  split; [reflexivity|]. split; [lia|].
  split; [intros Hall; specialize (Heq Hall); lia|].
  split; [intros [-> | ->]; cbn; rewrite map_map; reflexivity|].
  split; intros ->; cbn; rewrite length_map; reflexivity.
Qed.

Lemma alert_counts_are_consistent_witness :
  let active := [ alert_of "HighLoad" "firing"; alert_of "DiskFull" "pending";
                  alert_of "TargetDown" "firing" ] in
  let w := alerts_world active in
  exists r,
    alertsTools.list_alerts some_client {| alertsTools.la_state := Some "firing" |} w initial
    = (Return r, snd (getAlerts some_client w initial))
    /\ alertsTools.la_summary r
       = {| alertsTools.la_total := 3; alertsTools.la_firing := 2;
            alertsTools.la_pending := 1 |}
    /\ Z.of_nat (length (alertsTools.la_alerts r)) = 2.
Proof.
  intros active w.
  destruct (@alert_counts_are_consistent some_client
              {| alertsTools.la_state := Some "firing" |} w initial
              (snd (getAlerts some_client w initial)) active eq_refl)
    as [r [R _]].
  exists r. split; [exact R|].
  vm_compute in R. injection R as <-. split; reflexivity.
Defined.

(** ** Rules: what is listed and what is counted *)

Lemma count_state_counter (sc : JS.Record (option Z)) (r : AlertRule)
    (k : string) (n : Z) :
  get sc k = Some (Some n) ->
  get (alertsTools.count_state sc r) k
  = Some (Some (n + if String.eqb (rule_state r) k then 1 else 0)).
Proof.
  intros Hk. unfold alertsTools.count_state, key_in, increment.
  destruct (String.eqb_spec (rule_state r) k) as [->|Hne].
  - rewrite Hk. apply get_set_same.
  - rewrite Z.add_0_r.
    destruct (get sc (rule_state r)) as [[m|]|];
      [rewrite get_set_other by exact Hne; exact Hk | exact Hk |].
    destruct (existsb (String.eqb (rule_state r)) prototype_keys); [|exact Hk].
    destruct (String.eqb (rule_state r) "__proto__"); [exact Hk|].
    rewrite get_set_other by exact Hne. exact Hk.
Qed.

Lemma count_states_counter (rules : list AlertRule) (sc : JS.Record (option Z))
    (k : string) (n : Z) :
  get sc k = Some (Some n) ->
  get (fold_left alertsTools.count_state rules sc) k
  = Some (Some (n + Z.of_nat (length (filter (fun r => String.eqb (rule_state r) k)
                                         rules)))).
Proof.
  revert sc n. induction rules as [|r rules IH]; intros sc n Hk; simpl.
  - rewrite Z.add_0_r. exact Hk.
  - rewrite (IH _ _ (@count_state_counter sc r k n Hk)).
    destruct (String.eqb (rule_state r) k); simpl length; do 2 f_equal; lia.
Qed.

(** The alerting rules the handler keeps, over all the groups it maps. *)
Lemma format_alert_groups_listing (state : option string) (gs : list RuleGroup)
    (sc : JS.Record (option Z)) :
  concat (map alertsTools.fag_rules (fst (alertsTools.format_alert_groups state gs sc)))
  = map alertsTools.format_alert_rule
      (concat (map (alertsTools.kept_alert_rules state) gs))
  /\ map alertsTools.fag_name (fst (alertsTools.format_alert_groups state gs sc))
     = map group_name gs
  /\ snd (alertsTools.format_alert_groups state gs sc)
     = fold_left alertsTools.count_state
         (concat (map (alertsTools.kept_alert_rules state) gs)) sc.
Proof.
  revert sc. induction gs as [|g gs IH]; intros sc; simpl.
  - repeat split.
  - specialize (IH (fold_left alertsTools.count_state
                      (alertsTools.kept_alert_rules state g) sc)).
    destruct (alertsTools.format_alert_groups state gs _) as [others sc'].
    simpl in *. destruct IH as [IH1 [IH2 IH3]].
    rewrite IH1, IH2, IH3, map_app, fold_left_app. repeat split.
Qed.

Lemma in_state_formatted (st : string) (rules : list AlertRule) :
  in_state st (map alertsTools.format_alert_rule rules)
  = Z.of_nat (length (filter (fun r => String.eqb (rule_state r) st) rules)).
Proof.
  unfold in_state. f_equal.
  induction rules as [|r rules IH]; simpl; [reflexivity|].
  destruct (String.eqb (rule_state r) st); simpl; rewrite IH; reflexivity.
Qed.

Lemma state_counters_eq (f p i f' p' i' : Z) :
  f = f' -> p = p' -> i = i' -> state_counters f p i = state_counters f' p' i'.
Proof. intros -> -> ->. reflexivity. Qed.

(** On rules in one of the three states the counters keep their three
    keys, in their order. *)
Lemma count_states_standard (rules : list AlertRule) (f p i : Z) :
  (forall r, In r rules -> standard_state (rule_state r)) ->
  fold_left alertsTools.count_state rules (state_counters f p i)
  = state_counters
      (f + Z.of_nat (length (filter (fun r => String.eqb (rule_state r) "firing") rules)))
      (p + Z.of_nat (length (filter (fun r => String.eqb (rule_state r) "pending") rules)))
      (i + Z.of_nat (length (filter (fun r => String.eqb (rule_state r) "inactive") rules))).
Proof.
  revert f p i. induction rules as [|r rules IH]; intros f p i Hall.
  - simpl. rewrite !Z.add_0_r. reflexivity.
  - cbn [fold_left].
    assert (Hr := Hall r (or_introl eq_refl)).
    assert (Hrest : forall r', In r' rules -> standard_state (rule_state r'))
      by (intros r' Hr'; apply Hall; right; exact Hr').
    destruct Hr as [E | [E | E]].
    + assert (H1 : alertsTools.count_state (state_counters f p i) r
                   = state_counters (f + 1) p i)
        by (unfold alertsTools.count_state; rewrite E; reflexivity).
      rewrite H1, (IH _ _ _ Hrest). cbn [filter]. rewrite E.
      cbn [String.eqb Ascii.eqb Bool.eqb]. simpl length.
      apply state_counters_eq; lia.
    + assert (H1 : alertsTools.count_state (state_counters f p i) r
                   = state_counters f (p + 1) i)
        by (unfold alertsTools.count_state; rewrite E; reflexivity).
      rewrite H1, (IH _ _ _ Hrest). cbn [filter]. rewrite E.
      cbn [String.eqb Ascii.eqb Bool.eqb]. simpl length.
      apply state_counters_eq; lia.
    + assert (H1 : alertsTools.count_state (state_counters f p i) r
                   = state_counters f p (i + 1))
        by (unfold alertsTools.count_state; rewrite E; reflexivity).
      rewrite H1, (IH _ _ _ Hrest). cbn [filter]. rewrite E.
      cbn [String.eqb Ascii.eqb Bool.eqb]. simpl length.
      apply state_counters_eq; lia.
Qed.

(** X18.  In the result of [get_alert_rules] the summary counts what the
    result lists: [groups] is the number of listed groups, [rules] is
    the number of listed rules in state firing, pending or inactive, and
    a rule in any other state is listed without being counted.  When
    every listed rule is in one of the three states, [rules] is the
    number of listed rules and the spread counters are exactly firing,
    pending and inactive, each the number of listed rules in that
    state. *)
Theorem alert_rule_counts_match_the_listing
    (this : PrometheusClient) (args : alertsTools.AlertRulesArgs)
    (w : World) (s s' : State) (answer : RulesResponse) :
  getRules this w s = (Return answer, s') ->
  exists r,
    alertsTools.get_alert_rules this args w s = (Return r, s')
    /\ let listed := listed_alert_rules r in
       let summary := alertsTools.ar_summary r in
       alertsTools.ars_groups summary = Z.of_nat (length (alertsTools.ar_groups r))
       /\ alertsTools.ars_rules summary
          = Some (in_state "firing" listed + in_state "pending" listed
                  + in_state "inactive" listed)
       /\ in_state "firing" listed + in_state "pending" listed
          + in_state "inactive" listed <= Z.of_nat (length listed)
       /\ ((forall x, In x listed -> standard_state (alertsTools.far_state x)) ->
           alertsTools.ars_rules summary = Some (Z.of_nat (length listed))
           /\ alertsTools.ars_stateCounts summary
              = state_counters (in_state "firing" listed) (in_state "pending" listed)
                  (in_state "inactive" listed)).
Proof.
  intros Hget. unfold alertsTools.get_alert_rules, bind. rewrite Hget.
  set (gs := alertsTools.select_groups (alertsTools.ar_group args) (groups answer)).
  destruct (format_alert_groups_listing (alertsTools.ar_state args) gs
              alertsTools.initial_stateCounts) as [Hlist [Hnames Hcount]].
  destruct (alertsTools.format_alert_groups (alertsTools.ar_state args) gs
              alertsTools.initial_stateCounts) as [formatted sc].
  cbn [fst snd] in Hlist, Hnames, Hcount.
  eexists. split; [reflexivity|].
  cbn [alertsTools.ar_summary alertsTools.ar_groups alertsTools.ars_groups
         alertsTools.ars_rules alertsTools.ars_stateCounts].
  unfold listed_alert_rules. cbn [alertsTools.ar_groups]. rewrite Hlist.
  set (kept := concat (map (alertsTools.kept_alert_rules (alertsTools.ar_state args)) gs))
    in *.
  rewrite !in_state_formatted, length_map.
  assert (Hsum : alertsTools.counter sc "firing"
                 = Some (Z.of_nat (length (filter (fun r => String.eqb (rule_state r) "firing") kept)))
                 /\ alertsTools.counter sc "pending"
                    = Some (Z.of_nat (length (filter (fun r => String.eqb (rule_state r) "pending") kept)))
                 /\ alertsTools.counter sc "inactive"
                    = Some (Z.of_nat (length (filter (fun r => String.eqb (rule_state r) "inactive") kept)))).
  { unfold alertsTools.counter. rewrite Hcount.
    rewrite !(@count_states_counter kept alertsTools.initial_stateCounts _ 0)
      by reflexivity.
    repeat split. }
  destruct Hsum as [Hf [Hp Hi]].
  destruct (@three_states_at_most AlertRule rule_state "firing" "pending" "inactive" kept)
    as [Hle Heq]; try discriminate.
  split.
  { apply (f_equal (@length _)) in Hnames. rewrite !length_map in Hnames.
    rewrite Hnames. reflexivity. }
  split; [rewrite Hf, Hp, Hi; reflexivity|].
  split; [lia|].
  intros Hall.
  assert (Hstd : forall r, In r kept -> standard_state (rule_state r)).
  { intros r Hr. apply (Hall (alertsTools.format_alert_rule r)).
    apply in_map. exact Hr. }
  split.
  - rewrite Hf, Hp, Hi. cbn [plus]. f_equal. specialize (Heq Hstd). lia.
  - rewrite Hcount.
    change alertsTools.initial_stateCounts with (state_counters 0 0 0).
    rewrite (@count_states_standard kept 0 0 0 Hstd). reflexivity.
Qed.

Lemma alert_rule_counts_match_the_listing_witness :
  let w := rules_world some_groups in
  let args := {| alertsTools.ar_group := None; alertsTools.ar_state := None |} in
  exists r,
    alertsTools.get_alert_rules some_client args w initial
    = (Return r, snd (getRules some_client w initial))
    /\ alertsTools.ar_summary r
       = {| alertsTools.ars_groups := 3;
            alertsTools.ars_rules := Some 3;
            alertsTools.ars_stateCounts := state_counters 1 1 1 |}.
Proof.
  intros w args.
  destruct (@alert_rule_counts_match_the_listing some_client args w initial
              (snd (getRules some_client w initial)) {| groups := some_groups |} eq_refl)
    as [r [R _]].
  exists r. split; [exact R|].
  vm_compute in R. injection R as <-. reflexivity.
Defined.

Lemma select_groups_named (name : string) (gs : list RuleGroup) (g : RuleGroup) :
  name <> "" ->
  In g (alertsTools.select_groups (Some name) gs) -> group_name g = name.
Proof.
  intros Hne. unfold alertsTools.select_groups, truthy.
  rewrite (eqb_neq_false Hne). cbn [negb].
  intros Hin. apply filter_In in Hin as [_ E]. apply String.eqb_eq. exact E.
Qed.

Lemma kept_alert_rules_in_state (st : string) (g : RuleGroup) (r : AlertRule) :
  st <> "" -> st <> "all" ->
  In r (alertsTools.kept_alert_rules (Some st) g) -> rule_state r = st.
Proof.
  intros Hne Hall. unfold alertsTools.kept_alert_rules, truthy.
  rewrite (eqb_neq_false Hne), (eqb_neq_false Hall). cbn [negb andb].
  intros Hin. apply filter_In in Hin as [_ E]. apply String.eqb_eq. exact E.
Qed.

(** X19.  [get_alert_rules] lists every group the group filter selects,
    in the order of the backend, also a group none of whose rules is
    kept.  Under a group filter every listed group has the requested
    name, and under a state filter other than "all" every listed rule is
    in the requested state. *)
Theorem alert_rule_filters_keep_the_groups
    (this : PrometheusClient) (args : alertsTools.AlertRulesArgs)
    (w : World) (s s' : State) (answer : RulesResponse) :
  getRules this w s = (Return answer, s') ->
  exists r,
    alertsTools.get_alert_rules this args w s = (Return r, s')
    /\ map alertsTools.fag_name (alertsTools.ar_groups r)
       = map group_name
           (alertsTools.select_groups (alertsTools.ar_group args) (groups answer))
    /\ (alertsTools.ar_group args = None ->
        map alertsTools.fag_name (alertsTools.ar_groups r)
        = map group_name (groups answer))
    /\ (forall name, alertsTools.ar_group args = Some name -> name <> "" ->
        forall g, In g (alertsTools.ar_groups r) -> alertsTools.fag_name g = name)
    /\ (forall st, alertsTools.ar_state args = Some st -> st <> "" -> st <> "all" ->
        forall x, In x (listed_alert_rules r) -> alertsTools.far_state x = st).
Proof.
  intros Hget. unfold alertsTools.get_alert_rules, bind. rewrite Hget.
  set (gs := alertsTools.select_groups (alertsTools.ar_group args) (groups answer)).
  destruct (format_alert_groups_listing (alertsTools.ar_state args) gs
              alertsTools.initial_stateCounts) as [Hlist [Hnames _]].
  destruct (alertsTools.format_alert_groups (alertsTools.ar_state args) gs
              alertsTools.initial_stateCounts) as [formatted sc].
  cbn [fst snd] in Hlist, Hnames.
  eexists. split; [reflexivity|].
  unfold listed_alert_rules. cbn [alertsTools.ar_groups]. rewrite Hlist.
  split; [exact Hnames|].
  split; [intros E; rewrite Hnames; unfold gs; rewrite E; reflexivity|].
  split.
  - intros name E Hne g Hg.
    assert (Hin : In (alertsTools.fag_name g) (map group_name gs))
      by (rewrite <- Hnames; apply in_map; exact Hg).
    apply in_map_iff in Hin as [g0 [<- Hg0]].
    unfold gs in Hg0. rewrite E in Hg0.
    eapply select_groups_named; eassumption.
  - intros st E Hne Hall x Hx.
    apply in_map_iff in Hx as [r [<- Hr]].
    apply in_concat in Hr as [rules [Hrules Hr]].
    apply in_map_iff in Hrules as [g [<- _]].
    rewrite E in Hr. cbn [alertsTools.format_alert_rule alertsTools.far_state].
    eapply kept_alert_rules_in_state; eassumption.
Qed.

Lemma alert_rule_filters_keep_the_groups_witness :
  let w := rules_world some_groups in
  let args := {| alertsTools.ar_group := None; alertsTools.ar_state := Some "firing" |} in
  exists r,
    alertsTools.get_alert_rules some_client args w initial
    = (Return r, snd (getRules some_client w initial))
    /\ map alertsTools.fag_name (alertsTools.ar_groups r) = ["alerts"; "records"; "mixed"]
    /\ map (fun g => length (alertsTools.fag_rules g)) (alertsTools.ar_groups r)
       = [1; 0; 0]%nat.
Proof.
  intros w args.
  destruct (@alert_rule_filters_keep_the_groups some_client args w initial
              (snd (getRules some_client w initial)) {| groups := some_groups |} eq_refl)
    as [r [R _]].
  exists r. split; [exact R|].
  vm_compute in R. injection R as <-. split; reflexivity.
Defined.

(** *** Recording rules *)

Lemma count_rules_totals (rules : list AlertRule) (c : alertsTools.RuleCounters) :
  let c' := fold_left alertsTools.count_rule rules c in
  alertsTools.c_total c' = alertsTools.c_total c + Z.of_nat (length rules)
  /\ alertsTools.c_healthy c'
     = alertsTools.c_healthy c
       + Z.of_nat (length (filter (fun r => String.eqb (rule_health r) "ok") rules))
  /\ alertsTools.c_unhealthy c'
     = alertsTools.c_unhealthy c
       + Z.of_nat (length (filter (fun r => negb (String.eqb (rule_health r) "ok")) rules)).
Proof.
  revert c. induction rules as [|r rules IH]; intros c; cbn [fold_left filter length].
  - cbn. lia.
  - specialize (IH (alertsTools.count_rule c r)). cbn zeta in IH.
    destruct IH as [IH1 [IH2 IH3]]. cbn zeta. rewrite IH1, IH2, IH3.
    unfold alertsTools.count_rule.
    destruct (String.eqb (rule_health r) "ok");
      cbn [alertsTools.c_total alertsTools.c_healthy alertsTools.c_unhealthy negb length];
      lia.
Qed.

Lemma format_recording_groups_listing (gs : list RuleGroup)
    (c : alertsTools.RuleCounters) :
  concat (map alertsTools.frg_rules (fst (alertsTools.format_recording_groups gs c)))
  = map alertsTools.format_recording_rule (concat (map alertsTools.recording_rules gs))
  /\ snd (alertsTools.format_recording_groups gs c)
     = fold_left alertsTools.count_rule (concat (map alertsTools.recording_rules gs)) c.
Proof.
  revert c. induction gs as [|g gs IH]; intros c; simpl.
  - split; reflexivity.
  - specialize (IH (fold_left alertsTools.count_rule (alertsTools.recording_rules g) c)).
    destruct (alertsTools.format_recording_groups gs _) as [others c'].
    simpl in *. destruct IH as [IH1 IH2].
    rewrite IH1, IH2, map_app, fold_left_app. split; reflexivity.
Qed.

(** Dropping the groups without rules loses no rule. *)
Lemma concat_without_empty (gs : list alertsTools.FormattedRecordingGroup) :
  concat (map alertsTools.frg_rules
            (filter (fun g => 0 <? Z.of_nat (length (alertsTools.frg_rules g))) gs))
  = concat (map alertsTools.frg_rules gs).
Proof.
  induction gs as [|g gs IH]; simpl; [reflexivity|].
  destruct (alertsTools.frg_rules g) as [|x xs] eqn:E; simpl.
  - exact IH.
  - rewrite E, IH. reflexivity.
Qed.

(** X20.  In the result of [get_recording_rules] the summary counts what
    the result lists: [groups] is the number of listed groups,
    [totalRules] the number of listed rules, [healthy] the number of
    listed rules whose health is "ok" and [unhealthy] all the others, so
    that the two add up to [totalRules].  No listed group is without
    rules. *)
Theorem recording_rule_counts_match_the_listing
    (this : PrometheusClient) (args : alertsTools.RecordingRulesArgs)
    (w : World) (s s' : State) (answer : RulesResponse) :
  getRules this w s = (Return answer, s') ->
  exists r,
    alertsTools.get_recording_rules this args w s = (Return r, s')
    /\ let listed := listed_recording_rules r in
       let summary := alertsTools.rr_summary r in
       alertsTools.rs_groups summary = Z.of_nat (length (alertsTools.rr_groups r))
       /\ alertsTools.totalRules summary = Z.of_nat (length listed)
       /\ alertsTools.healthy summary = with_health_ok listed
       /\ alertsTools.healthy summary + alertsTools.unhealthy summary
          = alertsTools.totalRules summary
       /\ (forall g, In g (alertsTools.rr_groups r) -> alertsTools.frg_rules g <> []).
Proof.
  intros Hget. unfold alertsTools.get_recording_rules, bind. rewrite Hget.
  set (gs := alertsTools.select_groups (alertsTools.rr_group args) (groups answer)).
  set (zero := {| alertsTools.c_total := 0; alertsTools.c_healthy := 0;
                  alertsTools.c_unhealthy := 0 |}).
  destruct (format_recording_groups_listing gs zero) as [Hlist Hcount].
  destruct (alertsTools.format_recording_groups gs zero) as [mapped c].
  cbn [fst snd] in Hlist, Hcount.
  eexists. split; [reflexivity|].
  cbn [alertsTools.rr_summary alertsTools.rr_groups alertsTools.rs_groups
         alertsTools.totalRules alertsTools.healthy alertsTools.unhealthy].
  unfold listed_recording_rules. cbn [alertsTools.rr_groups].
  rewrite concat_without_empty, Hlist, length_map.
  set (rules := concat (map alertsTools.recording_rules gs)) in *.
  destruct (count_rules_totals rules zero) as [Ht [Hh Hu]].
  rewrite <- Hcount in Ht, Hh, Hu. cbn in Ht, Hh, Hu.
  pose proof (filter_partition_length (fun r => String.eqb (rule_health r) "ok") rules)
    as Hpart.
  split; [reflexivity|].
  split; [exact Ht|].
  split.
  { rewrite Hh. unfold with_health_ok. do 2 f_equal.
    clear. induction rules as [|r rules IH]; simpl; [reflexivity|].
    destruct (String.eqb (rule_health r) "ok"); simpl; rewrite IH; reflexivity. }
  split; [lia|].
  intros g Hg. apply filter_In in Hg as [_ Hg].
  destruct (alertsTools.frg_rules g); [discriminate Hg | discriminate].
Qed.

Lemma recording_rule_counts_match_the_listing_witness :
  let w := rules_world some_groups in
  let args := {| alertsTools.rr_group := None |} in
  exists r,
    alertsTools.get_recording_rules some_client args w initial
    = (Return r, snd (getRules some_client w initial))
    /\ alertsTools.rr_summary r
       = {| alertsTools.rs_groups := 2; alertsTools.totalRules := 3;
            alertsTools.healthy := 2; alertsTools.unhealthy := 1 |}
    /\ map alertsTools.frg_name (alertsTools.rr_groups r) = ["records"; "mixed"].
Proof.
  intros w args.
  destruct (@recording_rule_counts_match_the_listing some_client args w initial
              (snd (getRules some_client w initial)) {| groups := some_groups |} eq_refl)
    as [r [R _]].
  exists r. split; [exact R|].
  vm_compute in R. injection R as <-. split; reflexivity.
Defined.

(** X21.  The two rule listings share the rules of the selected groups
    between them: for one group filter and no state filter, the rules
    [get_alert_rules] lists and the rules [get_recording_rules] counts
    are, together, as many as the selected groups have. *)
Theorem rules_are_alerting_or_recording
    (this : PrometheusClient) (group : option string) (state : option string)
    (w : World) (s1 s1' s2 s2' : State) (answer : RulesResponse) :
  state = None \/ state = Some "all" ->
  getRules this w s1 = (Return answer, s1') ->
  getRules this w s2 = (Return answer, s2') ->
  exists ra rr,
    alertsTools.get_alert_rules this
      {| alertsTools.ar_group := group; alertsTools.ar_state := state |} w s1
    = (Return ra, s1')
    /\ alertsTools.get_recording_rules this {| alertsTools.rr_group := group |} w s2
       = (Return rr, s2')
    /\ Z.of_nat (length (listed_alert_rules ra))
       + alertsTools.totalRules (alertsTools.rr_summary rr)
       = Z.of_nat (length (concat (map group_rules
                                     (alertsTools.select_groups group (groups answer))))).
Proof.
  intros Hstate H1 H2.
  unfold alertsTools.get_alert_rules, alertsTools.get_recording_rules, bind.
  rewrite H1, H2.
  cbn [alertsTools.ar_group alertsTools.ar_state alertsTools.rr_group].
  set (gs := alertsTools.select_groups group (groups answer)).
  set (zero := {| alertsTools.c_total := 0; alertsTools.c_healthy := 0;
                  alertsTools.c_unhealthy := 0 |}).
  destruct (format_alert_groups_listing state gs alertsTools.initial_stateCounts)
    as [Hla _].
  destruct (alertsTools.format_alert_groups state gs alertsTools.initial_stateCounts)
    as [formatted sc].
  destruct (format_recording_groups_listing gs zero) as [_ Hc].
  destruct (alertsTools.format_recording_groups gs zero) as [mapped c].
  cbn [fst snd] in Hla, Hc.
  do 2 eexists. split; [reflexivity|]. split; [reflexivity|].
  unfold listed_alert_rules.
  cbn [alertsTools.ar_groups alertsTools.rr_summary alertsTools.totalRules].
  destruct (count_rules_totals (concat (map alertsTools.recording_rules gs)) zero)
    as [Ht _].
  rewrite <- Hc in Ht. rewrite Ht, Hla, length_map. cbn [alertsTools.c_total zero].
  rewrite Z.add_0_l, <- Nat2Z.inj_add. f_equal.
  assert (Hkept : forall g, alertsTools.kept_alert_rules state g
                            = filter (fun r => String.eqb (rule_type r) "alerting")
                                (group_rules g)).
  { intros g. destruct Hstate as [-> | ->]; reflexivity. }
  clear - Hkept. induction gs as [|g gs IH]; [reflexivity|].
  cbn [map concat]. rewrite !length_app, Hkept.
  unfold alertsTools.recording_rules at 1.
  pose proof (filter_partition_length
                (fun r => String.eqb (rule_type r) "alerting") (group_rules g)).
  lia.
Qed.

Lemma rules_are_alerting_or_recording_witness :
  let w := rules_world some_groups in
  exists ra rr,
    alertsTools.get_alert_rules some_client
      {| alertsTools.ar_group := Some "mixed"; alertsTools.ar_state := None |} w initial
    = (Return ra, snd (getRules some_client w initial))
    /\ alertsTools.get_recording_rules some_client
         {| alertsTools.rr_group := Some "mixed" |} w initial
       = (Return rr, snd (getRules some_client w initial))
    /\ length (listed_alert_rules ra) = 1%nat
    /\ alertsTools.totalRules (alertsTools.rr_summary rr) = 1.
Proof.
  intros w.
  destruct (@rules_are_alerting_or_recording some_client (Some "mixed") None w
              initial (snd (getRules some_client w initial))
              initial (snd (getRules some_client w initial))
              {| groups := some_groups |} (or_introl eq_refl) eq_refl eq_refl)
    as [ra [rr [Ra [Rr _]]]].
  exists ra, rr. split; [exact Ra|]. split; [exact Rr|].
  vm_compute in Ra. injection Ra as <-.
  vm_compute in Rr. injection Rr as <-. split; reflexivity.
Defined.

(** ** Metrics, label values and series: limits *)

Lemma slice_to_length {A} (xs : list A) (n : Z) :
  Z.of_nat (length (slice_to xs n))
  = if n <? 0 then Z.max (Z.of_nat (length xs) + n) 0
    else Z.min n (Z.of_nat (length xs)).
Proof.
  unfold slice_to. rewrite length_firstn.
  destruct (Z.ltb_spec n 0); lia.
Qed.

Lemma slice_to_prefix {A} (xs : list A) (n : Z) : prefix_of (slice_to xs n) xs.
Proof.
  unfold slice_to, prefix_of. eexists. symmetry. apply firstn_skipn.
Qed.

(** X22.  [list_metrics] reports the number of all metrics, of the
    matching ones and of the returned ones, in descending order, and
    returns the first of the matching metrics, in the order of the
    backend: as many as a positive limit allows, a hundred at most when
    the limit is absent or zero, and all but the last [-n] under a
    negative limit [n].  Under a search that is not empty the matching
    metrics are those that contain the lowered search once lowered
    themselves; without a search, or with an empty one, every metric
    matches. *)
Theorem metric_counts_and_limit
    (toLowerCase : string -> string)
    (this : PrometheusClient) (args : metricsTools.ListMetricsArgs)
    (w : World) (s s' : State) (metrics : list string) :
  getMetrics this w s = (Return metrics, s') ->
  exists r matching,
    metricsTools.list_metrics toLowerCase this args w s = (Return r, s')
    /\ (forall search, metricsTools.lm_search args = Some search -> search <> "" ->
        matching = filter (matches toLowerCase search) metrics)
    /\ (metricsTools.lm_search args = None \/ metricsTools.lm_search args = Some "" ->
        matching = metrics)
    /\ prefix_of (metricsTools.lm_metrics r) matching
    /\ metricsTools.lm_total r = Z.of_nat (length metrics)
    /\ metricsTools.matchingCount r = Z.of_nat (length matching)
    /\ metricsTools.returnedCount r = Z.of_nat (length (metricsTools.lm_metrics r))
    /\ metricsTools.returnedCount r <= metricsTools.matchingCount r
       <= metricsTools.lm_total r
    /\ (forall n, metricsTools.lm_limit args = Some n -> 0 < n ->
        metricsTools.returnedCount r = Z.min n (metricsTools.matchingCount r))
    /\ (metricsTools.lm_limit args = None \/ metricsTools.lm_limit args = Some 0 ->
        metricsTools.returnedCount r = Z.min 100 (metricsTools.matchingCount r))
    /\ (forall n, metricsTools.lm_limit args = Some n -> n < 0 ->
        metricsTools.returnedCount r = Z.max (metricsTools.matchingCount r + n) 0).
Proof.
  intros Hget. unfold metricsTools.list_metrics, bind. rewrite Hget.
  set (filtered := match metricsTools.lm_search args with
                   | Some search => _
                   | None => metrics
                   end).
  eexists. exists filtered. split; [reflexivity|].
  cbn [metricsTools.lm_total metricsTools.matchingCount metricsTools.returnedCount
         metricsTools.lm_metrics].
  assert (Hlen : (length filtered <= length metrics)%nat).
  { unfold filtered. destruct (metricsTools.lm_search args) as [search|]; [|lia].
    destruct (truthy (Some search)); [apply filter_length_le | lia]. }
  pose proof (slice_to_length filtered (number_or (metricsTools.lm_limit args) 100)) as L.
  destruct (slice_to_prefix filtered (number_or (metricsTools.lm_limit args) 100))
    as [rest Hrest].
  assert (Hle : (length (slice_to filtered (number_or (metricsTools.lm_limit args) 100))
                 <= length filtered)%nat).
  { rewrite Hrest at 2. rewrite length_app. lia. }
  split.
  { intros search E Hne. unfold filtered, truthy. rewrite E, (eqb_neq_false Hne).
    reflexivity. }
  split; [intros [E | E]; unfold filtered; rewrite E; reflexivity|].
  split; [exists rest; exact Hrest|].
  split; [reflexivity|]. split; [reflexivity|]. split; [reflexivity|].
  split; [lia|].
  split.
  { intros n E Hn. rewrite L, E. unfold number_or.
    destruct (Z.eqb_spec n 0); [lia|]. destruct (Z.ltb_spec n 0); [lia | reflexivity]. }
  split.
  { intros E. rewrite L. destruct E as [-> | ->]; reflexivity. }
  intros n E Hn. rewrite L, E. unfold number_or.
  destruct (Z.eqb_spec n 0); [lia|]. destruct (Z.ltb_spec n 0); [reflexivity | lia].
Qed.

Lemma metric_counts_and_limit_witness :
  let w := metrics_world some_metrics [] [] in
  let args := {| metricsTools.lm_search := Some "HTTP";
                 metricsTools.lm_limit := Some 2 |} in
  exists r matching,
    metricsTools.list_metrics lowered some_client args w initial
    = (Return r, snd (getMetrics some_client w initial))
    /\ matching = [ "HTTP_requests_total"; "http_request_duration_seconds";
                    "prometheus_http_requests_total" ]
    /\ r = {| metricsTools.lm_total := 5;
              metricsTools.matchingCount := 3;
              metricsTools.returnedCount := 2;
              metricsTools.lm_metrics :=
                [ "HTTP_requests_total"; "http_request_duration_seconds" ] |}.
Proof.
  intros w args.
  destruct (@metric_counts_and_limit lowered some_client args w initial
              (snd (getMetrics some_client w initial)) some_metrics eq_refl)
    as [r [matching [R [F _]]]].
  exists r, matching. split; [exact R|].
  split; [rewrite (F "HTTP" eq_refl); [reflexivity | discriminate]|].
  vm_compute in R. injection R as <-. reflexivity.
Defined.

(** X23.  The search of [list_metrics] ignores case: two searches that
    are not empty and agree once lowered give the same result in every
    run, and every metric that is returned contains the lowered search
    once lowered itself. *)
Theorem metric_search_ignores_case
    (toLowerCase : string -> string)
    (this : PrometheusClient) (limit : option number) (search other : string)
    (w : World) (s : State) :
  search <> "" -> other <> "" ->
  toLowerCase search = toLowerCase other ->
  metricsTools.list_metrics toLowerCase this
    {| metricsTools.lm_search := Some search; metricsTools.lm_limit := limit |} w s
  = metricsTools.list_metrics toLowerCase this
      {| metricsTools.lm_search := Some other; metricsTools.lm_limit := limit |} w s
  /\ (forall r s',
         metricsTools.list_metrics toLowerCase this
           {| metricsTools.lm_search := Some search;
              metricsTools.lm_limit := limit |} w s = (Return r, s') ->
         forall m, In m (metricsTools.lm_metrics r) ->
                   matches toLowerCase other m = true).
Proof.
  intros Hs Ho E.
  unfold metricsTools.list_metrics, bind, truthy, matches.
  cbn [metricsTools.lm_search metricsTools.lm_limit].
  rewrite (eqb_neq_false Hs), (eqb_neq_false Ho), <- E. cbn [negb].
  split; [reflexivity|].
  intros r s' R m Hm.
  destruct (getMetrics this w s) as [[metrics|e] s1]; [|discriminate R].
  unfold ret in R. injection R as <- _.
  cbn [metricsTools.lm_metrics] in Hm.
  destruct (slice_to_prefix
              (filter (fun m => includes (toLowerCase search) (toLowerCase m)) metrics)
              (number_or limit 100)) as [rest Hrest].
  assert (Hin : In m (filter (fun m => includes (toLowerCase search) (toLowerCase m))
                        metrics))
    by (rewrite Hrest; apply in_or_app; left; exact Hm).
  apply filter_In in Hin. tauto.
Qed.

Lemma metric_search_ignores_case_witness :
  let w := metrics_world some_metrics [] [] in
  metricsTools.list_metrics lowered some_client
    {| metricsTools.lm_search := Some "Http_Requests"; metricsTools.lm_limit := None |}
    w initial
  = metricsTools.list_metrics lowered some_client
      {| metricsTools.lm_search := Some "HTTP_requests"; metricsTools.lm_limit := None |}
      w initial
  /\ exists r s',
       metricsTools.list_metrics lowered some_client
         {| metricsTools.lm_search := Some "Http_Requests";
            metricsTools.lm_limit := None |} w initial = (Return r, s')
       /\ metricsTools.lm_metrics r
          = [ "HTTP_requests_total"; "prometheus_http_requests_total" ].
Proof.
  intros w. split.
  - apply (@metric_search_ignores_case lowered some_client None
             "Http_Requests" "HTTP_requests" w initial);
      [discriminate | discriminate | reflexivity].
  - do 2 eexists. split; vm_compute; reflexivity.
Defined.

Lemma slice_to_all {A} (xs : list A) (n : Z) :
  Z.of_nat (length xs) <= n -> slice_to xs n = xs.
Proof.
  intros H. unfold slice_to.
  destruct (Z.ltb_spec n 0); [lia|].
  rewrite Z.min_r by lia. rewrite Nat2Z.id. apply firstn_all.
Qed.

(** X24.  [get_label_values] counts all the values of the label and
    returns the first five hundred of them at most: all of them when
    they are no more than that. *)
Theorem label_values_are_capped
    (this : PrometheusClient) (args : metricsTools.LabelValuesArgs)
    (w : World) (s s' : State) (vals : list string) :
  getLabelValues this (metricsTools.lv_label args) w s = (Return vals, s') ->
  exists r,
    metricsTools.get_label_values this args w s = (Return r, s')
    /\ metricsTools.lvr_label r = metricsTools.lv_label args
    /\ metricsTools.lvr_count r = Z.of_nat (length vals)
    /\ Z.of_nat (length (metricsTools.lvr_values r))
       = Z.min 500 (metricsTools.lvr_count r)
    /\ prefix_of (metricsTools.lvr_values r) vals
    /\ (metricsTools.lvr_count r <= 500 -> metricsTools.lvr_values r = vals).
Proof.
  intros Hget. unfold metricsTools.get_label_values, bind. rewrite Hget.
  eexists. split; [reflexivity|].
  cbn [metricsTools.lvr_label metricsTools.lvr_count metricsTools.lvr_values].
  split; [reflexivity|]. split; [reflexivity|].
  split; [rewrite slice_to_length; reflexivity|].
  split; [apply slice_to_prefix|].
  apply slice_to_all.
Qed.

Lemma label_values_are_capped_witness :
  let w := metrics_world [] (repeat "node" 501) [] in
  let args := {| metricsTools.lv_label := "job" |} in
  exists r,
    metricsTools.get_label_values some_client args w initial
    = (Return r, snd (getLabelValues some_client "job" w initial))
    /\ metricsTools.lvr_count r = 501
    /\ length (metricsTools.lvr_values r) = 500%nat.
Proof.
  intros w args.
  destruct (@label_values_are_capped some_client args w initial
              (snd (getLabelValues some_client "job" w initial))
              (repeat "node" 501) eq_refl)
    as [r [R _]].
  exists r. split; [exact R|].
  vm_compute in R. injection R as <-. split; reflexivity.
Defined.

Lemma sent_by_void {A} (m : M A) (w : World) (s : State) :
  sent_by (void m) w s = sent_by m w s.
Proof.
  unfold sent_by, void, bind, ret. destruct (m w s) as [[a|e] s1]; reflexivity.
Qed.

(** X25.  [find_series] asks the backend once, with the selector as the
    only matcher and with the start and the end that are given and not
    empty.  It counts all the series found and returns the first hundred
    of them at most, each with its [__name__] label as the metric. *)
Theorem series_are_capped
    (this : PrometheusClient) (args : metricsTools.FindSeriesArgs)
    (w : World) (s s' : State) (found : list Labels) :
  getSeries this [metricsTools.fs_match args] (metricsTools.fs_start args)
    (metricsTools.fs_end args) w s = (Return found, s') ->
  exists r,
    metricsTools.find_series this args w s = (Return r, s')
    /\ sent_by (metricsTools.find_series this args) w s
       = [ {| via := client this;
              request := GetSeries [metricsTools.fs_match args]
                           (if_truthy (metricsTools.fs_start args))
                           (if_truthy (metricsTools.fs_end args)) |} ]
    /\ metricsTools.selector r = metricsTools.fs_match args
    /\ metricsTools.fs_count r = Z.of_nat (length found)
    /\ Z.of_nat (length (metricsTools.series r))
       = Z.min 100 (metricsTools.fs_count r)
    /\ prefix_of (map metricsTools.found_labels (metricsTools.series r)) found
    /\ (forall x, In x (metricsTools.series r) ->
        metricsTools.found_metric x = get (metricsTools.found_labels x) "__name__").
Proof.
  intros Hget.
  pose proof (invoke_sends this
                (CallGetSeries [metricsTools.fs_match args] (metricsTools.fs_start args)
                   (metricsTools.fs_end args)) w s) as Hsent.
  cbn [invoke request_of] in Hsent. rewrite sent_by_void in Hsent.
  unfold sent_by in Hsent |- *.
  unfold metricsTools.find_series, bind. rewrite Hget in Hsent |- *.
  eexists. split; [reflexivity|].
  cbn [metricsTools.selector metricsTools.fs_count metricsTools.series snd] in *.
  split; [exact Hsent|].
  split; [reflexivity|]. split; [reflexivity|].
  split; [rewrite length_map, slice_to_length; reflexivity|].
  split.
  - rewrite map_map. cbn [metricsTools.found_labels]. rewrite map_id.
    apply slice_to_prefix.
  - intros x Hx. apply in_map_iff in Hx as [l [<- _]]. reflexivity.
Qed.

Lemma series_are_capped_witness :
  let found := repeat [("__name__", "up"); ("job", "node")] 101 in
  let w := metrics_world [] [] found in
  let args := {| metricsTools.fs_match := "up"; metricsTools.fs_start := None;
                 metricsTools.fs_end := Some "" |} in
  exists r,
    metricsTools.find_series some_client args w initial
    = (Return r, snd (getSeries some_client ["up"] None (Some "") w initial))
    /\ sent_by (metricsTools.find_series some_client args) w initial
       = [ {| via := client some_client; request := GetSeries ["up"] None None |} ]
    /\ metricsTools.fs_count r = 101
    /\ length (metricsTools.series r) = 100%nat.
Proof.
  intros found w args.
  destruct (@series_are_capped some_client args w initial
              (snd (getSeries some_client ["up"] None (Some "") w initial))
              found eq_refl)
    as [r [R [S _]]].
  exists r. split; [exact R|]. split; [exact S|].
  vm_compute in R. injection R as <-. split; reflexivity.
Defined.

(** ** The status of the backend *)

Lemma invoke_state (this : PrometheusClient) (call : Call) (w : World) (s : State) :
  snd (invoke this call w s) = after_requests this s [request_of call].
Proof.
  unfold after_requests. cbn [map].
  destruct call;
    unfold invoke, void, queryInstant, queryRange, getTargets, getMetrics,
      getMetricMetadata, getAlerts, getRules, getLabelValues, getSeries,
      getBuildInfo, getRuntimeInfo, getConfig, getFlags, getTsdbStatus,
      try_catch, bind, axios_get, handleError, throw, ret;
    cbn [request_of];
    match goal with
    | |- context [respond ?w ?n ?c ?r] =>
        destruct (respond w n c r) as [code body| |]; [|reflexivity|reflexivity]
    end;
    (destruct ((200 <=? code) && (code <? 300)); [|reflexivity]);
    destruct (negb (is_success _)); reflexivity.
Qed.

Lemma void_state {A} (m : M A) (w : World) (s : State) :
  snd (void m w s) = snd (m w s).
Proof. unfold void, bind, ret. destruct (m w s) as [[a|e] s1]; reflexivity. Qed.

Lemma after_requests_app (this : PrometheusClient) (s : State) (a b : list Request) :
  after_requests this (after_requests this s a) b = after_requests this s (a ++ b).
Proof.
  unfold after_requests. cbn [trace ticks]. rewrite map_app, app_assoc. reflexivity.
Qed.

Lemma after_requests_nil (this : PrometheusClient) (s : State) :
  after_requests this s [] = s.
Proof.
  unfold after_requests. cbn [map]. rewrite app_nil_r. destruct s; reflexivity.
Qed.

Lemma fetch_field_runs {A B} (wants : bool) (fetch : M A) (shape : A -> B)
    (fallback : string) (w : World) (s : State) :
  statusTools.fetch_field wants fetch shape fallback w s
  = (Return (if wants then Some (fetched shape fallback (fst (fetch w s))) else None),
     if wants then snd (fetch w s) else s).
Proof.
  unfold statusTools.fetch_field, try_catch, bind, ret, fetched.
  destruct wants; [|reflexivity].
  destruct (fetch w s) as [[a|e] s1]; reflexivity.
Qed.

(** The status handler: every part in turn. *)
Lemma get_prometheus_status_runs (this : PrometheusClient)
    (args : statusTools.StatusArgs) (w : World) (s : State) :
  let include := statusTools.st_include args in
  let s1 := after_requests this s
              (if wanted include "build" then [GetBuildInfo] else []) in
  let s2 := after_requests this s1
              (if wanted include "runtime" then [GetRuntimeInfo] else []) in
  let s3 := after_requests this s2
              (if wanted include "config" then [GetConfig] else []) in
  let s4 := after_requests this s3
              (if wanted include "flags" then [GetFlags] else []) in
  statusTools.get_prometheus_status this args w s
  = (Return
       {| statusTools.st_build :=
            if wanted include "build"
            then Some (fetched (fun b => b) "Failed to get build info"
                         (fst (getBuildInfo this w s)))
            else None;
          statusTools.st_runtime :=
            if wanted include "runtime"
            then Some (fetched (fun r => r) "Failed to get runtime info"
                         (fst (getRuntimeInfo this w s1)))
            else None;
          statusTools.st_config :=
            if wanted include "config"
            then Some (fetched statusTools.show_config "Failed to get config"
                         (fst (getConfig this w s2)))
            else None;
          statusTools.st_flags :=
            if wanted include "flags"
            then Some (fetched (fun f => f) "Failed to get flags"
                         (fst (getFlags this w s3)))
            else None |},
     s4).
Proof.
  intros include s1 s2 s3 s4.
  assert (E1 : (if wanted include "build" then snd (getBuildInfo this w s) else s) = s1).
  { unfold s1. destruct (wanted include "build").
    - rewrite <- void_state. apply (invoke_state this CallGetBuildInfo).
    - symmetry. apply after_requests_nil. }
  assert (E2 : (if wanted include "runtime" then snd (getRuntimeInfo this w s1) else s1)
               = s2).
  { unfold s2. destruct (wanted include "runtime").
    - rewrite <- void_state. apply (invoke_state this CallGetRuntimeInfo).
    - symmetry. apply after_requests_nil. }
  assert (E3 : (if wanted include "config" then snd (getConfig this w s2) else s2) = s3).
  { unfold s3. destruct (wanted include "config").
    - rewrite <- void_state. apply (invoke_state this CallGetConfig).
    - symmetry. apply after_requests_nil. }
  assert (E4 : (if wanted include "flags" then snd (getFlags this w s3) else s3) = s4).
  { unfold s4. destruct (wanted include "flags").
    - rewrite <- void_state. apply (invoke_state this CallGetFlags).
    - symmetry. apply after_requests_nil. }
  unfold statusTools.get_prometheus_status.
  fold include. cbv zeta.
  change (String.eqb (or_else include "all") "all"
          || String.eqb (or_else include "all") "build") with (wanted include "build").
  change (String.eqb (or_else include "all") "all"
          || String.eqb (or_else include "all") "runtime") with (wanted include "runtime").
  change (String.eqb (or_else include "all") "all"
          || String.eqb (or_else include "all") "config") with (wanted include "config").
  change (String.eqb (or_else include "all") "all"
          || String.eqb (or_else include "all") "flags") with (wanted include "flags").
  unfold bind at 1. rewrite fetch_field_runs, E1.
  unfold bind at 1. rewrite fetch_field_runs, E2.
  unfold bind at 1. rewrite fetch_field_runs, E3.
  unfold bind at 1. rewrite fetch_field_runs, E4.
  reflexivity.
Qed.

(** X26.  [get_prometheus_status] never throws, whatever the backend
    does.  It sends the requests of the parts that are wanted and no
    other, in the order build, runtime, config, flags, and its result
    has a key for exactly those parts: all four without [include] or
    with "all", one for a part's name, none for any other value. *)
Theorem status_never_throws
    (this : PrometheusClient) (args : statusTools.StatusArgs) (w : World) (s : State) :
  let include := statusTools.st_include args in
  exists r,
    statusTools.get_prometheus_status this args w s
    = (Return r, after_requests this s (status_requests include))
    /\ (statusTools.st_build r <> None <-> wanted include "build" = true)
    /\ (statusTools.st_runtime r <> None <-> wanted include "runtime" = true)
    /\ (statusTools.st_config r <> None <-> wanted include "config" = true)
    /\ (statusTools.st_flags r <> None <-> wanted include "flags" = true)
    /\ (include = None \/ include = Some "all" ->
        status_requests include = [GetBuildInfo; GetRuntimeInfo; GetConfig; GetFlags])
    /\ (forall what, include = Some what -> what <> "" -> what <> "all" ->
        forall part, wanted include part = true <-> part = what).
Proof.
  intros include.
  pose proof (get_prometheus_status_runs this args w s) as R.
  cbv zeta in R. fold include in R. rewrite !after_requests_app in R.
  assert (Q : status_requests include
              = ((((if wanted include "build" then [GetBuildInfo] else [])
                   ++ (if wanted include "runtime" then [GetRuntimeInfo] else []))
                  ++ (if wanted include "config" then [GetConfig] else []))
                 ++ (if wanted include "flags" then [GetFlags] else []))%list)
    by (unfold status_requests; rewrite !app_assoc; reflexivity).
  rewrite Q. clear Q.
  eexists. split; [exact R|].
  cbn [statusTools.st_build statusTools.st_runtime statusTools.st_config
         statusTools.st_flags].
  split; [destruct (wanted include "build"); split; congruence|].
  split; [destruct (wanted include "runtime"); split; congruence|].
  split; [destruct (wanted include "config"); split; congruence|].
  split; [destruct (wanted include "flags"); split; congruence|].
  split.
  - intros [E | E]; rewrite E; reflexivity.
  - intros what E Hne Hall part. unfold wanted. rewrite E.
    rewrite (or_else_nonempty "all" Hne), (eqb_neq_false Hall). cbn [orb].
    rewrite String.eqb_eq. split; congruence.
Qed.

(** X27.  When all parts are wanted, the four fetches of
    [get_prometheus_status] fail independently: each key holds the value
    its own request gave, or [{ error: message }] with the message of
    what its own request threw, and a failure of one request keeps none
    of the later ones from being sent. *)
Theorem status_parts_fail_independently
    (this : PrometheusClient) (args : statusTools.StatusArgs) (w : World) (s : State) :
  statusTools.st_include args = None \/ statusTools.st_include args = Some "all" ->
  exists r,
    statusTools.get_prometheus_status this args w s
    = (Return r,
       after_requests this s [GetBuildInfo; GetRuntimeInfo; GetConfig; GetFlags])
    /\ statusTools.st_build r
       = Some (fetched (fun b => b) "Failed to get build info"
                 (fst (getBuildInfo this w s)))
    /\ statusTools.st_runtime r
       = Some (fetched (fun r => r) "Failed to get runtime info"
                 (fst (getRuntimeInfo this w (after_requests this s [GetBuildInfo]))))
    /\ statusTools.st_config r
       = Some (fetched statusTools.show_config "Failed to get config"
                 (fst (getConfig this w
                         (after_requests this s [GetBuildInfo; GetRuntimeInfo]))))
    /\ statusTools.st_flags r
       = Some (fetched (fun f => f) "Failed to get flags"
                 (fst (getFlags this w
                         (after_requests this s
                            [GetBuildInfo; GetRuntimeInfo; GetConfig])))).
Proof.
  intros Hall.
  pose proof (get_prometheus_status_runs this args w s) as R.
  cbv zeta in R. rewrite !after_requests_app in R.
  assert (W : forall what, wanted (statusTools.st_include args) what = true)
    by (intros what; destruct Hall as [-> | ->]; reflexivity).
  rewrite !W in R. cbn [app] in R.
  eexists. split; [exact R|]. repeat split.
Qed.

Lemma status_parts_fail_independently_witness :
  let w := lossy_world (fun n => Nat.eqb n 1) "timeout of 30000ms exceeded" in
  let args := {| statusTools.st_include := None |} in
  exists r,
    fst (statusTools.get_prometheus_status some_client args w initial) = Return r
    /\ statusTools.st_build r = Some (statusTools.Value (empty_payload GetBuildInfo))
    /\ statusTools.st_runtime r
       = Some (statusTools.FetchError
                 "Cannot connect to Prometheus at http://prometheus:9090: timeout of 30000ms exceeded")
    /\ statusTools.st_config r
       = Some (statusTools.Value {| statusTools.shown_yaml := "";
                                    statusTools.fullLength := None |})
    /\ statusTools.st_flags r = Some (statusTools.Value []).
Proof.
  intros w args.
  destruct (@status_parts_fail_independently some_client args w initial
              (or_introl eq_refl))
    as [r [R [B [T [C F]]]]].
  exists r. rewrite R. split; [reflexivity|].
  rewrite B, T, C, F. repeat split.
Defined.

(** *** The configuration shown *)

Lemma units_at_most_2 (c : ascii) : (Text.units c <= 2)%nat.
Proof.
  unfold Text.units.
  repeat match goal with |- context [(?a <? ?b)%nat] => destruct (a <? b)%nat end; lia.
Qed.

Lemma text_length_append (a b : string) :
  Text.length (a ++ b) = (Text.length a + Text.length b)%nat.
Proof.
  induction a as [|c a IH]; cbn [append Text.length]; [reflexivity|].
  rewrite IH. lia.
Qed.

Lemma units_of_byte (n : nat) :
  (n < 256)%nat ->
  Text.units (ascii_of_nat n)
  = if (n <? 128)%nat then 1%nat
    else if (n <? 192)%nat then 0%nat
    else if (n <? 240)%nat then 1%nat
    else 2%nat.
Proof.
  intros H. unfold Text.units. rewrite nat_ascii_embedding by exact H. reflexivity.
Qed.

(** Half a surrogate pair is one code unit. *)
Lemma high_surrogate_length (c : ascii) (r : string) :
  Text.length (Text.high_surrogate c r) = 1%nat.
Proof.
  unfold Text.high_surrogate. cbv zeta.
  set (top := (_ - 64)%nat). clearbody top.
  cbn [Text.length].
  assert (H2 : ((top / 64) mod 16 < 16)%nat) by (apply Nat.mod_upper_bound; lia).
  assert (H3 : (top mod 64 < 64)%nat) by (apply Nat.mod_upper_bound; lia).
  rewrite (units_of_byte (n := 160 + (top / 64) mod 16)) by lia.
  rewrite (units_of_byte (n := 128 + top mod 64)) by lia.
  replace (Text.units (ascii_of_nat 237)) with 1%nat by reflexivity.
  destruct (Nat.ltb_spec (160 + (top / 64) mod 16) 128); [lia|].
  destruct (Nat.ltb_spec (160 + (top / 64) mod 16) 192); [|lia].
  destruct (Nat.ltb_spec (128 + top mod 64) 128); [lia|].
  destruct (Nat.ltb_spec (128 + top mod 64) 192); [|lia].
  reflexivity.
Qed.

Lemma substring_to_length (n : nat) (s : string) :
  Text.length (Text.substring_to n s) = Nat.min n (Text.length s).
Proof.
  revert n. induction s as [|c s IH]; intros n; cbn [Text.substring_to Text.length].
  - lia.
  - pose proof (units_at_most_2 c) as Hc.
    destruct (Text.units c) as [|u] eqn:E.
    + cbn [Text.length]. rewrite E, IH. lia.
    + destruct (Nat.leb_spec (S u) n) as [Hle|Hgt].
      * cbn [Text.length]. rewrite E, IH. lia.
      * destruct n as [|n]; [reflexivity|].
        rewrite high_surrogate_length. lia.
Qed.

(** A text that is followed by the start of a character is found again
    by cutting at its length. *)
Lemma substring_to_append (a b : string) (c : ascii) :
  Text.units c <> 0%nat ->
  Text.substring_to (Text.length a) (a ++ String c b) = a.
Proof.
  intros Hc. induction a as [|x a IH]; cbn [append Text.length Text.substring_to].
  - destruct (Text.units c); [contradiction | reflexivity].
  - destruct (Text.units x) as [|u] eqn:E.
    + cbn [Nat.add]. rewrite IH. reflexivity.
    + destruct (Nat.leb_spec (S u) (S u + Text.length a)) as [_|Hgt]; [|lia].
      replace (S u + Text.length a - S u)%nat with (Text.length a) by lia.
      rewrite IH. reflexivity.
Qed.

(** X28.  The configuration [get_prometheus_status] shows is the whole
    text when that has at most 2000 UTF-16 code units.  A longer text is
    cut: what is shown has exactly 2016 code units, namely the first
    2000 of the text and then the truncation note, and [fullLength]
    holds the length of the whole text.  [fullLength] is present only
    then. *)
Theorem shown_config_is_bounded (config : string) :
  let shown := statusTools.show_config config in
  (Text.length (statusTools.shown_yaml shown) <= 2016)%nat
  /\ ((Text.length config <= 2000)%nat ->
      shown = {| statusTools.shown_yaml := config; statusTools.fullLength := None |})
  /\ ((2000 < Text.length config)%nat ->
      Text.length (statusTools.shown_yaml shown) = 2016%nat
      /\ statusTools.shown_yaml shown
         = Text.substring_to 2000 config ++ nl ++ "... (truncated)"
      /\ Text.length (Text.substring_to 2000 config) = 2000%nat
      /\ Text.substring_to 2000 (statusTools.shown_yaml shown)
         = Text.substring_to 2000 config
      /\ statusTools.fullLength shown = Some (Z.of_nat (Text.length config)))
  /\ (statusTools.fullLength shown <> None <-> (2000 < Text.length config)%nat).
Proof.
  cbv zeta. unfold statusTools.show_config.
  pose proof (substring_to_length 2000 config) as L.
  destruct (Z.ltb_spec 2000 (Z.of_nat (Text.length config))) as [Hlong|Hshort];
    cbn [statusTools.shown_yaml statusTools.fullLength].
  - assert (L' : Text.length (Text.substring_to 2000 config) = 2000%nat) by lia.
    assert (N : Text.length (nl ++ "... (truncated)") = 16%nat) by reflexivity.
    rewrite text_length_append, N, L'.
    split; [lia|]. split; [lia|]. split.
    + intros _. split; [reflexivity|]. split; [reflexivity|]. split; [reflexivity|].
      split; [|reflexivity].
      rewrite <- L' at 1. apply substring_to_append. discriminate.
    + split; [intros _; lia | discriminate].
  - split; [lia|]. split; [reflexivity|]. split; [lia|].
    split; [congruence | lia].
Qed.

(** A configuration of 700 ideographs, which are 2100 bytes, is 700 code
    units long and is shown whole. *)
Example config_of_ideographs_is_whole :
  statusTools.show_config (copies 700 ideograph)
  = {| statusTools.shown_yaml := copies 700 ideograph;
       statusTools.fullLength := None |}.
Proof. vm_compute. reflexivity. Qed.

(** A configuration whose code units 2000 and 2001 are the two halves of
    one character is cut between them: what is shown ends, before the
    note, in the first half, 0xD83D. *)
Example config_cut_inside_a_pair :
  statusTools.show_config (copies 1999 "a" ++ emoji ++ "b")
  = {| statusTools.shown_yaml :=
         copies 1999 "a"
         ++ String (ascii_of_nat 237)
              (String (ascii_of_nat 160) (String (ascii_of_nat 189) ""))
         ++ nl ++ "... (truncated)";
       statusTools.fullLength := Some 2002 |}.
Proof. vm_compute. reflexivity. Qed.

(** *** The statistics of the TSDB *)

(** X29.  Given statistics whose head times are valid dates,
    [get_tsdb_status] returns of each of the four lists the first
    entries: as many as a positive limit allows, ten at most when the
    limit is absent or zero.  The memory entries keep their name and
    their bytes, and their readable size is [formatBytes] of the bytes;
    the head times are shown as ISO strings. *)
Theorem tsdb_lists_are_limited
    (this : PrometheusClient) (args : statusTools.TsdbArgs)
    (w : World) (s s' : State) (tsdb : TsdbStatus) :
  getTsdbStatus this w s = (Return tsdb, s') ->
  validTime (minTime (headStats tsdb)) = true ->
  validTime (maxTime (headStats tsdb)) = true ->
  exists r,
    statusTools.get_tsdb_status this args w s = (Return r, s')
    /\ (forall n, statusTools.tsdb_limit args = Some n -> 0 < n ->
        top_lengths r = map (Z.min n) (tsdb_lengths tsdb))
    /\ (statusTools.tsdb_limit args = None \/ statusTools.tsdb_limit args = Some 0 ->
        top_lengths r = map (Z.min 10) (tsdb_lengths tsdb))
    /\ prefix_of (statusTools.topMetricsBySeriesCount r) (seriesCountByMetricName tsdb)
    /\ prefix_of (statusTools.topLabelsByValueCount r) (labelValueCountByLabelName tsdb)
    /\ prefix_of (statusTools.topLabelValuePairs r) (seriesCountByLabelValuePair tsdb)
    /\ prefix_of (map (fun m => {| nv_name := statusTools.mu_name m;
                                   nv_value := statusTools.mu_bytes m |})
                    (statusTools.topLabelsByMemoryUsage r))
         (memoryInBytesByLabelName tsdb)
    /\ (forall m, In m (statusTools.topLabelsByMemoryUsage r) ->
        statusTools.humanReadable m = statusTools.formatBytes (statusTools.mu_bytes m))
    /\ statusTools.shown_minTime (statusTools.shown_headStats r)
       = ISOString (minTime (headStats tsdb))
    /\ statusTools.shown_maxTime (statusTools.shown_headStats r)
       = ISOString (maxTime (headStats tsdb)).
Proof.
  intros Hget Hmin Hmax.
  unfold statusTools.get_tsdb_status, bind, lift, toISOString. rewrite Hget, Hmin, Hmax.
  eexists. split; [reflexivity|].
  unfold top_lengths, tsdb_lengths.
  cbn [statusTools.topMetricsBySeriesCount statusTools.topLabelsByValueCount
         statusTools.topLabelsByMemoryUsage statusTools.topLabelValuePairs
         statusTools.shown_headStats statusTools.shown_minTime
         statusTools.shown_maxTime map].
  rewrite length_map, !slice_to_length.
  split.
  { intros n E Hn. rewrite E. unfold number_or.
    destruct (Z.eqb_spec n 0); [lia|]. destruct (Z.ltb_spec n 0); [lia | reflexivity]. }
  split; [intros [-> | ->]; reflexivity|].
  split; [apply slice_to_prefix|]. split; [apply slice_to_prefix|].
  split; [apply slice_to_prefix|].
  split.
  { rewrite map_map. cbn [statusTools.mu_name statusTools.mu_bytes].
    destruct (slice_to_prefix (memoryInBytesByLabelName tsdb)
                (number_or (statusTools.tsdb_limit args) 10)) as [rest Hrest].
    exists rest. rewrite Hrest at 1. f_equal.
    clear. induction (slice_to _ _) as [|[n v] l IH]; [reflexivity|].
    cbn [map nv_name nv_value]. rewrite <- IH. reflexivity. }
  split; [|split; reflexivity].
  intros m Hm. apply in_map_iff in Hm as [l [<- _]]. reflexivity.
Qed.

Lemma tsdb_lists_are_limited_witness :
  let tsdb := some_tsdb 1700000000000 1700003600000 in
  let w := tsdb_world tsdb in
  let args := {| statusTools.tsdb_limit := Some 2 |} in
  exists r,
    statusTools.get_tsdb_status some_client args w initial
    = (Return r, snd (getTsdbStatus some_client w initial))
    /\ top_lengths r = [2; 2; 2; 0]
    /\ map statusTools.mu_name (statusTools.topLabelsByMemoryUsage r)
       = ["__name__"; "instance"].
Proof.
  intros tsdb w args.
  destruct (@tsdb_lists_are_limited some_client args w initial
              (snd (getTsdbStatus some_client w initial)) tsdb
              eq_refl eq_refl eq_refl)
    as [r [R [L _]]].
  exists r. split; [exact R|].
  split; [exact (L 2 eq_refl eq_refl)|].
  vm_compute in R. injection R as <-. reflexivity.
Defined.

(** X30.  When a head time of the statistics is no valid date, as the
    extreme times of an empty head are, [get_tsdb_status] throws the
    RangeError "Invalid time value" once the statistics have arrived,
    and returns none of them. *)
Theorem tsdb_invalid_head_time_throws
    (this : PrometheusClient) (args : statusTools.TsdbArgs)
    (w : World) (s s' : State) (tsdb : TsdbStatus) :
  getTsdbStatus this w s = (Return tsdb, s') ->
  validTime (minTime (headStats tsdb)) = false
  \/ validTime (maxTime (headStats tsdb)) = false ->
  statusTools.get_tsdb_status this args w s = (Throw (Error "Invalid time value"), s').
Proof.
  intros Hget Hbad.
  unfold statusTools.get_tsdb_status, bind, lift, toISOString. rewrite Hget.
  destruct Hbad as [H | H]; rewrite H;
    [|destruct (validTime (minTime (headStats tsdb)))]; reflexivity.
Qed.

Lemma tsdb_invalid_head_time_throws_witness :
  let tsdb := some_tsdb 9223372036854775807 (-9223372036854775808) in
  let w := tsdb_world tsdb in
  statusTools.get_tsdb_status some_client {| statusTools.tsdb_limit := None |} w initial
  = (Throw (Error "Invalid time value"), snd (getTsdbStatus some_client w initial)).
Proof.
  intros tsdb w.
  apply (@tsdb_invalid_head_time_throws some_client {| statusTools.tsdb_limit := None |}
           w initial (snd (getTsdbStatus some_client w initial)) tsdb eq_refl).
  left. reflexivity.
Defined.
